(** * translator-voice-en-ht: the HTTP handlers of the sample collector

    A shallow embedding of the request handlers of the repository:
    - [Server]: the partitioned Node server (data/audio/en, data/audio/ht,
      data/pairs, MAX_FILE_SIZE), the second document of
      netlify/functions/samples-link.js;
    - [Lab0]: the first server, server.js, with its single data directory;
    - [NetlifyLink]: the function of netlify/functions/samples-link.js;
    - [NetlifyAsr]: the function of netlify/functions/asr-upload.js;
    - [NetlifyAsrDraft]: its two later drafts (src/unnamed/part_001);
    - [Csv]: the CSV writer of netlify/functions/export.js.

    JavaScript strings are [string]s whose characters are code points below
    256 (the Latin-1 reading Node gives header bytes). A character above 255
    never lower-cases into one of the words the handlers compare with, so
    leaving it out changes no test. Values are [jsval], numbers being the
    doubles they are. The file system is an oracle that may refuse an
    operation, together with the trace of the operations that went through;
    [randomUUID], the clock and [JSON.parse] are given by the host. *)

From Stdlib Require Import String Ascii List ZArith NArith Lia Bool Permutation Sorted.
From Stdlib Require Import DecimalString.
From Stdlib Require PrimFloat Uint63 Strings.Byte.
Import ListNotations.
Open Scope string_scope.
Open Scope list_scope.

(** ** JavaScript strings *)

Module JsString.

(** [String.prototype.toLowerCase] on one code point below 256: A-Z and
    the Latin-1 capitals (U+00C0-U+00DE but the sign U+00D7) move up by 32. *)
Definition lower_char (c : ascii) : ascii :=
  let n := N_of_ascii c in
  if ((65 <=? n) && (n <=? 90))%N then ascii_of_N (n + 32)
  else if ((192 <=? n) && (n <=? 222) && negb (n =? 215))%N then ascii_of_N (n + 32)
  else c.

Fixpoint toLowerCase (s : string) : string :=
  match s with
  | EmptyString => EmptyString
  | String c s' => String (lower_char c) (toLowerCase s')
  end.

(** [s.startsWith(p)] *)
Definition startsWith (s p : string) : bool := prefix p s.

(** [s.includes(p)]: [p] starts at some position of [s]. *)
Fixpoint includes (s p : string) : bool :=
  prefix p s ||
  match s with
  | EmptyString => false
  | String _ s' => includes s' p
  end.

(** [s.endsWith(p)]: the last [length p] characters of [s] are [p]. *)
Definition endsWith (s p : string) : bool :=
  (String.length p <=? String.length s)%nat &&
  (substring (String.length s - String.length p) (String.length p) s =? p).

(** [s.split(sep)] for a one-character separator: never empty. *)
Fixpoint split (sep : ascii) (s : string) : list string :=
  match s with
  | EmptyString => [EmptyString]
  | String c s' =>
      if Ascii.eqb c sep then EmptyString :: split sep s'
      else match split sep s' with
           | [] => [String c EmptyString]
           | w :: ws => String c w :: ws
           end
  end.

(** [parts.join(sep)] *)
Fixpoint join (sep : string) (parts : list string) : string :=
  match parts with
  | [] => EmptyString
  | [p] => p
  | p :: ps => (p ++ sep ++ join sep ps)%string
  end.

(** The decimal digits of a natural number. *)
Definition digits (n : Z) : string := NilEmpty.string_of_int (Z.to_int n).

(** The double nearest to a positive integer, ties to even: what a number
    of that value is once JavaScript holds it. *)
Definition round53 (a : Z) : Z :=
  (let b := Z.log2 a + 1 in
   if b <=? 53 then a
   else
     let sh := b - 53 in
     let q := Z.shiftr a sh in
     let r := Z.land a (Z.ones sh) in
     let half := Z.shiftl 1 (sh - 1) in
     Z.shiftl (if (half <? r) || ((r =? half) && Z.odd q) then q + 1 else q) sh)%Z.

(** Number::toString, steps 5 and following, for a double [x] of [n]
    decimal digits: the least [k] and the [s] of [k] digits with
    [s * 10^(n-k)] read back as [x]; of two such [s] the one nearer to
    [x], the even one when they are as near. Gives [(s, k, n)]. *)
Fixpoint shortest (fuel : nat) (k x n : Z) : Z * Z * Z :=
  match fuel with
  | O => (x, n, n)
  | S fuel' =>
      (let p := 10 ^ (n - k) in
       let lo := x / p in
       let hi := lo + 1 in
       let ok_lo := round53 (lo * p) =? x in
       let ok_hi := round53 (hi * p) =? x in
       let carried := if hi =? 10 ^ k then (1, 1, n + 1) else (hi, k, n) in
       if ok_lo && ok_hi then
         let dl := x - lo * p in
         let dh := hi * p - x in
         if (dl <? dh) || ((dl =? dh) && Z.even lo) then (lo, k, n) else carried
       else if ok_lo then (lo, k, n)
       else if ok_hi then carried
       else shortest fuel' (k + 1) x n)%Z
  end.

(** [`${n}`] and [String(n)] for a number whose value is the integer [n]:
    the shortest digits that read back as the same double, followed by
    zeros below 1e21 and in exponent form from there on. *)
Definition of_Z (v : Z) : string :=
  if (v =? 0)%Z then "0"
  else
    let sign := if (v <? 0)%Z then "-" else "" in
    let x := round53 (Z.abs v) in
    if (2 ^ 1024 <=? x)%Z then (sign ++ "Infinity")%string
    else
      let '(s, k, n) :=
        let n := Z.of_nat (String.length (digits x)) in
        shortest (Z.to_nat n) 1 x n in
      if (n <=? 21)%Z
      then (sign ++ digits s ++ String.concat "" (repeat "0" (Z.to_nat (n - k))))%string
      else
        match digits s with
        | EmptyString => EmptyString
        | String d rest =>
            (sign ++ String d (if rest =? "" then "" else "." ++ rest)
                  ++ "e+" ++ digits (n - 1))%string
        end.

End JsString.
Import JsString.

(** [extFromContentType(ct = '')], the same text in both servers. The
    argument is [None] for undefined, which the default turns into ''. *)
Definition extFromContentType (ct : option string) : string :=
  let t := toLowerCase (match ct with Some s => s | None => "" end) in
  if includes t "audio/webm" then ".webm"
  else if includes t "audio/wav" then ".wav"
  else if includes t "audio/mpeg" || includes t "audio/mp3" then ".mp3"
  else if includes t "audio/ogg" then ".ogg"
  else ".bin".

(** ** JavaScript values *)

#[local] Set Warnings "-register-all".

(** What [JSON.parse] builds and what the handlers put into objects, with
    [undefined] for an absent property. Objects keep their properties in
    insertion order, one binding per name. *)
Inductive jsval : Type :=
| JUndefined
| JNull
| JBool (b : bool)
| JNum (x : PrimFloat.float)
| JStr (s : string)
| JArr (items : list jsval)
| JObj (props : list (string * jsval)).

(** [Boolean(v)], the test behind [!v], [a || b] and [.filter(Boolean)]. *)
Definition truthy (v : jsval) : bool :=
  match v with
  | JUndefined | JNull => false
  | JBool b => b
  | JNum x => negb (PrimFloat.is_zero x || PrimFloat.is_nan x)
  | JStr s => negb (s =? "")
  | JArr _ | JObj _ => true
  end.

(** [a || b] *)
Definition js_or (a b : jsval) : jsval := if truthy a then a else b.

(** [h || d] for a header or query value that is a string when present. *)
Definition or_str (h : option string) (d : string) : string :=
  match h with
  | Some s => if s =? "" then d else s
  | None => d
  end.

Fixpoint lookup (k : string) (props : list (string * jsval)) : jsval :=
  match props with
  | [] => JUndefined
  | (k', v) :: rest => if k' =? k then v else lookup k rest
  end.

(** [v.k] for a [v] that is neither null nor undefined and a name [k] that
    no prototype defines (term, category, consent, ...): an own property of
    an object, undefined on everything else. *)
Definition get (v : jsval) (k : string) : jsval :=
  match v with
  | JObj props => lookup k props
  | _ => JUndefined
  end.

(** Defining property [k]: an existing binding keeps its place. *)
Fixpoint obj_set (k : string) (v : jsval) (props : list (string * jsval))
  : list (string * jsval) :=
  match props with
  | [] => [(k, v)]
  | (k', v') :: rest =>
      if k' =? k then (k, v) :: rest else (k', v') :: obj_set k v rest
  end.

(** [{ ...base, ...more }] *)
Definition spread (base more : list (string * jsval)) : list (string * jsval) :=
  fold_left (fun acc kv => obj_set (fst kv) (snd kv) acc) more base.

(** The JSON document that the text [JSON.stringify(v)] denotes: a property
    holding undefined is left out, an undefined array slot and a number
    that is not finite become null, and -0 is written 0. *)
Fixpoint stringified (v : jsval) : jsval :=
  match v with
  | JNum x =>
      if PrimFloat.is_finite x
      then (if PrimFloat.is_zero x then JNum PrimFloat.zero else v)
      else JNull
  | JArr items =>
      JArr (map (fun i => match i with
                          | JUndefined => JNull
                          | _ => stringified i
                          end) items)
  | JObj props =>
      JObj ((fix go (ps : list (string * jsval)) : list (string * jsval) :=
               match ps with
               | [] => []
               | (k, JUndefined) :: rest => go rest
               | (k, i) :: rest => (k, stringified i) :: go rest
               end) props)
  | _ => v
  end.

(** A length or count as a JavaScript number. *)
Definition num_of_nat (n : nat) : PrimFloat.float :=
  PrimFloat.of_uint63 (Uint63.of_Z (Z.of_nat n)).

Definition opt_str (o : option string) : jsval :=
  match o with
  | Some s => JStr s
  | None => JUndefined
  end.

(** ** The file system and the handlers' effects *)

Record path := { p_dir : string; p_name : string }.

(** What [fs.writeFileSync] is given: a Buffer, or the text
    [JSON.stringify(v, null, 2)], kept as the document it denotes. *)
Inductive content :=
| Buffer (bytes : list Byte.byte)
| JsonText (doc : jsval).

(** The operations that change the disk. *)
Inductive fs_op :=
| MkDir (dir : string)
| WriteFile (p : path) (c : content).

Definition is_write (op : fs_op) : bool :=
  match op with
  | WriteFile _ _ => true
  | MkDir _ => false
  end.

(** A file as the listing sees it: its name from [readdirSync]; what
    [statSync(f)] does, the error it throws or else the [mtimeMs] it returns
    (finite, so the sign of a difference orders two of them; kept here on an
    integer scale); and what [JSON.parse(fs.readFileSync(f, 'utf8'))]
    evaluates to, [None] when either call throws. *)
Record dirent := { d_name : string; d_stat : string + Z; d_parse : option jsval }.

(** The [mtimeMs] of a file whose stat returned. *)
Definition d_mtimeMs (f : dirent) : Z :=
  match d_stat f with
  | inr m => m
  | inl _ => 0%Z
  end.

(** What a handler gets from outside during one call. An error is the text
    [String(err)]. *)
Record host := {
  h_MAX_FILE_SIZE : option Z;       (* parseInt(process.env.MAX_FILE_SIZE), None for NaN *)
  h_randomUUID : string;            (* randomUUID() *)
  h_now : string;                   (* new Date().toISOString() *)
  h_JSON_parse : list Byte.byte -> string + jsval;  (* JSON.parse(body.toString('utf8')) *)
  h_refuses : fs_op -> option string;   (* mkdirSync / writeFileSync throwing *)
  h_readdir : string -> string + list dirent   (* readdirSync *)
}.

Inductive outcome (A : Type) : Type :=
| Returned (a : A)
| Thrown (err : string).
Arguments Returned {A} a.
Arguments Thrown {A} err.

(** A computation reads the host and extends the trace of the disk
    operations that succeeded; it returns or throws. *)
Definition M (A : Type) : Type := host -> list fs_op -> outcome A * list fs_op.

Definition ret {A} (a : A) : M A := fun _ t => (Returned a, t).

Definition throw {A} (err : string) : M A := fun _ t => (Thrown err, t).

Definition bind {A B} (m : M A) (k : A -> M B) : M B :=
  fun h t =>
    match m h t with
    | (Returned a, t') => k a h t'
    | (Thrown err, t') => (Thrown err, t')
    end.

Definition try_catch {A} (m : M A) (handler : string -> M A) : M A :=
  fun h t =>
    match m h t with
    | (Returned a, t') => (Returned a, t')
    | (Thrown err, t') => handler err h t'
    end.

Definition ask : M host := fun h t => (Returned h, t).

Definition perform (op : fs_op) : M unit :=
  fun h t =>
    match h_refuses h op with
    | Some err => (Thrown err, t)
    | None => (Returned tt, t ++ [op])
    end.

Definition lift {A} (r : string + A) : M A :=
  match r with
  | inl err => throw err
  | inr a => ret a
  end.

Declare Scope js_scope.
Delimit Scope js_scope with js.
Notation "x <- m ;; k" := (bind m (fun x => k))
  (at level 61, m at next level, right associativity) : js_scope.
Notation "m ;;; k" := (bind m (fun _ => k))
  (at level 61, right associativity) : js_scope.

Definition writeFileSync (p : path) (c : content) : M unit := perform (WriteFile p c).

Definition readdirSync (dir : string) : M (list dirent) :=
  fun h t => lift (h_readdir h dir) h t.

(** [fs.statSync(f).mtimeMs] *)
Definition statSync (f : dirent) : M Z :=
  fun h t => lift (d_stat f) h t.

(** [.map(f => ({ f, m: fs.statSync(f).mtimeMs }))]: the files in their
    order, each with its time (its [d_mtimeMs]); the first stat that throws
    ends the map. *)
Fixpoint stat_all {A} (file : A -> dirent) (files : list A) : M (list A) :=
  match files with
  | [] => ret []
  | f :: rest =>
      (_ <- statSync (file f) ;;
       stated <- stat_all file rest ;;
       ret (f :: stated))%js
  end.

Record response := { status : Z; body : jsval }.

(** [res.writeHead(code, ...); res.end(JSON.stringify(obj))] *)
Definition send (code : Z) (obj : list (string * jsval)) : response :=
  {| status := code; body := stringified (JObj obj) |}.

(** The incoming message of the Node servers. *)
Record request := {
  method : string;
  pathname : string;                     (* url.pathname *)
  query_kind : option string;            (* url.searchParams.get('kind') *)
  content_type : option string;          (* req.headers['content-type'] *)
  user_agent : option string;            (* req.headers['user-agent'] *)
  remoteAddress : option string;         (* req.socket.remoteAddress *)
  chunks : list (list Byte.byte)         (* what iterating req yields, to its end *)
}.

(** Stable sort, newest first: what [.sort((a, b) => b.m - a.m)] leaves. *)
Fixpoint insert_newest_first {A} (m : A -> Z) (x : A) (l : list A) : list A :=
  match l with
  | [] => [x]
  | y :: l' =>
      if (m y <=? m x)%Z then x :: y :: l' else y :: insert_newest_first m x l'
  end.

Definition sort_newest_first {A} (m : A -> Z) (l : list A) : list A :=
  fold_right (insert_newest_first m) [] l.

(** [.map(parse-or-null).filter(Boolean)] *)
Definition parse_all {A} (parse : A -> option jsval) (l : list A) : list jsval :=
  filter truthy
    (map (fun f => match parse f with Some v => v | None => JNull end) l).

Definition with_default (v d : jsval) : jsval :=
  match v with
  | JUndefined => d
  | _ => v
  end.

Definition ten_MiB : Z := 10 * 1024 * 1024.

(** ** The partitioned server *)

Module Server.
Local Open Scope js_scope.

Definition DATA_ROOT := "data".
Definition AUDIO_EN_DIR := "data/audio/en".
Definition AUDIO_HT_DIR := "data/audio/ht".
Definition PAIRS_DIR := "data/pairs".
Definition MANIFESTS_DIR := "data/manifests".

(** [parseInt(process.env.MAX_FILE_SIZE) || 10 * 1024 * 1024] *)
Definition MAX_FILE_SIZE (h : host) : Z :=
  match h_MAX_FILE_SIZE h with
  | Some n => if (n =? 0)%Z then ten_MiB else n
  | None => ten_MiB
  end.

(** [ensureDir]: the error of [mkdirSync] is logged and thrown again. *)
Definition ensureDir (dir : string) : M unit :=
  try_catch (perform (MkDir dir)) (fun err => throw err).

(** The loop of [readBody]: [totalSize] and [got] are its two variables. *)
Fixpoint readBody_loop (maxSize totalSize : Z) (got rest : list (list Byte.byte))
  : string + list Byte.byte :=
  match rest with
  | [] => inr (concat got)
  | chunk :: rest' =>
      let totalSize := (totalSize + Z.of_nat (List.length chunk))%Z in
      if (maxSize <? totalSize)%Z
      then inl ("Error: Request body too large. Max size: " ++ of_Z maxSize ++ " bytes")%string
      else readBody_loop maxSize totalSize (got ++ [chunk]) rest'
  end.

Definition readBody (r : request) : M (list Byte.byte) :=
  h <- ask ;; lift (readBody_loop (MAX_FILE_SIZE h) 0 [] (chunks r)).

Inductive endpoint :=
| Preflight | Healthz | StaticIndex | StaticPublic
| AsrUpload | LinkPair | ListSamples | NotFound.

(** The chain of tests of the request listener, in its order. *)
Definition route (r : request) : endpoint :=
  if method r =? "OPTIONS" then Preflight
  else if (pathname r =? "/healthz") && (method r =? "GET") then Healthz
  else if (method r =? "GET") && ((pathname r =? "/") || (pathname r =? "/index.html"))
  then StaticIndex
  else if (method r =? "GET") && startsWith (pathname r) "/public/" then StaticPublic
  else if startsWith (pathname r) "/api/asr/" && (method r =? "POST") then AsrUpload
  else if (pathname r =? "/api/samples/link") && (method r =? "POST") then LinkPair
  else if (pathname r =? "/api/samples") && (method r =? "GET") then ListSamples
  else NotFound.

(** The sidecar object of POST /api/asr/:lang. *)
Definition metadata (h : host) (r : request) (lang contentType ext : string)
           (body : list Byte.byte) : list (string * jsval) :=
  let id := h_randomUUID h in
  [ ("kind", JStr "audio");
    ("id", JStr id);
    ("lang", JStr (if lang =? "ht" then "ht-HT" else "en-US"));
    ("createdAt", JStr (h_now h));
    ("ip", opt_str (remoteAddress r));
    ("userAgent", JStr (or_str (user_agent r) ""));
    ("contentType", JStr contentType);
    ("bytes", JNum (num_of_nat (List.length body)));
    ("audioFile", JStr (id ++ ext)%string);
    ("transcript",
      JStr (if lang =? "ht" then "Bonjou mond (ASR stub)" else "Hello World (ASR stub)"));
    ("codec",
      JStr (if ext =? ".wav" then "pcm_s16le"
            else if ext =? ".webm" then "opus" else "unknown"));
    ("sr", JNull);
    ("duration_s", JNull);
    ("domain", JArr []) ].

(** POST /api/asr/:lang *)
Definition asr (r : request) : M response :=
  try_catch
    (h <- ask ;;
     let parts := split "/" (pathname r) in
     let lang := toLowerCase (or_str (nth_error parts 3) "en") in
     body <- readBody r ;;
     let contentType := or_str (content_type r) "application/octet-stream" in
     let id := h_randomUUID h in
     let ext := extFromContentType (Some contentType) in
     let folder := if lang =? "ht" then AUDIO_HT_DIR else AUDIO_EN_DIR in
     ensureDir folder ;;;
     ensureDir MANIFESTS_DIR ;;;
     let audioPath := {| p_dir := folder; p_name := (id ++ ext)%string |} in
     let metaPath := {| p_dir := folder; p_name := (id ++ ".json")%string |} in
     writeFileSync audioPath (Buffer body) ;;;
     let meta := metadata h r lang contentType ext body in
     writeFileSync metaPath (JsonText (stringified (JObj meta))) ;;;
     ret (send 200 (spread [("ok", JBool true)] meta)))
    (fun err =>
       ret (send 500 [("ok", JBool false); ("error", JStr "ASR save failed");
                      ("details", JStr err)])).

(** The pair record of POST /api/samples/link. *)
Definition pair_record (h : host) (p : jsval) : list (string * jsval) :=
  let term := get p "term" in
  [ ("kind", JStr "pair");
    ("sampleId", JStr (h_randomUUID h));
    ("createdAt", JStr (h_now h));
    ("term", term);
    ("category", get p "category");
    ("annotator", with_default (get p "annotator") (JStr "anonymous"));
    ("consent", JBool (truthy (with_default (get p "consent") (JBool false))));
    ("en", JObj [("text", js_or (get p "enText") term);
                 ("audioRef", get p "enAudioId")]);
    ("ht", JObj [("text", js_or (get p "htText") (JStr ""));
                 ("audioRef", get p "htAudioId")]) ].

(** POST /api/samples/link *)
Definition link (r : request) : M response :=
  try_catch
    (h <- ask ;;
     ensureDir PAIRS_DIR ;;;
     body <- readBody r ;;
     payload <- lift (h_JSON_parse h body) ;;
     let p := js_or payload (JObj []) in
     let consent := with_default (get p "consent") (JBool false) in
     if negb (truthy (get p "term")) || negb (truthy (get p "category"))
        || negb (truthy (get p "enAudioId")) || negb (truthy (get p "htAudioId"))
        || negb (truthy consent)
     then ret (send 400 [("ok", JBool false);
                         ("error", JStr "Missing required fields or consent=false")])
     else
       let sampleId := h_randomUUID h in
       let record := pair_record h p in
       writeFileSync {| p_dir := PAIRS_DIR; p_name := (sampleId ++ ".pair.json")%string |}
                     (JsonText (stringified (JObj record))) ;;;
       ret (send 200 [("ok", JBool true); ("sampleId", JStr sampleId);
                      ("record", JObj record)]))
    (fun err =>
       ret (send 500 [("ok", JBool false); ("error", JStr "Linking failed");
                      ("details", JStr err)])).

(** One round of the loops that fill [collect]: the files of [dir] whose
    name ends with [suffix], each with its directory. *)
Definition collect_dir (dir suffix : string) : M (list (string * dirent)) :=
  ensureDir dir ;;;
  files <- readdirSync dir ;;
  ret (map (fun f => (dir, f)) (filter (fun f => endsWith (d_name f) suffix) files)).

Definition collect_audio (kind : string) : M (list (string * dirent)) :=
  if (kind =? "audio") || (kind =? "all")
  then en <- collect_dir AUDIO_EN_DIR ".json" ;;
       ht <- collect_dir AUDIO_HT_DIR ".json" ;;
       ret (en ++ ht)
  else ret [].

Definition collect_pairs (kind : string) : M (list (string * dirent)) :=
  if (kind =? "pair") || (kind =? "all")
  then collect_dir PAIRS_DIR ".pair.json"
  else ret [].

(** [collect] after the two blocks. *)
Definition collect (kind : string) : M (list (string * dirent)) :=
  audio <- collect_audio kind ;;
  pairs <- collect_pairs kind ;;
  ret (audio ++ pairs).

(** [.sort((a, b) => b.m - a.m).slice(0, 50)] on the files that [stat_all]
    returned. *)
Definition newest_50 (collected : list (string * dirent)) : list (string * dirent) :=
  firstn 50 (sort_newest_first (fun f => d_mtimeMs (snd f)) collected).

Definition items_of (collected : list (string * dirent)) : list jsval :=
  parse_all (fun f => d_parse (snd f)) (newest_50 collected).

(** GET /api/samples *)
Definition samples (r : request) : M response :=
  try_catch
    (let kind := toLowerCase (or_str (query_kind r) "all") in
     ensureDir DATA_ROOT ;;;
     collected <- collect kind ;;
     stated <- stat_all snd collected ;;
     let items := items_of stated in
     ret (send 200 [("ok", JBool true);
                    ("count", JNum (num_of_nat (List.length items)));
                    ("kind", JStr kind);
                    ("items", JArr items)]))
    (fun err =>
       ret (send 500 [("ok", JBool false); ("error", JStr "List failed");
                      ("details", JStr err)])).

(** One call: the response and the disk operations that went through.
    An error that leaves a handler reaches the listener's own catch. *)
Definition run (m : M response) (h : host) : response * list fs_op :=
  match m h [] with
  | (Returned res, t) => (res, t)
  | (Thrown err, t) =>
      (send 500 [("ok", JBool false); ("error", JStr "Internal server error");
                 ("details", JStr err)], t)
  end.

End Server.

(** ** The first server (server.js) *)

Module Lab0.
Local Open Scope js_scope.

Definition DATA_DIR := "data".

(** [ensureDir]: the error of [mkdirSync] is swallowed. *)
Definition ensureDir (dir : string) : M unit :=
  try_catch (perform (MkDir dir)) (fun _ => ret tt).

(** [readBody]: every chunk is kept. *)
Definition readBody (r : request) : M (list Byte.byte) :=
  ret (concat (chunks r)).

Definition metadata (h : host) (r : request) (lang contentType ext : string)
           (body : list Byte.byte) : list (string * jsval) :=
  let id := h_randomUUID h in
  [ ("kind", JStr "audio");
    ("id", JStr id);
    ("lang", JStr lang);
    ("createdAt", JStr (h_now h));
    ("ip", opt_str (remoteAddress r));
    ("userAgent", JStr (or_str (user_agent r) ""));
    ("contentType", JStr contentType);
    ("bytes", JNum (num_of_nat (List.length body)));
    ("audioFile", JStr (id ++ ext)%string);
    ("transcript",
      JStr (if lang =? "ht" then "Bonjou mond (ASR stub)" else "Hello World (ASR stub)"));
    ("notes", JStr "Replace transcript with real ASR later.") ].

(** POST /api/asr/:lang *)
Definition asr (r : request) : M response :=
  try_catch
    (h <- ask ;;
     ensureDir DATA_DIR ;;;
     let parts := split "/" (pathname r) in
     let lang := or_str (nth_error parts 3) "en" in
     body <- readBody r ;;
     let contentType := or_str (content_type r) "application/octet-stream" in
     let id := h_randomUUID h in
     let ext := extFromContentType (Some contentType) in
     let audioPath := {| p_dir := DATA_DIR; p_name := (id ++ ext)%string |} in
     let metaPath := {| p_dir := DATA_DIR; p_name := (id ++ ".json")%string |} in
     writeFileSync audioPath (Buffer body) ;;;
     let meta := metadata h r lang contentType ext body in
     writeFileSync metaPath (JsonText (stringified (JObj meta))) ;;;
     ret (send 200 (spread [("ok", JBool true)] meta)))
    (fun err =>
       ret (send 500 [("ok", JBool false); ("error", JStr "ASR save failed");
                      ("details", JStr err)])).

Definition pair_record (h : host) (p : jsval) : list (string * jsval) :=
  let term := get p "term" in
  [ ("kind", JStr "pair");
    ("sampleId", JStr (h_randomUUID h));
    ("createdAt", JStr (h_now h));
    ("term", term);
    ("category", get p "category");
    ("annotator", with_default (get p "annotator") (JStr "anonymous"));
    ("en", JObj [("text", js_or (get p "enText") term);
                 ("audioRef", get p "enAudioId")]);
    ("ht", JObj [("text", js_or (get p "htText") (JStr ""));
                 ("audioRef", get p "htAudioId")]) ].

(** POST /api/samples/link *)
Definition link (r : request) : M response :=
  try_catch
    (h <- ask ;;
     ensureDir DATA_DIR ;;;
     body <- readBody r ;;
     payload <- lift (h_JSON_parse h body) ;;
     let p := js_or payload (JObj []) in
     if negb (truthy (get p "term")) || negb (truthy (get p "category"))
        || negb (truthy (get p "enAudioId")) || negb (truthy (get p "htAudioId"))
     then ret (send 400 [("ok", JBool false); ("error", JStr "Missing required fields")])
     else
       let sampleId := h_randomUUID h in
       let record := pair_record h p in
       writeFileSync {| p_dir := DATA_DIR; p_name := (sampleId ++ ".pair.json")%string |}
                     (JsonText (stringified (JObj record))) ;;;
       ret (send 200 [("ok", JBool true); ("sampleId", JStr sampleId);
                      ("record", JObj record)]))
    (fun err =>
       ret (send 500 [("ok", JBool false); ("error", JStr "Linking failed");
                      ("details", JStr err)])).

(** The predicate given to [files.filter]. *)
Definition selects (kind f : string) : bool :=
  if kind =? "audio" then endsWith f ".json" && negb (endsWith f ".pair.json")
  else if kind =? "pair" then endsWith f ".pair.json"
  else endsWith f ".json".

Definition newest_50 (selected : list dirent) : list dirent :=
  firstn 50 (sort_newest_first d_mtimeMs selected).

Definition items_of (selected : list dirent) : list jsval :=
  parse_all d_parse (newest_50 selected).

(** GET /api/samples *)
Definition samples (r : request) : M response :=
  try_catch
    (ensureDir DATA_DIR ;;;
     let kind := toLowerCase (or_str (query_kind r) "all") in
     files <- readdirSync DATA_DIR ;;
     let selected := filter (fun f => selects kind (d_name f)) files in
     stated <- stat_all (fun f => f) selected ;;
     let items := items_of stated in
     ret (send 200 [("ok", JBool true);
                    ("count", JNum (num_of_nat (List.length items)));
                    ("kind", JStr kind);
                    ("items", JArr items)]))
    (fun err =>
       ret (send 500 [("ok", JBool false); ("error", JStr "List failed");
                      ("details", JStr err)])).

(** One call; this listener has no catch of its own, so an error that
    left a handler would leave no response. *)
Definition run (m : M response) (h : host) : option response * list fs_op :=
  match m h [] with
  | (Returned res, t) => (Some res, t)
  | (Thrown _, t) => (None, t)
  end.

End Lab0.

(** ** The Netlify functions *)

(** What a function returns: [body] is JSON text, kept as its document, or
    the empty text ([None]). The functions have no access to a disk. *)
Record netlify_response := { statusCode : Z; json : option jsval }.

Definition reply (code : Z) (obj : list (string * jsval)) : netlify_response :=
  {| statusCode := code; json := Some (stringified (JObj obj)) |}.

Module NetlifyLink.

Record event := {
  httpMethod : string;
  ev_body : option string        (* event.body, [None] for null or undefined *)
}.

Record clock := {
  c_JSON_parse : string -> string + jsval;   (* JSON.parse, an error as its message *)
  c_Date_now : string;                       (* `${Date.now()}` *)
  c_random : string;         (* Math.random().toString(36).substring(2, 15) *)
  c_now : string                             (* new Date().toISOString() *)
}.

(** [Object.entries(requiredFields).filter(([key, value]) => !value).map(([key]) => key)] *)
Definition missingFields (p : jsval) : list string :=
  let requiredFields :=
    [ ("term", get p "term"); ("category", get p "category");
      ("enAudioId", get p "enAudioId"); ("htAudioId", get p "htAudioId") ] in
  map fst (filter (fun kv => negb (truthy (snd kv))) requiredFields).

Definition mockRecord (c : clock) (sampleId : string) (p : jsval)
  : list (string * jsval) :=
  let term := get p "term" in
  [ ("kind", JStr "pair");
    ("sampleId", JStr sampleId);
    ("createdAt", JStr (c_now c));
    ("term", term);
    ("category", get p "category");
    ("annotator", js_or (get p "annotator") (JStr "anonymous"));
    ("consent", JBool (truthy (get p "consent")));
    ("en", JObj [("text", js_or (get p "enText") term);
                 ("audioRef", get p "enAudioId")]);
    ("ht", JObj [("text", js_or (get p "htText") (JStr ""));
                 ("audioRef", get p "htAudioId")]);
    ("status", JStr "temporary");
    ("message",
      JStr "This is a temporary response. Backend deployment needed for permanent storage.") ].

Definition failed (details : string) : netlify_response :=
  reply 500 [("ok", JBool false); ("error", JStr "Internal server error");
             ("message",
               JStr "Sample linking failed temporarily. Backend deployment needed.");
             ("details", JStr details)].

(** [JSON.parse(event.body || '{}')] *)
Definition parse_body (c : clock) (e : event) : string + jsval :=
  match ev_body e with
  | None => inr (JObj [])
  | Some s => if s =? "" then inr (JObj []) else c_JSON_parse c s
  end.

Definition handler (c : clock) (e : event) : netlify_response :=
  if httpMethod e =? "OPTIONS" then {| statusCode := 204; json := None |}
  else if negb (httpMethod e =? "POST")
  then reply 405 [("ok", JBool false); ("error", JStr "Method not allowed");
                  ("message", JStr "This endpoint only accepts POST requests")]
  else
    match parse_body c e with
    | inl message => failed message
    | inr JNull =>
        failed "Cannot destructure property 'term' of 'payload' as it is null."
    | inr JUndefined =>
        failed "Cannot destructure property 'term' of 'payload' as it is undefined."
    | inr p =>
        let missing := missingFields p in
        if negb (List.length missing =? 0)%nat || negb (truthy (get p "consent"))
        then
          let error :=
            if negb (List.length missing =? 0)%nat
            then ("Missing required fields: " ++ join ", " missing)%string
            else "Consent is required" in
          reply 400 [("ok", JBool false); ("error", JStr error);
                     ("missingFields",
                       if negb (List.length missing =? 0)%nat
                       then JArr (map JStr missing) else JUndefined)]
        else
          let sampleId :=
            ("temp-sample-" ++ c_Date_now c ++ "-" ++ c_random c)%string in
          reply 200 [("ok", JBool true); ("sampleId", JStr sampleId);
                     ("record", JObj (mockRecord c sampleId p))]
    end.

End NetlifyLink.

Module NetlifyAsr.

Record event := {
  httpMethod : string;
  ev_path : string;                    (* event.path *)
  ev_body : option string;             (* event.body *)
  ev_content_type : option string      (* event.headers['content-type'] *)
}.

Record clock := {
  c_Date_now : string;
  c_random : string;
  c_now : string
}.

(** [pathParts[pathParts.length - 1]] *)
Definition lang_of (path : string) : string :=
  last (split "/" path) "".

Definition handler (c : clock) (e : event) : netlify_response :=
  if httpMethod e =? "OPTIONS" then {| statusCode := 204; json := None |}
  else if negb (httpMethod e =? "POST")
  then reply 405 [("ok", JBool false); ("error", JStr "Method not allowed");
                  ("message", JStr "This endpoint only accepts POST requests")]
  else
    let lang := lang_of (ev_path e) in
    if negb ((lang =? "en") || (lang =? "ht"))
    then reply 400 [("ok", JBool false); ("error", JStr "Invalid language parameter");
                    ("message",
                      JStr ("Language must be 'en' or 'ht', got '" ++ lang ++ "'")%string)]
    else
      let audioId := ("temp-" ++ c_Date_now c ++ "-" ++ c_random c)%string in
      let bodySize := match ev_body e with
                      | Some s => String.length s
                      | None => 0%nat
                      end in
      let mockResponse :=
        [ ("kind", JStr "audio");
          ("id", JStr audioId);
          ("lang", JStr (if lang =? "ht" then "ht-HT" else "en-US"));
          ("createdAt", JStr (c_now c));
          ("contentType", JStr (or_str (ev_content_type e) "application/octet-stream"));
          ("bytes", JNum (num_of_nat bodySize));
          ("audioFile", JStr (audioId ++ ".webm")%string);
          ("transcript",
            JStr (if lang =? "ht" then "Bonjou mond (Temp ASR)"
                  else "Hello World (Temp ASR)"));
          ("codec", JStr "opus");
          ("sr", JNull);
          ("duration_s", JNull);
          ("domain", JArr []);
          ("status", JStr "temporary");
          ("message",
            JStr "This is a temporary response. Backend deployment needed for full functionality.") ] in
      reply 200 (spread [("ok", JBool true)] mockResponse).

End NetlifyAsr.

(** The two later drafts of the upload function (src/unnamed/part_001);
    they differ in their log lines only. *)
Module NetlifyAsrDraft.

Record event := {
  httpMethod : string;
  ev_path : option string;             (* event.path *)
  ev_query_lang : option string;       (* event.queryStringParameters?.lang *)
  ev_body : option string;             (* event.body *)
  ev_content_type : option string      (* event.headers['content-type'] *)
}.

(** [event.path.split('/').filter(part => part.length > 0)] *)
Definition pathParts (path : string) : list string :=
  filter (fun part => negb (part =? "")) (split "/" path).

(** The block that sets [lang]: 'en' unless the last part of the path is
    en or ht, or else a [lang] query parameter is given. *)
Definition detect (e : event) : string :=
  match ev_path e with
  | None => "en"
  | Some path =>
      if path =? "" then "en"
      else
        let lastPart := last (map Some (pathParts path)) None in
        match lastPart with
        | Some part =>
            if (part =? "en") || (part =? "ht") then part
            else or_str (ev_query_lang e) "en"
        | None => or_str (ev_query_lang e) "en"
        end
  end.

Definition handler (c : NetlifyAsr.clock) (e : event) : netlify_response :=
  if httpMethod e =? "OPTIONS" then {| statusCode := 204; json := None |}
  else if negb (httpMethod e =? "POST")
  then reply 405 [("ok", JBool false); ("error", JStr "Method not allowed");
                  ("message", JStr "This endpoint only accepts POST requests")]
  else
    let lang := detect e in
    if negb ((lang =? "en") || (lang =? "ht"))
    then reply 400 [("ok", JBool false); ("error", JStr "Invalid language parameter");
                    ("message",
                      JStr ("Language must be 'en' or 'ht', got '" ++ lang ++ "'")%string)]
    else
      let bodySize := match ev_body e with
                      | Some s => String.length s
                      | None => 0%nat
                      end in
      let audioId :=
        ("temp-" ++ NetlifyAsr.c_Date_now c ++ "-" ++ NetlifyAsr.c_random c)%string in
      let mockResponse :=
        [ ("kind", JStr "audio");
          ("id", JStr audioId);
          ("lang", JStr (if lang =? "ht" then "ht-HT" else "en-US"));
          ("createdAt", JStr (NetlifyAsr.c_now c));
          ("contentType", JStr (or_str (ev_content_type e) "application/octet-stream"));
          ("bytes", JNum (num_of_nat bodySize));
          ("audioFile", JStr (audioId ++ ".webm")%string);
          ("transcript",
            JStr (if lang =? "ht" then "Bonjou mond (Temp ASR)"
                  else "Hello World (Temp ASR)"));
          ("codec", JStr "opus");
          ("sr", JNull);
          ("duration_s", JNull);
          ("domain", JArr []);
          ("status", JStr "temporary");
          ("message",
            JStr "This is a temporary response. Backend deployment needed for full functionality.") ] in
      reply 200 (spread [("ok", JBool true)] mockResponse).

End NetlifyAsrDraft.

(** ** The CSV cells of the export function (netlify/functions/export.js) *)

Module Csv.

(** The double quote. *)
Definition dq : ascii := "034"%char.

(** The line feed. *)
Definition lf : ascii := "010"%char.

(** The [replace] of [escapeCSV]: every double quote is written twice. *)
Fixpoint double_quotes (field : string) : string :=
  match field with
  | EmptyString => EmptyString
  | String c rest =>
      if Ascii.eqb c dq then String dq (String dq (double_quotes rest))
      else String c (double_quotes rest)
  end.

(** [escapeCSV(field)] on a string; any other value is first replaced by
    [String(field)]. *)
Definition escapeCSV (field : string) : string :=
  if includes field "," || includes field (String dq "") || includes field (String lf "")
  then (String dq (double_quotes field) ++ String dq "")%string
  else field.

(** One language side of a training pair, as [generateMockTrainingData]
    shapes it: [audioFile] and [duration] are undefined unless the audio
    details were asked for. *)
Record side := {
  text : string;
  audioId : string;
  audioFile : option string;
  duration : option PrimFloat.float
}.

Record item := {
  sampleId : string;
  createdAt : string;
  term : string;
  category : string;
  annotator : string;
  en : side;
  ht : side
}.

Definition headers : list string :=
  [ "sampleId"; "createdAt"; "term"; "category"; "annotator";
    "en_text"; "en_audioId"; "en_audioFile"; "en_duration";
    "ht_text"; "ht_audioId"; "ht_audioFile"; "ht_duration" ].

(** [duration || ''] as [escapeCSV] then sees it: a number that is not
    falsy goes through [String(field)], here [String_of]. *)
Definition duration_text (String_of : PrimFloat.float -> string)
    (d : option PrimFloat.float) : string :=
  match d with
  | Some x => if truthy (JNum x) then String_of x else ""
  | None => ""
  end.

Definition row (String_of : PrimFloat.float -> string) (i : item) : list string :=
  [ escapeCSV (sampleId i);
    escapeCSV (createdAt i);
    escapeCSV (term i);
    escapeCSV (category i);
    escapeCSV (annotator i);
    escapeCSV (text (en i));
    escapeCSV (audioId (en i));
    escapeCSV (or_str (audioFile (en i)) "");
    escapeCSV (duration_text String_of (duration (en i)));
    escapeCSV (text (ht i));
    escapeCSV (audioId (ht i));
    escapeCSV (or_str (audioFile (ht i)) "");
    escapeCSV (duration_text String_of (duration (ht i))) ].

(** [convertToCSV(data)]; [String_of] is the host's [String] on numbers. *)
Definition convertToCSV (String_of : PrimFloat.float -> string)
    (data : list item) : string :=
  match data with
  | [] => "No data available"
  | _ =>
      let csvRows := [join "," headers] ++ map (fun i => join "," (row String_of i)) data in
      join (String lf "") csvRows
  end.

End Csv.

(** ** Vocabulary of the statements *)

(** [pat] occurs in [s] when letter case is ignored: a stretch of [s]
    lower-cases to [pat]. *)
Definition occurs_ci (pat s : string) : Prop :=
  exists a m b, s = (a ++ m ++ b)%string /\ toLowerCase m = pat.

(** The number of bytes the request carries. *)
Definition body_size (r : request) : Z := Z.of_nat (List.length (concat (chunks r))).

(** No [mkdirSync] or [writeFileSync] throws. *)
Definition disk_accepts (h : host) : Prop := forall op, h_refuses h op = None.

(** The files written, in their order. *)
Definition writes (t : list fs_op) : list fs_op := filter is_write t.

(** [String(err)] for the error of [readBody]. *)
Definition too_large (maxSize : Z) : string :=
  ("Error: Request body too large. Max size: " ++ of_Z maxSize ++ " bytes")%string.

(** The partition chosen for [lang]. *)
Definition stored_in (lang : string) : string :=
  if lang =? "ht" then Server.AUDIO_HT_DIR else Server.AUDIO_EN_DIR.

(** [lang] as POST /api/asr/:lang of the partitioned server reads it. *)
Definition asr_lang (r : request) : string :=
  toLowerCase (or_str (nth_error (split "/" (pathname r)) 3) "en").

(** The four required properties are all truthy. *)
Definition valid_link (p : jsval) : bool :=
  truthy (get p "term") && truthy (get p "category") &&
  truthy (get p "enAudioId") && truthy (get p "htAudioId").

(** [consent], false by default, is truthy. *)
Definition consents (p : jsval) : bool :=
  truthy (with_default (get p "consent") (JBool false)).

(** The body of the partitioned server's 400. *)
Definition refusal : list (string * jsval) :=
  [("ok", JBool false); ("error", JStr "Missing required fields or consent=false")].

(** The names of [requiredFields], in its order. *)
Definition required : list string := ["term"; "category"; "enAudioId"; "htAudioId"].

(** The required names, in their order, whose value in [p] is falsy. *)
Definition lacking (p : jsval) : list string :=
  filter (fun k => negb (truthy (get p k))) required.

(** Destructuring throws on these. *)
Definition nullish (p : jsval) : bool :=
  match p with
  | JNull | JUndefined => true
  | _ => false
  end.

(** [c] is one of the characters of [s]. *)
Fixpoint has_char (c : ascii) (s : string) : bool :=
  match s with
  | EmptyString => false
  | String d s' => Ascii.eqb d c || has_char c s'
  end.

(** [a] is at least as recent as [b]. *)
Definition newer_or_same {A} (m : A -> Z) (a b : A) : Prop := (m b <= m a)%Z.

(** The directory as the listing reads it. *)
Definition ls (h : host) (dir : string) : list dirent :=
  match h_readdir h dir with
  | inr files => files
  | inl _ => []
  end.

(** Every directory can be ensured and read. *)
Definition listable (h : host) : Prop :=
  (forall dir, h_refuses h (MkDir dir) = None) /\
  (forall dir, exists files, h_readdir h dir = inr files).

(** The files of [dir] named [*suffix], with their directory. *)
Definition sidecars (h : host) (dir suffix : string) : list (string * dirent) :=
  map (fun f => (dir, f)) (filter (fun f => endsWith (d_name f) suffix) (ls h dir)).

Definition audio_sidecars (h : host) : list (string * dirent) :=
  sidecars h Server.AUDIO_EN_DIR ".json" ++ sidecars h Server.AUDIO_HT_DIR ".json".

Definition pair_sidecars (h : host) : list (string * dirent) :=
  sidecars h Server.PAIRS_DIR ".pair.json".

(** What the partitioned server gathers for [kind]. *)
Definition selection (h : host) (kind : string) : list (string * dirent) :=
  (if (kind =? "audio") || (kind =? "all") then audio_sidecars h else []) ++
  (if (kind =? "pair") || (kind =? "all") then pair_sidecars h else []).

(** [kind] as GET /api/samples reads it, in both servers. *)
Definition kind_of (r : request) : string :=
  toLowerCase (or_str (query_kind r) "all").

(** The 200 answer of GET /api/samples. *)
Definition listing (kind : string) (items : list jsval) : response :=
  send 200 [("ok", JBool true);
            ("count", JNum (num_of_nat (List.length items)));
            ("kind", JStr kind);
            ("items", JArr items)].

(** [statSync] returns on every one of [files]. *)
Definition stats_return (files : list dirent) : Prop :=
  Forall (fun f => exists m, d_stat f = inr m) files.

(** What server.js selects for [kind]. *)
Definition lab0_selection (h : host) (kind : string) : list dirent :=
  filter (fun f => Lab0.selects kind (d_name f)) (ls h Lab0.DATA_DIR).

(** In the single directory of server.js: an audio sidecar is a .json file
    that is not a .pair.json file. *)
Definition audio_name (f : string) : bool :=
  endsWith f ".json" && negb (endsWith f ".pair.json").

Definition pair_name (f : string) : bool := endsWith f ".pair.json".

Definition json_name (f : string) : bool := endsWith f ".json".

(** The files of that directory whose name is as [named] says. *)
Definition lab0_files (h : host) (named : string -> bool) : list dirent :=
  filter (fun f => named (d_name f)) (ls h Lab0.DATA_DIR).

(** Every directory can be read. *)
Definition readable (h : host) : Prop :=
  forall dir, exists files, h_readdir h dir = inr files.

(** The path of a written file. *)
Definition written_path (op : fs_op) : option path :=
  match op with
  | WriteFile p _ => Some p
  | MkDir _ => None
  end.

(** The [items] of a listing. *)
Definition response_items (res : response) : list jsval :=
  match get (body res) "items" with
  | JArr items => items
  | _ => []
  end.

(** The record says it is of kind [k]. *)
Definition kind_is (k : string) (v : jsval) : bool :=
  match get v "kind" with
  | JStr s => s =? k
  | _ => false
  end.

(** [kept] is the page cut from [gathered]: at most fifty files, newest
    first, none older than a file left out. *)
Definition newest_first_page {A} (m : A -> Z) (gathered kept : list A) : Prop :=
  exists dropped,
    Permutation (kept ++ dropped) gathered /\
    StronglySorted (newer_or_same m) kept /\
    List.length kept = Nat.min 50 (List.length gathered) /\
    forall x y, In x kept -> In y dropped -> (m y <= m x)%Z.

(** Each kept file gives, at its place, the value it parses to, or nothing
    when reading or parsing it throws (or the value is falsy). *)
Definition parsed_in_order {A} (parse : A -> option jsval) (kept : list A) : list jsval :=
  flat_map (fun f => match parse f with
                     | Some v => if truthy v then [v] else []
                     | None => []
                     end) kept.

(** As the specification words them: the AudioRecord of its section 3 and
    the 200 response of POST /api/asr/{lang} of its section 6. *)
Definition documented_AudioRecord : list string :=
  ["id"; "lang"; "createdAt"; "contentType"; "byteSize"; "audioFileRef"; "transcript";
   "codec"; "sampleRate"; "durationSeconds"; "domainTags"].

Definition documented_response : list string :=
  ["ok"; "kind"; "id"; "lang"; "createdAt"; "contentType"; "bytes"; "audioFile";
   "transcript"; "codec"; "sr"; "duration_s"; "domain"].

Definition mentions (fields : list string) (k : string) : bool :=
  existsb (String.eqb k) fields.

(** ** Requests and hosts for the examples *)

Definition abc : list Byte.byte := [Byte.x61; Byte.x62; Byte.x63].

Definition calm : host :=
  {| h_MAX_FILE_SIZE := None;
     h_randomUUID := "1b4e28ba-2fa1-41d2-883f-0016d3cca427";
     h_now := "2025-09-10T00:54:22.382Z";
     h_JSON_parse := fun _ => inl "SyntaxError: Unexpected end of JSON input";
     h_refuses := fun _ => None;
     h_readdir := fun _ => inr [] |}.

Definition parsing (payload : jsval) (h : host) : host :=
  {| h_MAX_FILE_SIZE := h_MAX_FILE_SIZE h;
     h_randomUUID := h_randomUUID h;
     h_now := h_now h;
     h_JSON_parse := fun _ => inr payload;
     h_refuses := h_refuses h;
     h_readdir := h_readdir h |}.

Definition capped (n : Z) (h : host) : host :=
  {| h_MAX_FILE_SIZE := Some n;
     h_randomUUID := h_randomUUID h;
     h_now := h_now h;
     h_JSON_parse := h_JSON_parse h;
     h_refuses := h_refuses h;
     h_readdir := h_readdir h |}.

Definition holding (dirs : string -> list dirent) (h : host) : host :=
  {| h_MAX_FILE_SIZE := h_MAX_FILE_SIZE h;
     h_randomUUID := h_randomUUID h;
     h_now := h_now h;
     h_JSON_parse := h_JSON_parse h;
     h_refuses := h_refuses h;
     h_readdir := fun dir => inr (dirs dir) |}.

Definition post (path : string) (sent : list (list Byte.byte)) : request :=
  {| method := "POST"; pathname := path; query_kind := None;
     content_type := Some "audio/webm"; user_agent := Some "curl/8.5.0";
     remoteAddress := Some "127.0.0.1"; chunks := sent |}.

Definition list_request (kind : option string) : request :=
  {| method := "GET"; pathname := "/api/samples"; query_kind := kind;
     content_type := None; user_agent := Some "curl/8.5.0";
     remoteAddress := Some "127.0.0.1"; chunks := [] |}.

(** The scenario payload of the specification. *)
Definition diabetes : list (string * jsval) :=
  [("term", JStr "Diabetes"); ("category", JStr "medical");
   ("enAudioId", JStr "x"); ("htAudioId", JStr "y")].

Definition no_category : jsval :=
  JObj [("term", JStr "Diabetes"); ("enAudioId", JStr "x"); ("htAudioId", JStr "y");
        ("consent", JBool true)].

Definition declined : jsval := JObj (diabetes ++ [("consent", JBool false)]).

Definition ten_MiB_and_one : N := 10485761.

(** An upload of 10 MiB + 1 bytes, in one chunk. *)
Definition big (path : string) : request :=
  post path [repeat Byte.x00 (N.to_nat ten_MiB_and_one)].

Definition clip (n : nat) : dirent :=
  {| d_name := ("clip-" ++ of_Z (Z.of_nat n) ++ ".json")%string;
     d_stat := inr (1757465662000 + Z.of_nat n)%Z;
     d_parse := Some (JObj [("kind", JStr "audio");
                            ("id", JStr ("clip-" ++ of_Z (Z.of_nat n))%string)]) |}.

Definition oldest_pair : dirent :=
  {| d_name := "p-1.pair.json";
     d_stat := inr 1757465662001%Z;
     d_parse := Some (JObj [("kind", JStr "pair"); ("sampleId", JStr "p-1")]) |}.

(** Fifty audio sidecars, all newer than the one pair. *)
Definition crowded : host :=
  holding (fun dir => if dir =? "data/audio/en" then map clip (seq 2 50)
                      else if dir =? "data/pairs" then [oldest_pair]
                      else []) calm.

Definition one_clip : host :=
  holding (fun dir => if dir =? "data/audio/en" then [clip 2] else []) calm.

Definition torn : dirent :=
  {| d_name := "clip-9.json"; d_stat := inr 1757465662009%Z; d_parse := None |}.

(** Three sidecars, the newest one cut short while being written. *)
Definition shelf : host :=
  holding (fun dir => if dir =? "data/audio/en" then [clip 2; torn; clip 5]
                      else if dir =? "data" then [clip 2; torn; clip 5]
                      else []) calm.

Definition diabetes_request : jsval := JObj (diabetes ++ [("consent", JBool true)]).

(** ** Vocabulary of the further properties *)

(** [m] writes no file, and what it returns satisfies [Q]. *)
Definition reads_only {A} (m : M A) (Q : A -> Prop) : Prop :=
  forall h t,
    writes (snd (m h t)) = writes t /\
    match fst (m h t) with
    | Returned a => Q a
    | Thrown _ => True
    end.

(** The blob and the sidecar of one ingest of the partitioned server. *)
Definition blob_of (h : host) (r : request) : fs_op :=
  WriteFile {| p_dir := stored_in (asr_lang r);
               p_name := (h_randomUUID h
                          ++ extFromContentType
                               (Some (or_str (content_type r)
                                             "application/octet-stream")))%string |}
            (Buffer (concat (chunks r))).

Definition sidecar_of (h : host) (r : request) (doc : jsval) : fs_op :=
  WriteFile {| p_dir := stored_in (asr_lang r);
               p_name := (h_randomUUID h ++ ".json")%string |}
            (JsonText doc).

(** The pair file of one link of the partitioned server. *)
Definition pair_file_of (h : host) (record : list (string * jsval)) : fs_op :=
  WriteFile {| p_dir := Server.PAIRS_DIR;
               p_name := (h_randomUUID h ++ ".pair.json")%string |}
            (JsonText (stringified (JObj record))).

(** A sidecar whose target is gone: [readdirSync] names it, [statSync]
    throws. *)
Definition dangling : dirent :=
  {| d_name := "gone.json";
     d_stat := inl "Error: ENOENT: no such file or directory, stat 'gone.json'";
     d_parse := None |}.

(** Two good sidecars around a dangling one, in data/audio/en and in data. *)
Definition broken_shelf : host :=
  holding (fun dir => if dir =? "data/audio/en" then [clip 2; dangling; clip 5]
                      else if dir =? "data" then [clip 2; dangling; clip 5]
                      else []) calm.

(** A host on which no directory can be made. *)
Definition read_only_disk : host :=
  {| h_MAX_FILE_SIZE := None;
     h_randomUUID := h_randomUUID calm;
     h_now := h_now calm;
     h_JSON_parse := h_JSON_parse calm;
     h_refuses := fun op => match op with
                            | MkDir dir => Some ("Error: EROFS: read-only file system, mkdir '"
                                                 ++ dir ++ "'")%string
                            | WriteFile _ _ => None
                            end;
     h_readdir := h_readdir calm |}.

(** The path of a draft event names the language: it is not empty and its
    last part that is not empty is en or ht. *)
Definition path_names_lang (e : NetlifyAsrDraft.event) : bool :=
  match NetlifyAsrDraft.ev_path e with
  | Some path =>
      match last (map Some (NetlifyAsrDraft.pathParts path)) None with
      | Some part => (part =? "en") || (part =? "ht")
      | None => false
      end
  | None => false
  end.

(** Where a reader of CSV stands: at the start of a cell, in a bare cell,
    inside quotes, or just after a quote met inside quotes. *)
Inductive csv_state := AtStart | Bare | Quoted | AfterQuote.

(** Reading a CSV text into its rows of cells, the usual way: outside
    quotes a comma ends the cell and a line feed ends the row; inside quotes
    both are kept, and two double quotes stand for one. [cell] and [cells]
    are what has been read of the current cell and row. *)
Fixpoint read_csv (st : csv_state) (cell : string) (cells : list string)
    (text : string) : list (list string) :=
  match text with
  | EmptyString => [cells ++ [cell]]
  | String c rest =>
      let bare :=
        if Ascii.eqb c "," then read_csv AtStart "" (cells ++ [cell]) rest
        else if Ascii.eqb c Csv.lf then (cells ++ [cell]) :: read_csv AtStart "" [] rest
        else read_csv Bare (cell ++ String c "") cells rest in
      match st with
      | AtStart => if Ascii.eqb c Csv.dq then read_csv Quoted cell cells rest else bare
      | Bare => bare
      | Quoted =>
          if Ascii.eqb c Csv.dq then read_csv AfterQuote cell cells rest
          else read_csv Quoted (cell ++ String c "") cells rest
      | AfterQuote =>
          if Ascii.eqb c Csv.dq then read_csv Quoted (cell ++ String Csv.dq "") cells rest
          else bare
      end
  end.

(** The thirteen values of an item that [convertToCSV] writes, before they
    are escaped. *)
Definition values_of (String_of : PrimFloat.float -> string) (i : Csv.item) : list string :=
  [ Csv.sampleId i; Csv.createdAt i; Csv.term i; Csv.category i; Csv.annotator i;
    Csv.text (Csv.en i); Csv.audioId (Csv.en i);
    or_str (Csv.audioFile (Csv.en i)) "";
    Csv.duration_text String_of (Csv.duration (Csv.en i));
    Csv.text (Csv.ht i); Csv.audioId (Csv.ht i);
    or_str (Csv.audioFile (Csv.ht i)) "";
    Csv.duration_text String_of (Csv.duration (Csv.ht i)) ].

(** What follows a cell: the end of the text, a comma or a line feed. *)
Definition ends_cell (rest : string) : bool :=
  match rest with
  | EmptyString => true
  | String c _ => Ascii.eqb c "," || Ascii.eqb c Csv.lf
  end.

(** * Proofs *)

(** ** Strings *)

Lemma prefix_split (p s : string) :
  prefix p s = true <-> exists rest, s = (p ++ rest)%string.
Proof.
  revert s; induction p as [|c p IH]; intros s; simpl.
  - split; [intros _; now exists s | intros _; now destruct s].
  - destruct s as [|d s]; simpl.
    + split; [discriminate | intros [rest H]; discriminate].
    + destruct (ascii_dec c d) as [->|Hne].
      * rewrite IH. split; intros [rest H]; exists rest.
        -- now rewrite H.
        -- now inversion H.
      * split; [discriminate | intros [rest H]; inversion H; subst; now elim Hne].
Qed.

Lemma includes_split (s p : string) :
  includes s p = true <-> exists a b, s = (a ++ p ++ b)%string.
Proof.
  induction s as [|c s IH]; cbn [includes].
  - rewrite orb_false_r, prefix_split. split.
    + intros [rest H]. exists "", rest. exact H.
    + intros [a [b H]]. destruct a; simpl in H; [now exists b | discriminate].
  - rewrite orb_true_iff, IH, prefix_split. split.
    + intros [[rest H] | [a [b H]]].
      * exists "", rest. exact H.
      * exists (String c a), b. simpl. now rewrite H.
    + intros [a [b H]]. destruct a as [|d a]; simpl in H.
      * left. now exists b.
      * right. inversion H. now exists a, b.
Qed.

Lemma toLowerCase_app (a b : string) :
  toLowerCase (a ++ b) = (toLowerCase a ++ toLowerCase b)%string.
Proof. induction a as [|c a IH]; simpl; [reflexivity | now rewrite IH]. Qed.

Lemma toLowerCase_app_inv (s a b : string) :
  toLowerCase s = (a ++ b)%string ->
  exists s1 s2, s = (s1 ++ s2)%string /\ toLowerCase s1 = a /\ toLowerCase s2 = b.
Proof.
  revert s; induction a as [|c a IH]; intros s H; simpl in H.
  - exists "", s. auto.
  - destruct s as [|d s]; simpl in H; [discriminate|].
    inversion H as [[Hc Hs]]. destruct (IH _ Hs) as [s1 [s2 [E [H1 H2]]]].
    exists (String d s1), s2. subst. repeat split; auto.
Qed.

Lemma includes_lower_occurs (pat s : string) :
  includes (toLowerCase s) pat = true <-> occurs_ci pat s.
Proof.
  rewrite includes_split. unfold occurs_ci. split.
  - intros [a [b H]].
    destruct (toLowerCase_app_inv _ _ _ H) as [s1 [s2 [E [H1 H2]]]].
    destruct (toLowerCase_app_inv _ _ _ H2) as [m [s3 [E2 [Hm H3]]]].
    exists s1, m, s3. subst. auto.
  - intros [a [m [b [E Hm]]]]. exists (toLowerCase a), (toLowerCase b).
    subst. now rewrite !toLowerCase_app.
Qed.

Lemma includes_lower_not_occurs (pat s : string) :
  includes (toLowerCase s) pat = false <-> ~ occurs_ci pat s.
Proof.
  rewrite <- includes_lower_occurs. destruct (includes _ _); split; intros; try discriminate; auto.
  now elim H.
Qed.

(** ** The extension of a content type *)

Lemma extFromContentType_range (ct : option string) :
  In (extFromContentType ct) [".webm"; ".wav"; ".mp3"; ".ogg"; ".bin"].
Proof.
  unfold extFromContentType.
  repeat match goal with
         | |- context [if ?b then _ else _] => destruct b
         end; simpl; auto 10.
Qed.

(** C5. [extFromContentType] returns on every string, always one of the
    five extensions, and throws nowhere. With the cases of the claim read in
    their order: the result is .webm exactly when the input holds audio/webm
    in whatever letter case; .wav exactly when it holds audio/wav and not
    audio/webm; .mp3 exactly when it holds audio/mpeg or audio/mp3 and
    neither of the former; .ogg exactly when it holds audio/ogg and none of
    the former; .bin exactly when it holds none of the five. Two inputs that
    differ in letter case only get the same extension, and undefined, read
    as '', gets .bin. *)
Theorem extFromContentType_mapping (ct : string) :
  let ext := extFromContentType (Some ct) in
  let has pat := occurs_ci pat ct in
  In ext [".webm"; ".wav"; ".mp3"; ".ogg"; ".bin"] /\
  (ext = ".webm" <-> has "audio/webm") /\
  (ext = ".wav" <-> ~ has "audio/webm" /\ has "audio/wav") /\
  (ext = ".mp3" <->
     ~ has "audio/webm" /\ ~ has "audio/wav" /\ (has "audio/mpeg" \/ has "audio/mp3")) /\
  (ext = ".ogg" <->
     ~ has "audio/webm" /\ ~ has "audio/wav" /\ ~ has "audio/mpeg" /\ ~ has "audio/mp3"
     /\ has "audio/ogg") /\
  (ext = ".bin" <->
     ~ has "audio/webm" /\ ~ has "audio/wav" /\ ~ has "audio/mpeg" /\ ~ has "audio/mp3"
     /\ ~ has "audio/ogg") /\
  (forall other, toLowerCase other = toLowerCase ct ->
                 extFromContentType (Some other) = ext) /\
  extFromContentType None = ".bin".
Proof.
  cbv zeta. split; [apply extFromContentType_range|].
  unfold extFromContentType.
  destruct (includes (toLowerCase ct) "audio/webm") eqn:W;
  destruct (includes (toLowerCase ct) "audio/wav") eqn:V;
  destruct (includes (toLowerCase ct) "audio/mpeg") eqn:G;
  destruct (includes (toLowerCase ct) "audio/mp3") eqn:P;
  destruct (includes (toLowerCase ct) "audio/ogg") eqn:O;
  repeat match goal with
  | H : includes _ _ = true |- _ => apply includes_lower_occurs in H
  | H : includes _ _ = false |- _ => apply includes_lower_not_occurs in H
  end; cbn [orb];
  repeat split; try discriminate; try tauto; try reflexivity;
  intros other ->;
  repeat match goal with
  | H : occurs_ci _ _ |- _ => apply includes_lower_occurs in H; rewrite H
  | H : ~ occurs_ci _ _ |- _ => apply includes_lower_not_occurs in H; rewrite H
  end; reflexivity.
Qed.

(** ** Reading the body *)

Lemma concat_length_app (got : list (list Byte.byte)) c :
  Z.of_nat (List.length (concat (got ++ [c]))) =
  (Z.of_nat (List.length (concat got)) + Z.of_nat (List.length c))%Z.
Proof. rewrite concat_app, length_app. simpl. rewrite app_nil_r. lia. Qed.

Lemma readBody_loop_within (maxSize : Z) (rest got : list (list Byte.byte)) (total : Z) :
  (total + Z.of_nat (List.length (concat rest)) <= maxSize)%Z ->
  Server.readBody_loop maxSize total got rest = inr (concat (got ++ rest)).
Proof.
  revert got total; induction rest as [|c rest IH]; intros got total H; simpl.
  - now rewrite app_nil_r.
  - simpl in H. rewrite length_app in H.
    destruct (Z.ltb_spec maxSize (total + Z.of_nat (List.length c))) as [Hlt|Hle]; [lia|].
    rewrite IH by lia. now rewrite <- app_assoc.
Qed.

Lemma readBody_loop_over (maxSize : Z) (rest got : list (list Byte.byte)) (total : Z) :
  rest <> [] ->
  (maxSize < total + Z.of_nat (List.length (concat rest)))%Z ->
  Server.readBody_loop maxSize total got rest = inl (too_large maxSize).
Proof.
  revert got total; induction rest as [|c rest IH]; intros got total Hne H; [congruence|].
  simpl. simpl in H. rewrite length_app in H.
  destruct (Z.ltb_spec maxSize (total + Z.of_nat (List.length c))) as [Hlt|Hle]; [reflexivity|].
  apply IH; [|lia]. intros ->. simpl in H. lia.
Qed.

Lemma readBody_within (h : host) (r : request) t :
  (body_size r <= Server.MAX_FILE_SIZE h)%Z ->
  Server.readBody r h t = (Returned (concat (chunks r)), t).
Proof.
  intros H. unfold Server.readBody, bind, ask, lift.
  rewrite readBody_loop_within by (unfold body_size in H; lia). reflexivity.
Qed.

Lemma readBody_over (h : host) (r : request) t :
  (0 <= Server.MAX_FILE_SIZE h)%Z ->
  (Server.MAX_FILE_SIZE h < body_size r)%Z ->
  Server.readBody r h t = (Thrown (too_large (Server.MAX_FILE_SIZE h)), t).
Proof.
  intros H0 H. unfold Server.readBody, bind, ask, lift.
  rewrite readBody_loop_over; [reflexivity| |unfold body_size in H; lia].
  intros E. unfold body_size in H. rewrite E in H. simpl in H. lia.
Qed.

Lemma readBody_no_effect (h : host) (r : request) t :
  snd (Server.readBody r h t) = t.
Proof.
  unfold Server.readBody, bind, ask, lift.
  now destruct (Server.readBody_loop _ _ _ _).
Qed.

(** ** POST /api/asr/:lang *)

Lemma perform_accepted (h : host) op t :
  h_refuses h op = None -> perform op h t = (Returned tt, t ++ [op]).
Proof. intros H. unfold perform. now rewrite H. Qed.

Lemma oversized_asr (h : host) (r : request) :
  (0 <= Server.MAX_FILE_SIZE h)%Z ->
  (Server.MAX_FILE_SIZE h < body_size r)%Z ->
  Server.run (Server.asr r) h =
  (send 500 [("ok", JBool false); ("error", JStr "ASR save failed");
             ("details", JStr (too_large (Server.MAX_FILE_SIZE h)))], []).
Proof.
  intros H0 H. unfold Server.run, Server.asr, try_catch, bind at 1, ask.
  unfold bind at 1. rewrite readBody_over by assumption. reflexivity.
Qed.

Lemma asr_stores (h : host) (r : request) :
  (body_size r <= Server.MAX_FILE_SIZE h)%Z ->
  disk_accepts h ->
  let lang := asr_lang r in
  let contentType := or_str (content_type r) "application/octet-stream" in
  let ext := extFromContentType (Some contentType) in
  let body := concat (chunks r) in
  let meta := Server.metadata h r lang contentType ext body in
  Server.run (Server.asr r) h =
  (send 200 (("ok", JBool true) :: meta),
   [ MkDir (stored_in lang); MkDir Server.MANIFESTS_DIR;
     WriteFile {| p_dir := stored_in lang; p_name := (h_randomUUID h ++ ext)%string |}
               (Buffer body);
     WriteFile {| p_dir := stored_in lang; p_name := (h_randomUUID h ++ ".json")%string |}
               (JsonText (stringified (JObj meta))) ]).
Proof.
  intros Hsz Hd. cbv zeta.
  unfold Server.run, Server.asr, try_catch, bind at 1, ask.
  unfold bind at 1. rewrite readBody_within by assumption.
  unfold Server.ensureDir, writeFileSync, try_catch, bind, ret.
  fold (asr_lang r). fold (stored_in (asr_lang r)).
  rewrite !perform_accepted by apply Hd. reflexivity.
Qed.

(** Case analysis on every disk operation the goal attempts. *)
Ltac step_disk :=
  repeat match goal with
  | |- context [h_refuses ?h ?op] =>
      let E := fresh "E" in destruct (h_refuses h op) eqn:E; cbn [fst snd status]
  end.

Lemma asr_status (h : host) (r : request) :
  status (fst (Server.run (Server.asr r) h)) = 200%Z \/
  status (fst (Server.run (Server.asr r) h)) = 500%Z.
Proof.
  cbv [Server.run Server.asr try_catch bind ask Server.readBody lift ret throw
       Server.ensureDir writeFileSync perform].
  destruct (Server.readBody_loop _ _ _ _) as [err|body]; [right; reflexivity|].
  step_disk; auto.
Qed.

(** ** POST /api/samples/link *)

Lemma consents_get (p : jsval) : consents p = truthy (get p "consent").
Proof. unfold consents. now destruct (get p "consent"). Qed.

Lemma link_guard (p : jsval) :
  negb (truthy (get p "term")) || negb (truthy (get p "category"))
  || negb (truthy (get p "enAudioId")) || negb (truthy (get p "htAudioId"))
  || negb (truthy (with_default (get p "consent") (JBool false)))
  = negb (valid_link p && consents p).
Proof.
  unfold valid_link, consents.
  destruct (truthy (get p "term")), (truthy (get p "category")),
    (truthy (get p "enAudioId")), (truthy (get p "htAudioId")),
    (truthy (with_default _ _)); reflexivity.
Qed.

Lemma link_refused (h : host) (r : request) (payload : jsval) :
  (body_size r <= Server.MAX_FILE_SIZE h)%Z ->
  h_JSON_parse h (concat (chunks r)) = inr payload ->
  h_refuses h (MkDir Server.PAIRS_DIR) = None ->
  valid_link (js_or payload (JObj [])) && consents (js_or payload (JObj [])) = false ->
  Server.run (Server.link r) h = (send 400 refusal, [MkDir Server.PAIRS_DIR]).
Proof.
  intros Hsz Hp Hd Hc.
  unfold Server.run, Server.link, try_catch, bind at 1, ask.
  unfold Server.ensureDir, try_catch, bind at 1.
  rewrite perform_accepted by assumption.
  unfold bind at 1. rewrite readBody_within by assumption.
  unfold bind at 1, lift. rewrite Hp. unfold ret at 1.
  rewrite link_guard, Hc. reflexivity.
Qed.

Lemma link_oversized (h : host) (r : request) :
  (0 <= Server.MAX_FILE_SIZE h)%Z ->
  (Server.MAX_FILE_SIZE h < body_size r)%Z ->
  h_refuses h (MkDir Server.PAIRS_DIR) = None ->
  Server.run (Server.link r) h =
  (send 500 [("ok", JBool false); ("error", JStr "Linking failed");
             ("details", JStr (too_large (Server.MAX_FILE_SIZE h)))],
   [MkDir Server.PAIRS_DIR]).
Proof.
  intros H0 H Hd.
  unfold Server.run, Server.link, try_catch, bind at 1, ask.
  unfold Server.ensureDir, try_catch, bind at 1.
  rewrite perform_accepted by assumption.
  unfold bind at 1. rewrite readBody_over by assumption. reflexivity.
Qed.

Lemma link_no_write_without_consent (h : host) (r : request) (payload : jsval) :
  h_JSON_parse h (concat (chunks r)) = inr payload ->
  consents (js_or payload (JObj [])) = false ->
  writes (snd (Server.run (Server.link r) h)) = [].
Proof.
  intros Hp Hc.
  cbv [Server.run Server.link try_catch bind ask Server.readBody lift ret throw
       Server.ensureDir writeFileSync perform].
  destruct (h_refuses h (MkDir Server.PAIRS_DIR)); [reflexivity|].
  destruct (Server.readBody_loop _ _ _ _) as [err|body] eqn:Eb; [reflexivity|].
  assert (body = concat (chunks r)) as ->.
  { destruct (Z_le_gt_dec (0 + Z.of_nat (List.length (concat (chunks r))))
                          (Server.MAX_FILE_SIZE h)) as [Hle|Hgt].
    - rewrite readBody_loop_within in Eb by assumption. now inversion Eb.
    - destruct (chunks r) eqn:Ec.
      + simpl in Eb. now inversion Eb.
      + rewrite readBody_loop_over in Eb; [discriminate|congruence|lia]. }
  rewrite Hp, link_guard, Hc, andb_false_r. reflexivity.
Qed.

Lemma link_accepted (h : host) (r : request) (payload : jsval) :
  (body_size r <= Server.MAX_FILE_SIZE h)%Z ->
  h_JSON_parse h (concat (chunks r)) = inr payload ->
  disk_accepts h ->
  valid_link (js_or payload (JObj [])) && consents (js_or payload (JObj [])) = true ->
  let record := Server.pair_record h (js_or payload (JObj [])) in
  Server.run (Server.link r) h =
  (send 200 [("ok", JBool true); ("sampleId", JStr (h_randomUUID h));
             ("record", JObj record)],
   [ MkDir Server.PAIRS_DIR;
     WriteFile {| p_dir := Server.PAIRS_DIR;
                  p_name := (h_randomUUID h ++ ".pair.json")%string |}
               (JsonText (stringified (JObj record))) ]).
Proof.
  intros Hsz Hp Hd Hc. cbv zeta.
  unfold Server.run, Server.link, try_catch, bind at 1, ask.
  unfold Server.ensureDir, try_catch, bind at 1.
  rewrite perform_accepted by apply Hd.
  unfold bind at 1. rewrite readBody_within by assumption.
  unfold bind at 1, lift. rewrite Hp. unfold ret at 1.
  rewrite link_guard, Hc. cbn [negb].
  unfold writeFileSync, bind. rewrite perform_accepted by apply Hd. reflexivity.
Qed.

(** ** The first server *)

Lemma lab0_link_accepted (h : host) (r : request) (payload : jsval) :
  h_JSON_parse h (concat (chunks r)) = inr payload ->
  disk_accepts h ->
  valid_link (js_or payload (JObj [])) = true ->
  let record := Lab0.pair_record h (js_or payload (JObj [])) in
  Lab0.run (Lab0.link r) h =
  (Some (send 200 [("ok", JBool true); ("sampleId", JStr (h_randomUUID h));
                   ("record", JObj record)]),
   [ MkDir Lab0.DATA_DIR;
     WriteFile {| p_dir := Lab0.DATA_DIR;
                  p_name := (h_randomUUID h ++ ".pair.json")%string |}
               (JsonText (stringified (JObj record))) ]).
Proof.
  intros Hp Hd Hc. cbv zeta.
  unfold Lab0.run, Lab0.link, try_catch at 1, bind at 1, ask.
  unfold Lab0.ensureDir, try_catch, bind at 1.
  rewrite perform_accepted by apply Hd.
  unfold bind at 1, Lab0.readBody, ret at 1.
  unfold bind at 1, lift. rewrite Hp. unfold ret at 1.
  unfold valid_link in Hc. apply andb_prop in Hc as [Hc H4].
  apply andb_prop in Hc as [Hc H3]. apply andb_prop in Hc as [H1 H2].
  rewrite H1, H2, H3, H4. cbn [negb orb].
  unfold writeFileSync, bind. rewrite perform_accepted by apply Hd. reflexivity.
Qed.

Lemma lab0_asr_stores (h : host) (r : request) :
  disk_accepts h ->
  let lang := or_str (nth_error (split "/" (pathname r)) 3) "en" in
  let contentType := or_str (content_type r) "application/octet-stream" in
  let ext := extFromContentType (Some contentType) in
  let body := concat (chunks r) in
  let meta := Lab0.metadata h r lang contentType ext body in
  Lab0.run (Lab0.asr r) h =
  (Some (send 200 (("ok", JBool true) :: meta)),
   [ MkDir Lab0.DATA_DIR;
     WriteFile {| p_dir := Lab0.DATA_DIR; p_name := (h_randomUUID h ++ ext)%string |}
               (Buffer body);
     WriteFile {| p_dir := Lab0.DATA_DIR; p_name := (h_randomUUID h ++ ".json")%string |}
               (JsonText (stringified (JObj meta))) ]).
Proof.
  intros Hd. cbv zeta.
  unfold Lab0.run, Lab0.asr, try_catch at 1, bind at 1, ask.
  unfold Lab0.ensureDir, try_catch, bind at 1.
  rewrite perform_accepted by apply Hd.
  unfold bind at 1, Lab0.readBody, ret at 1.
  unfold writeFileSync, bind, ret.
  rewrite !perform_accepted by apply Hd. reflexivity.
Qed.

(** ** The Netlify functions *)

Lemma missingFields_spec (p : jsval) (k : string) :
  In k (NetlifyLink.missingFields p) <-> In k required /\ truthy (get p k) = false.
Proof.
  unfold NetlifyLink.missingFields, required. cbn [filter snd].
  destruct (truthy (get p "term")) eqn:T, (truthy (get p "category")) eqn:C,
    (truthy (get p "enAudioId")) eqn:E, (truthy (get p "htAudioId")) eqn:H;
    cbn [negb map fst In]; split;
    try (intros [Hin Hk]; repeat destruct Hin as [<-|Hin]; try contradiction; try congruence; tauto);
    intros Hin; repeat destruct Hin as [<-|Hin]; try contradiction; auto 10.
Qed.

Lemma missingFields_lacking (p : jsval) : NetlifyLink.missingFields p = lacking p.
Proof.
  unfold NetlifyLink.missingFields, lacking, required. cbn [filter snd].
  destruct (truthy (get p "term")), (truthy (get p "category")),
    (truthy (get p "enAudioId")), (truthy (get p "htAudioId")); reflexivity.
Qed.

Lemma missingFields_valid (p : jsval) :
  NetlifyLink.missingFields p = [] <-> valid_link p = true.
Proof.
  unfold NetlifyLink.missingFields, valid_link. cbn [filter snd].
  destruct (truthy (get p "term")), (truthy (get p "category")),
    (truthy (get p "enAudioId")), (truthy (get p "htAudioId"));
    cbn; split; intros; congruence.
Qed.

Lemma netlify_link_missing (c : NetlifyLink.clock) (e : NetlifyLink.event) (p : jsval) :
  NetlifyLink.httpMethod e = "POST" ->
  NetlifyLink.parse_body c e = inr p ->
  nullish p = false ->
  NetlifyLink.missingFields p <> [] ->
  NetlifyLink.handler c e =
  reply 400 [("ok", JBool false);
             ("error", JStr ("Missing required fields: "
                             ++ join ", " (NetlifyLink.missingFields p))%string);
             ("missingFields", JArr (map JStr (NetlifyLink.missingFields p)))].
Proof.
  intros Hm Hp Hn Hmiss. unfold NetlifyLink.handler. rewrite Hm, Hp. cbn [String.eqb Ascii.eqb Bool.eqb negb].
  destruct (NetlifyLink.missingFields p) as [|k ks] eqn:E; [congruence|].
  destruct p; try discriminate; reflexivity.
Qed.

(** ** The language segment of a path *)

Lemma split_none (sep : ascii) (s : string) :
  has_char sep s = false -> split sep s = [s].
Proof.
  induction s as [|d s IH]; simpl; [reflexivity|].
  intros H. apply orb_false_elim in H as [Hd Hs]. rewrite Hd, (IH Hs). reflexivity.
Qed.

Lemma split_nonempty (sep : ascii) (s : string) : split sep s <> [].
Proof.
  induction s as [|d s IH]; simpl; [discriminate|].
  destruct (Ascii.eqb d sep); [discriminate|]. destruct (split sep s); [congruence|discriminate].
Qed.

Lemma last_split_app (sep : ascii) (a b : string) :
  last (split sep (a ++ String sep b)) "" = last (split sep b) "".
Proof.
  induction a as [|d a IH]; simpl.
  - rewrite Ascii.eqb_refl. destruct (split sep b) eqn:E; [now apply split_nonempty in E|reflexivity].
  - destruct (Ascii.eqb d sep).
    + destruct (split sep (a ++ String sep b)) eqn:E; [now apply split_nonempty in E|exact IH].
    + destruct (split sep (a ++ String sep b)) as [|w ws] eqn:E; [now apply split_nonempty in E|].
      destruct ws as [|w' ws].
      * simpl in IH. exfalso.
        (* a single part cannot hold the separator *)
        clear IH.
        assert (Hlen : forall s, (2 <= List.length (split sep (s ++ String sep b)))%nat).
        { clear. induction s as [|x s IHs]; simpl.
          - rewrite Ascii.eqb_refl. pose proof (split_nonempty sep b).
            destruct (split sep b); [congruence|simpl; lia].
          - destruct (Ascii.eqb x sep); [simpl; lia|].
            destruct (split sep (s ++ String sep b)); simpl in *; lia. }
        specialize (Hlen a). rewrite E in Hlen. simpl in Hlen. lia.
      * exact IH.
Qed.

Lemma lang_of_segment (pre seg : string) :
  has_char "/" seg = false ->
  NetlifyAsr.lang_of (pre ++ String "/" seg) = seg.
Proof.
  intros H. unfold NetlifyAsr.lang_of. rewrite last_split_app, split_none by assumption.
  reflexivity.
Qed.

Lemma netlify_asr_rejects (c : NetlifyAsr.clock) (e : NetlifyAsr.event) :
  NetlifyAsr.httpMethod e = "POST" ->
  NetlifyAsr.lang_of (NetlifyAsr.ev_path e) <> "en" ->
  NetlifyAsr.lang_of (NetlifyAsr.ev_path e) <> "ht" ->
  NetlifyAsr.handler c e =
  reply 400 [("ok", JBool false); ("error", JStr "Invalid language parameter");
             ("message",
               JStr ("Language must be 'en' or 'ht', got '"
                     ++ NetlifyAsr.lang_of (NetlifyAsr.ev_path e) ++ "'")%string)].
Proof.
  intros Hm Hen Hht. unfold NetlifyAsr.handler. rewrite Hm.
  cbn [String.eqb Ascii.eqb Bool.eqb negb].
  apply String.eqb_neq in Hen, Hht. rewrite Hen, Hht. reflexivity.
Qed.

Lemma split_app_sep (sep : ascii) (a b : string) :
  has_char sep a = false ->
  split sep (a ++ String sep b) = a :: split sep b.
Proof.
  induction a as [|d a IH]; simpl.
  - intros _. now rewrite Ascii.eqb_refl.
  - intros H. apply orb_false_elim in H as [Hd Ha]. rewrite Hd, (IH Ha). reflexivity.
Qed.

Lemma asr_lang_segment (r : request) (seg : string) :
  pathname r = ("/api/asr/" ++ seg)%string ->
  has_char "/" seg = false ->
  asr_lang r = toLowerCase (if seg =? "" then "en" else seg).
Proof.
  intros Hp Hs. unfold asr_lang. rewrite Hp.
  change ("/api/asr/" ++ seg)%string
    with ("" ++ String "/" ("api" ++ String "/" ("asr" ++ String "/" seg)))%string.
  rewrite !split_app_sep by reflexivity. rewrite split_none by assumption.
  reflexivity.
Qed.

(** ** Newest first, fifty at most *)

Lemma in_firstn_in {A} (n : nat) (l : list A) (x : A) : In x (firstn n l) -> In x l.
Proof. intros H. rewrite <- (firstn_skipn n l). apply in_or_app. now left. Qed.

Lemma in_skipn_in {A} (n : nat) (l : list A) (x : A) : In x (skipn n l) -> In x l.
Proof. intros H. rewrite <- (firstn_skipn n l). apply in_or_app. now right. Qed.

Section NewestFirst.
Context {A : Type} (m : A -> Z).

Lemma insert_perm (x : A) (l : list A) :
  Permutation (insert_newest_first m x l) (x :: l).
Proof.
  induction l as [|y l IH]; simpl; [reflexivity|].
  destruct (m y <=? m x)%Z; [reflexivity|].
  rewrite IH. apply perm_swap.
Qed.

Lemma sort_perm (l : list A) : Permutation (sort_newest_first m l) l.
Proof.
  induction l as [|x l IH]; simpl; [reflexivity|].
  rewrite insert_perm. now constructor.
Qed.

Lemma insert_sorted (x : A) (l : list A) :
  StronglySorted (newer_or_same m) l ->
  StronglySorted (newer_or_same m) (insert_newest_first m x l).
Proof.
  induction 1 as [|y l Hs IH Hall]; simpl.
  - repeat constructor.
  - destruct (Z.leb_spec (m y) (m x)) as [Hle|Hgt].
    + constructor; [now constructor|].
      constructor; [exact Hle|].
      eapply Forall_impl; [|exact Hall]. unfold newer_or_same. intros; lia.
    + constructor; [exact IH|].
      rewrite (insert_perm x l). constructor; [unfold newer_or_same; lia|exact Hall].
Qed.

Lemma sort_sorted (l : list A) : StronglySorted (newer_or_same m) (sort_newest_first m l).
Proof.
  induction l as [|x l IH]; simpl; [constructor|]. now apply insert_sorted.
Qed.

(** Files with the same time keep the order in which they were gathered. *)
Lemma insert_stable (t : Z) (x : A) (l : list A) :
  StronglySorted (newer_or_same m) l ->
  filter (fun a => (m a =? t)%Z) (insert_newest_first m x l) =
  filter (fun a => (m a =? t)%Z) (x :: l).
Proof.
  induction 1 as [|y l Hs IH Hall]; [reflexivity|].
  cbn [insert_newest_first]. destruct (Z.leb_spec (m y) (m x)) as [Hle|Hgt]; [reflexivity|].
  cbn [filter] in *. rewrite IH.
  destruct (Z.eqb_spec (m x) t), (Z.eqb_spec (m y) t); try reflexivity. lia.
Qed.

Lemma sort_stable (t : Z) (l : list A) :
  filter (fun a => (m a =? t)%Z) (sort_newest_first m l) =
  filter (fun a => (m a =? t)%Z) l.
Proof.
  induction l as [|x l IH]; [reflexivity|].
  cbn [sort_newest_first fold_right]. rewrite insert_stable by apply sort_sorted.
  cbn [filter]. fold (sort_newest_first m l). now rewrite IH.
Qed.

Lemma sorted_firstn (n : nat) (l : list A) :
  StronglySorted (newer_or_same m) l -> StronglySorted (newer_or_same m) (firstn n l).
Proof.
  intros H; revert n; induction H as [|y l Hs IH Hall]; intros [|n]; simpl; try constructor.
  - apply IH.
  - rewrite Forall_forall in *. intros z Hz. apply Hall. eapply in_firstn_in; eauto.
Qed.

Lemma sorted_cut (n : nat) (l : list A) (x y : A) :
  StronglySorted (newer_or_same m) l ->
  In x (firstn n l) -> In y (skipn n l) -> (m y <= m x)%Z.
Proof.
  intros H; revert n; induction H as [|z l Hs IH Hall]; intros n Hx Hy.
  - destruct n; simpl in Hx; contradiction.
  - destruct n as [|n]; simpl in Hx, Hy; [contradiction|].
    destruct Hx as [<-|Hx].
    + rewrite Forall_forall in Hall. apply Hall. eapply in_skipn_in; eauto.
    + eapply IH; eauto.
Qed.
End NewestFirst.

(** ** Parsing the kept files *)

Lemma parse_all_flat_map {A} (parse : A -> option jsval) (l : list A) :
  parse_all parse l =
  flat_map (fun f => match parse f with
                     | Some v => if truthy v then [v] else []
                     | None => []
                     end) l.
Proof.
  unfold parse_all. induction l as [|f l IH]; [reflexivity|].
  cbn [map filter flat_map]. rewrite IH.
  destruct (parse f) as [v|]; [destruct (truthy v)|]; reflexivity.
Qed.

Lemma parse_all_In {A} (parse : A -> option jsval) (l : list A) (v : jsval) :
  In v (parse_all parse l) <->
  exists f, In f l /\ parse f = Some v /\ truthy v = true.
Proof.
  rewrite parse_all_flat_map, in_flat_map. split.
  - intros [f [Hf Hv]]. exists f. split; [exact Hf|].
    destruct (parse f) as [w|]; [|contradiction].
    destruct (truthy w) eqn:T; [|contradiction].
    destruct Hv as [<-|[]]. auto.
  - intros [f [Hf [Hp T]]]. exists f. split; [exact Hf|]. rewrite Hp, T. now left.
Qed.

Lemma parse_all_app {A} (parse : A -> option jsval) (l1 l2 : list A) :
  parse_all parse (l1 ++ l2) = parse_all parse l1 ++ parse_all parse l2.
Proof. unfold parse_all. now rewrite map_app, filter_app. Qed.

Lemma parse_all_perm {A} (parse : A -> option jsval) (l1 l2 : list A) :
  Permutation l1 l2 -> Permutation (parse_all parse l1) (parse_all parse l2).
Proof.
  intros H. rewrite !parse_all_flat_map.
  induction H; simpl; auto.
  - now apply Permutation_app_head.
  - rewrite !app_assoc. apply Permutation_app_tail, Permutation_app_comm.
  - etransitivity; eauto.
Qed.

Lemma firstn_short {A} (n : nat) (l : list A) : (List.length l <= n)%nat -> firstn n l = l.
Proof. apply firstn_all2. Qed.

Lemma stat_all_returns {A} (file : A -> dirent) (files : list A) (h : host) t :
  stats_return (map file files) -> stat_all file files h t = (Returned files, t).
Proof.
  unfold stats_return. induction files as [|f files IH]; intros H; [reflexivity|].
  inversion H as [|? ? [m Hm] Hrest]; subst.
  cbn [stat_all]. unfold bind, statSync. rewrite Hm. cbn [lift ret].
  rewrite IH by assumption. reflexivity.
Qed.

Lemma stat_all_throws {A} (file : A -> dirent) (before after : list A) (f : A)
      (err : string) (h : host) t :
  stats_return (map file before) -> d_stat (file f) = inl err ->
  stat_all file (before ++ f :: after) h t = (Thrown err, t).
Proof.
  unfold stats_return. induction before as [|g before IH]; intros H Hf.
  - cbn [app stat_all]. unfold bind, statSync. rewrite Hf. reflexivity.
  - inversion H as [|? ? [m Hm] Hrest]; subst.
    cbn [app stat_all]. unfold bind at 1, statSync. rewrite Hm. cbn [lift ret].
    unfold bind at 1. rewrite IH by assumption. reflexivity.
Qed.

(** ** GET /api/samples *)

Lemma readdir_ls (h : host) (dir : string) t :
  listable h -> readdirSync dir h t = (Returned (ls h dir), t).
Proof.
  intros [_ Hr]. unfold readdirSync, ls. destruct (Hr dir) as [files ->]. reflexivity.
Qed.

Lemma collect_dir_listable (h : host) (dir suffix : string) t :
  listable h ->
  Server.collect_dir dir suffix h t = (Returned (sidecars h dir suffix), t ++ [MkDir dir]).
Proof.
  intros Hl. unfold Server.collect_dir, Server.ensureDir, try_catch, bind.
  rewrite perform_accepted by apply Hl. rewrite readdir_ls by assumption. reflexivity.
Qed.

Lemma collect_listable (h : host) (kind : string) t :
  listable h ->
  exists t', Server.collect kind h t = (Returned (selection h kind), t').
Proof.
  intros Hl. unfold Server.collect, Server.collect_audio, Server.collect_pairs, selection.
  destruct ((kind =? "audio") || (kind =? "all")), ((kind =? "pair") || (kind =? "all"));
    unfold bind, ret; rewrite ?collect_dir_listable by assumption; eexists; reflexivity.
Qed.

Lemma samples_listable (h : host) (r : request) :
  listable h ->
  stats_return (map snd (selection h (kind_of r))) ->
  fst (Server.run (Server.samples r) h) =
  listing (kind_of r) (Server.items_of (selection h (kind_of r))).
Proof.
  intros Hl Hs. unfold Server.run, Server.samples, try_catch, bind at 1.
  unfold Server.ensureDir at 1, try_catch. rewrite perform_accepted by apply Hl.
  fold (kind_of r). unfold bind at 1.
  destruct (collect_listable h (kind_of r) ([] ++ [MkDir Server.DATA_ROOT]) Hl) as [t' ->].
  unfold bind. rewrite stat_all_returns by assumption. reflexivity.
Qed.

Lemma samples_stat_throws (h : host) (r : request)
      (before after : list (string * dirent)) (f : string * dirent) (err : string) :
  listable h ->
  selection h (kind_of r) = before ++ f :: after ->
  stats_return (map snd before) -> d_stat (snd f) = inl err ->
  fst (Server.run (Server.samples r) h) =
  send 500 [("ok", JBool false); ("error", JStr "List failed"); ("details", JStr err)].
Proof.
  intros Hl Hsel Hb Hf. unfold Server.run, Server.samples, try_catch, bind at 1.
  unfold Server.ensureDir at 1, try_catch. rewrite perform_accepted by apply Hl.
  fold (kind_of r). unfold bind at 1.
  destruct (collect_listable h (kind_of r) ([] ++ [MkDir Server.DATA_ROOT]) Hl) as [t' ->].
  unfold bind. rewrite Hsel, (stat_all_throws snd before after f err) by assumption.
  reflexivity.
Qed.

Lemma lab0_samples_readable (h : host) (r : request) :
  readable h ->
  stats_return (lab0_selection h (kind_of r)) ->
  fst (Lab0.run (Lab0.samples r) h) =
  Some (listing (kind_of r) (Lab0.items_of (lab0_selection h (kind_of r)))).
Proof.
  intros Hr Hs. unfold Lab0.run, Lab0.samples, try_catch at 1, bind at 1.
  unfold Lab0.ensureDir, try_catch, perform, ret at 1.
  fold (kind_of r). revert Hs. unfold lab0_selection, ls, bind, readdirSync.
  destruct (Hr Lab0.DATA_DIR) as [files E]. rewrite E. intros Hs.
  rewrite <- (map_id (filter _ files)) in Hs.
  destruct (h_refuses h (MkDir Lab0.DATA_DIR)); cbn [lift ret];
    rewrite (stat_all_returns (fun f => f)) by exact Hs; reflexivity.
Qed.

Lemma lab0_samples_stat_throws (h : host) (r : request)
      (before after : list dirent) (f : dirent) (err : string) :
  readable h ->
  lab0_selection h (kind_of r) = before ++ f :: after ->
  stats_return before -> d_stat f = inl err ->
  fst (Lab0.run (Lab0.samples r) h) =
  Some (send 500 [("ok", JBool false); ("error", JStr "List failed");
                  ("details", JStr err)]).
Proof.
  intros Hr Hsel Hb Hf. unfold Lab0.run, Lab0.samples, try_catch at 1, bind at 1.
  unfold Lab0.ensureDir, try_catch, perform, ret at 1.
  fold (kind_of r). revert Hsel. unfold lab0_selection, ls, bind, readdirSync.
  destruct (Hr Lab0.DATA_DIR) as [files E]. rewrite E. intros Hsel.
  rewrite <- (map_id before) in Hb.
  destruct (h_refuses h (MkDir Lab0.DATA_DIR)); cbn [lift ret];
    rewrite Hsel, (stat_all_throws (fun f => f) before after f err) by assumption;
    reflexivity.
Qed.

(** ** Names ending in .json and .pair.json *)

Lemma string_length_app (a b : string) :
  String.length (a ++ b) = (String.length a + String.length b)%nat.
Proof. induction a as [|c a IH]; simpl; [reflexivity|now rewrite IH]. Qed.

Lemma substring_whole (b : string) : substring 0 (String.length b) b = b.
Proof. induction b as [|c b IH]; simpl; [reflexivity|now rewrite IH]. Qed.

Lemma substring_skip (a b : string) (n : nat) :
  substring (String.length a) n (a ++ b) = substring 0 n b.
Proof. induction a as [|c a IH]; simpl; [reflexivity|exact IH]. Qed.

Lemma substring_cut (s : string) (n : nat) :
  (n <= String.length s)%nat ->
  s = (substring 0 n s ++ substring n (String.length s - n) s)%string.
Proof.
  revert n; induction s as [|c s IH]; intros n Hn; simpl in Hn.
  - assert (n = 0)%nat as -> by lia. reflexivity.
  - destruct n as [|n].
    + simpl. now rewrite substring_whole.
    + simpl. rewrite <- IH by lia. reflexivity.
Qed.

Lemma endsWith_split (s p : string) :
  endsWith s p = true <-> exists a, s = (a ++ p)%string.
Proof.
  unfold endsWith. rewrite andb_true_iff, Nat.leb_le, String.eqb_eq. split.
  - intros [Hle Hs]. exists (substring 0 (String.length s - String.length p) s).
    rewrite (substring_cut s (String.length s - String.length p)) at 1 by lia.
    replace (String.length s - (String.length s - String.length p))%nat
      with (String.length p) by lia.
    now rewrite Hs.
  - intros [a ->]. rewrite string_length_app. split; [lia|].
    replace (String.length a + String.length p - String.length p)%nat
      with (String.length a) by lia.
    now rewrite substring_skip, substring_whole.
Qed.

Lemma endsWith_longer (s a p : string) :
  endsWith s (a ++ p) = true -> endsWith s p = true.
Proof.
  rewrite !endsWith_split. intros [b ->]. exists (b ++ a)%string.
  clear. induction b as [|c b IH]; simpl; [reflexivity|now rewrite IH].
Qed.

Lemma lab0_selects_all (f : string) :
  Lab0.selects "all" f = Lab0.selects "audio" f || Lab0.selects "pair" f.
Proof.
  unfold Lab0.selects. cbn [String.eqb Ascii.eqb Bool.eqb].
  destruct (endsWith f ".pair.json") eqn:P.
  - rewrite (endsWith_longer f ".pair" ".json" P). reflexivity.
  - now rewrite andb_true_r, orb_false_r.
Qed.

Lemma lab0_selects_other (kind f : string) :
  kind <> "audio" -> kind <> "pair" -> Lab0.selects kind f = Lab0.selects "all" f.
Proof.
  intros Ha Hp. unfold Lab0.selects. apply String.eqb_neq in Ha, Hp. now rewrite Ha, Hp.
Qed.

Lemma lab0_selection_audio (h : host) : lab0_selection h "audio" = lab0_files h audio_name.
Proof. reflexivity. Qed.

Lemma lab0_selection_pair (h : host) : lab0_selection h "pair" = lab0_files h pair_name.
Proof. reflexivity. Qed.

Lemma lab0_selection_json (h : host) : lab0_selection h "all" = lab0_files h json_name.
Proof. reflexivity. Qed.

(** ** The claims *)

(** Letter case and the order of the tests, on four headers. *)
Lemma mixed_case_content_type :
  extFromContentType (Some "Audio/WEBM; codecs=opus") = ".webm" /\
  extFromContentType (Some "audio/x-WAV audio/WAV") = ".wav" /\
  extFromContentType (Some "AUDIO/MP3") = ".mp3" /\
  extFromContentType (Some "text/plain") = ".bin".
Proof. repeat split; reflexivity. Qed.

(** C1 fails on the partitioned server: POST /api/asr/fr with the body
    "abc" reaches the ingest handler, is answered 200 as en-US, and both the
    blob and the sidecar are written under data/audio/en. *)
Lemma french_upload_is_stored :
  let r := post "/api/asr/fr" [abc] in
  Server.route r = Server.AsrUpload /\
  status (fst (Server.run (Server.asr r) calm)) = 200%Z /\
  get (body (fst (Server.run (Server.asr r) calm))) "lang" = JStr "en-US" /\
  map written_path (writes (snd (Server.run (Server.asr r) calm))) =
  [ Some {| p_dir := "data/audio/en";
            p_name := "1b4e28ba-2fa1-41d2-883f-0016d3cca427.webm" |};
    Some {| p_dir := "data/audio/en";
            p_name := "1b4e28ba-2fa1-41d2-883f-0016d3cca427.json" |} ].
Proof. repeat split; vm_compute; reflexivity. Qed.

(** C1, amended. The function of asr-upload.js answers every POST whose last
    path segment is not exactly en or ht with 400 (it has no disk to write
    to). The partitioned server validates nothing and answers 400 to no
    POST /api/asr/...: a segment that does not lower-case to ht (the empty
    one reads as en) is ingested as English; with the body within
    MAX_FILE_SIZE and a disk that accepts, the answer is 200 with lang en-US
    and the blob and the sidecar are written under data/audio/en. *)
Theorem language_is_checked_by_the_function_only :
  (forall (c : NetlifyAsr.clock) (e : NetlifyAsr.event) (pre seg : string),
      NetlifyAsr.httpMethod e = "POST" ->
      NetlifyAsr.ev_path e = (pre ++ String "/" seg)%string ->
      has_char "/" seg = false ->
      seg <> "en" -> seg <> "ht" ->
      NetlifyAsr.handler c e =
      reply 400 [("ok", JBool false); ("error", JStr "Invalid language parameter");
                 ("message",
                   JStr ("Language must be 'en' or 'ht', got '" ++ seg ++ "'")%string)]) /\
  (forall (h : host) (r : request),
      status (fst (Server.run (Server.asr r) h)) <> 400%Z) /\
  (forall (h : host) (r : request) (seg : string),
      pathname r = ("/api/asr/" ++ seg)%string ->
      has_char "/" seg = false ->
      toLowerCase seg <> "ht" ->
      (body_size r <= Server.MAX_FILE_SIZE h)%Z ->
      disk_accepts h ->
      let contentType := or_str (content_type r) "application/octet-stream" in
      let ext := extFromContentType (Some contentType) in
      let meta := Server.metadata h r (asr_lang r) contentType ext (concat (chunks r)) in
      lookup "lang" meta = JStr "en-US" /\
      Server.run (Server.asr r) h =
      (send 200 (("ok", JBool true) :: meta),
       [ MkDir Server.AUDIO_EN_DIR; MkDir Server.MANIFESTS_DIR;
         WriteFile {| p_dir := Server.AUDIO_EN_DIR;
                      p_name := (h_randomUUID h ++ ext)%string |}
                   (Buffer (concat (chunks r)));
         WriteFile {| p_dir := Server.AUDIO_EN_DIR;
                      p_name := (h_randomUUID h ++ ".json")%string |}
                   (JsonText (stringified (JObj meta))) ])).
Proof.
  split; [|split].
  - intros c e pre seg Hm Hp Hs Hen Hht.
    pose proof (lang_of_segment pre seg Hs) as Hl. rewrite <- Hp in Hl.
    rewrite netlify_asr_rejects; rewrite ?Hl; auto.
  - intros h r. destruct (asr_status h r) as [-> | ->]; discriminate.
  - intros h r seg Hp Hs Hht Hsz Hd. cbv zeta.
    assert (Hl : (asr_lang r =? "ht") = false).
    { rewrite (asr_lang_segment r seg Hp Hs). apply String.eqb_neq.
      destruct (String.eqb_spec seg ""); [discriminate|assumption]. }
    split.
    + unfold Server.metadata. cbn [lookup String.eqb Ascii.eqb Bool.eqb]. now rewrite Hl.
    + rewrite (asr_stores h r Hsz Hd). cbv zeta. unfold stored_in. rewrite Hl. reflexivity.
Qed.

(** The amended C1 at /api/asr/fr, for the function and for the server. *)
Lemma language_is_checked_by_the_function_only_witness :
  NetlifyAsr.handler
    {| NetlifyAsr.c_Date_now := "1757465662382"; NetlifyAsr.c_random := "k3j9x0q2m1";
       NetlifyAsr.c_now := "2025-09-10T00:54:22.382Z" |}
    {| NetlifyAsr.httpMethod := "POST"; NetlifyAsr.ev_path := "/api/asr/fr";
       NetlifyAsr.ev_body := Some "abc"; NetlifyAsr.ev_content_type := Some "audio/webm" |}
  = reply 400 [("ok", JBool false); ("error", JStr "Invalid language parameter");
               ("message", JStr "Language must be 'en' or 'ht', got 'fr'")]
  /\ lookup "lang" (Server.metadata calm (post "/api/asr/fr" [abc])
                      (asr_lang (post "/api/asr/fr" [abc])) "audio/webm" ".webm" abc)
     = JStr "en-US".
Proof.
  destruct language_is_checked_by_the_function_only as [Hn [_ Hs]]. split.
  - apply (Hn _ _ "/api/asr" "fr"); try reflexivity; discriminate.
  - apply (Hs calm (post "/api/asr/fr" [abc]) "fr"); try reflexivity.
    + discriminate.
    + vm_compute. discriminate.
    + intros op. reflexivity.
Defined.

(** C2 fails on the partitioned server: a link request that lacks only
    category, consent true, is answered 400 with the fixed error text and
    no missingFields at all. *)
Lemma server_names_no_missing_field :
  let res := fst (Server.run (Server.link (post "/api/samples/link" [abc]))
                             (parsing no_category calm)) in
  status res = 400%Z /\
  body res = JObj [("ok", JBool false);
                   ("error", JStr "Missing required fields or consent=false")] /\
  get (body res) "missingFields" = JUndefined.
Proof. repeat split; vm_compute; reflexivity. Qed.

(** C2, amended. In the function of samples-link.js, a POST whose body
    parses to a value other than null and lacks one or more of term,
    category, enAudioId, htAudioId (absent or falsy, whatever consent is) is
    answered 400 with missingFields holding exactly the lacking names, in
    the order term, category, enAudioId, htAudioId (the list [lacking]), and
    the same names joined in that order in the error text; lacking only
    category gives exactly ["category"].
    The partitioned server answers such a request 400 with the fixed body
    {ok: false, error: 'Missing required fields or consent=false'}: no name
    is listed. *)
Theorem missing_fields_are_named_by_the_function_only :
  (forall (c : NetlifyLink.clock) (e : NetlifyLink.event) (p : jsval),
      NetlifyLink.httpMethod e = "POST" ->
      NetlifyLink.parse_body c e = inr p ->
      nullish p = false ->
      lacking p <> [] ->
      NetlifyLink.handler c e =
      reply 400 [("ok", JBool false);
                 ("error", JStr ("Missing required fields: "
                                 ++ join ", " (lacking p))%string);
                 ("missingFields", JArr (map JStr (lacking p)))] /\
      NetlifyLink.missingFields p = lacking p /\
      (forall k, In k (NetlifyLink.missingFields p) <->
                 In k required /\ truthy (get p k) = false) /\
      (truthy (get p "term") = true -> truthy (get p "category") = false ->
       truthy (get p "enAudioId") = true -> truthy (get p "htAudioId") = true ->
       NetlifyLink.handler c e =
       reply 400 [("ok", JBool false);
                  ("error", JStr "Missing required fields: category");
                  ("missingFields", JArr [JStr "category"])])) /\
  (forall (h : host) (r : request) (payload : jsval),
      (body_size r <= Server.MAX_FILE_SIZE h)%Z ->
      h_JSON_parse h (concat (chunks r)) = inr payload ->
      h_refuses h (MkDir Server.PAIRS_DIR) = None ->
      valid_link (js_or payload (JObj [])) = false ->
      Server.run (Server.link r) h =
      (send 400 [("ok", JBool false);
                 ("error", JStr "Missing required fields or consent=false")],
       [MkDir Server.PAIRS_DIR])).
Proof.
  split.
  - intros c e p Hm Hp Hn Hmiss.
    assert (Hres : NetlifyLink.handler c e =
                   reply 400 [("ok", JBool false);
                              ("error", JStr ("Missing required fields: "
                                              ++ join ", " (lacking p))%string);
                              ("missingFields", JArr (map JStr (lacking p)))]).
    { rewrite <- (missingFields_lacking p) in *. now apply netlify_link_missing. }
    split; [exact Hres|]. split; [apply missingFields_lacking|]. split.
    + apply missingFields_spec.
    + intros T C E H. rewrite Hres. unfold lacking, required. cbn [filter].
      rewrite T, C, E, H. reflexivity.
  - intros h r payload Hsz Hp Hd Hv. apply (link_refused h r payload); auto.
    now rewrite Hv.
Qed.

(** The amended C2 at the request that lacks only category. *)
Lemma missing_fields_are_named_by_the_function_only_witness :
  NetlifyLink.handler
    {| NetlifyLink.c_JSON_parse := fun _ => inr no_category;
       NetlifyLink.c_Date_now := "1757465662382"; NetlifyLink.c_random := "k3j9x0q2m1";
       NetlifyLink.c_now := "2025-09-10T00:54:22.382Z" |}
    {| NetlifyLink.httpMethod := "POST"; NetlifyLink.ev_body := Some "{...}" |}
  = reply 400 [("ok", JBool false);
               ("error", JStr "Missing required fields: category");
               ("missingFields", JArr [JStr "category"])]
  /\ Server.run (Server.link (post "/api/samples/link" [abc])) (parsing no_category calm)
     = (send 400 [("ok", JBool false);
                  ("error", JStr "Missing required fields or consent=false")],
        [MkDir Server.PAIRS_DIR]).
Proof.
  destruct missing_fields_are_named_by_the_function_only as [Hn Hs]. split.
  - refine (proj1 (Hn _ _ no_category _ _ _ _)); try reflexivity. discriminate.
  - apply (Hs _ _ no_category); try reflexivity. vm_compute. discriminate.
Defined.

Lemma big_size (path : string) : body_size (big path) = (ten_MiB + 1)%Z.
Proof.
  unfold body_size, big, post, chunks. cbn [concat]. rewrite app_nil_r, repeat_length.
  rewrite N_nat_Z. reflexivity.
Qed.

(** C3 fails twice: server.js links the scenario pair although consent is
    false (200, and the pair file is written); and the partitioned server
    answers 500, not 400, to a request of 10 MiB + 1 bytes whose JSON has
    consent false, since the body is read, against the default cap, before
    it is parsed. *)
Lemma consent_is_not_always_a_400 :
  (* server.js links a pair whose consent is false *)
  h_JSON_parse (parsing declined calm) (concat (chunks (post "/api/samples/link" [abc])))
  = inr declined /\
  option_map status (fst (Lab0.run (Lab0.link (post "/api/samples/link" [abc]))
                                   (parsing declined calm))) = Some 200%Z /\
  map written_path
      (writes (snd (Lab0.run (Lab0.link (post "/api/samples/link" [abc]))
                             (parsing declined calm)))) =
  [ Some {| p_dir := "data";
            p_name := "1b4e28ba-2fa1-41d2-883f-0016d3cca427.pair.json" |} ] /\
  (* the partitioned server answers 500 when the body, of 10 MiB + 1 bytes,
     is above the default cap *)
  h_JSON_parse (parsing declined calm) (concat (chunks (big "/api/samples/link")))
  = inr declined /\
  Server.run (Server.link (big "/api/samples/link")) (parsing declined calm)
  = (send 500 [("ok", JBool false); ("error", JStr "Linking failed");
               ("details",
                 JStr "Error: Request body too large. Max size: 10485760 bytes")],
     [MkDir "data/pairs"]).
Proof.
  split; [reflexivity|]. split; [vm_compute; reflexivity|].
  split; [vm_compute; reflexivity|]. split; [reflexivity|].
  rewrite link_oversized; [reflexivity| |rewrite big_size|reflexivity].
  - vm_compute. congruence.
  - vm_compute. reflexivity.
Qed.

(** C3, amended. On the partitioned server a link request whose JSON body
    has consent falsy or absent writes no file in any case, and is answered
    400 whenever the body is within MAX_FILE_SIZE and data/pairs can be
    ensured, whatever the other fields are. server.js does not read consent:
    with the four required fields truthy it answers 200 and writes the pair
    file. *)
Theorem no_consent_no_pair_on_the_partitioned_server :
  (forall (h : host) (r : request) (payload : jsval),
      h_JSON_parse h (concat (chunks r)) = inr payload ->
      truthy (get (js_or payload (JObj [])) "consent") = false ->
      writes (snd (Server.run (Server.link r) h)) = [] /\
      ((body_size r <= Server.MAX_FILE_SIZE h)%Z ->
       h_refuses h (MkDir Server.PAIRS_DIR) = None ->
       Server.run (Server.link r) h =
       (send 400 [("ok", JBool false);
                  ("error", JStr "Missing required fields or consent=false")],
        [MkDir Server.PAIRS_DIR]))) /\
  (forall (h : host) (r : request) (payload : jsval),
      h_JSON_parse h (concat (chunks r)) = inr payload ->
      disk_accepts h ->
      valid_link (js_or payload (JObj [])) = true ->
      let record := Lab0.pair_record h (js_or payload (JObj [])) in
      Lab0.run (Lab0.link r) h =
      (Some (send 200 [("ok", JBool true); ("sampleId", JStr (h_randomUUID h));
                       ("record", JObj record)]),
       [ MkDir Lab0.DATA_DIR;
         WriteFile {| p_dir := Lab0.DATA_DIR;
                      p_name := (h_randomUUID h ++ ".pair.json")%string |}
                   (JsonText (stringified (JObj record))) ])).
Proof.
  split.
  - intros h r payload Hp Hc. rewrite <- consents_get in Hc. split.
    + now apply (link_no_write_without_consent h r payload).
    + intros Hsz Hd. apply (link_refused h r payload); auto.
      now rewrite Hc, andb_false_r.
  - intros h r payload Hp Hd Hv. now apply lab0_link_accepted.
Qed.

(** The amended C3 at the scenario request with consent false. *)
Lemma no_consent_no_pair_on_the_partitioned_server_witness :
  Server.run (Server.link (post "/api/samples/link" [abc])) (parsing declined calm)
  = (send 400 [("ok", JBool false);
               ("error", JStr "Missing required fields or consent=false")],
     [MkDir Server.PAIRS_DIR])
  /\ fst (Lab0.run (Lab0.link (post "/api/samples/link" [abc])) (parsing declined calm))
     = Some (send 200 [("ok", JBool true);
                       ("sampleId", JStr "1b4e28ba-2fa1-41d2-883f-0016d3cca427");
                       ("record", JObj (Lab0.pair_record (parsing declined calm) declined))]).
Proof.
  destruct no_consent_no_pair_on_the_partitioned_server as [Hs Hl]. split.
  - refine (proj2 (Hs _ _ declined _ _) _ _); try reflexivity. vm_compute. discriminate.
  - rewrite (Hl _ _ declined); try reflexivity. intros op. reflexivity.
Defined.

(** C4 fails twice: server.js stores a body of 10 MiB + 1 bytes whole; and
    the partitioned server started with MAX_FILE_SIZE=-1 stores an empty
    body, whose size 0 exceeds -1, because the test runs once per chunk. *)
Lemma cap_is_not_everywhere :
  (* server.js stores a body of 10 MiB + 1 bytes *)
  (ten_MiB < body_size (big "/api/asr/en"))%Z /\
  Lab0.run (Lab0.asr (big "/api/asr/en")) calm =
  (Some (send 200 (("ok", JBool true)
                   :: Lab0.metadata calm (big "/api/asr/en") "en" "audio/webm" ".webm"
                        (concat (chunks (big "/api/asr/en"))))),
   [ MkDir "data";
     WriteFile {| p_dir := "data";
                  p_name := "1b4e28ba-2fa1-41d2-883f-0016d3cca427.webm" |}
               (Buffer (concat (chunks (big "/api/asr/en"))));
     WriteFile {| p_dir := "data";
                  p_name := "1b4e28ba-2fa1-41d2-883f-0016d3cca427.json" |}
               (JsonText (stringified
                  (JObj (Lab0.metadata calm (big "/api/asr/en") "en" "audio/webm" ".webm"
                           (concat (chunks (big "/api/asr/en"))))))) ]) /\
  (* with MAX_FILE_SIZE=-1 the partitioned server stores an empty body *)
  (Server.MAX_FILE_SIZE (capped (-1) calm) < body_size (post "/api/asr/en" []))%Z /\
  status (fst (Server.run (Server.asr (post "/api/asr/en" [])) (capped (-1) calm))) = 200%Z /\
  map written_path
      (writes (snd (Server.run (Server.asr (post "/api/asr/en" [])) (capped (-1) calm)))) =
  [ Some {| p_dir := "data/audio/en";
            p_name := "1b4e28ba-2fa1-41d2-883f-0016d3cca427.webm" |};
    Some {| p_dir := "data/audio/en";
            p_name := "1b4e28ba-2fa1-41d2-883f-0016d3cca427.json" |} ].
Proof.
  split; [rewrite big_size; lia|]. split.
  - rewrite lab0_asr_stores by (intros op; reflexivity). reflexivity.
  - repeat split; vm_compute; reflexivity.
Qed.

(** C4, amended. On the partitioned server, for a MAX_FILE_SIZE that is not
    negative (10 MiB when the variable is unset), an ingest whose body
    exceeds it is answered 500 'ASR save failed' and no disk operation takes
    place: neither the blob nor the sidecar exists afterwards. server.js has
    no cap: on a disk that accepts, it answers 200 and writes the whole body,
    whatever its size. *)
Theorem oversized_body_is_refused_before_any_write :
  (forall (h : host) (r : request),
      (0 <= Server.MAX_FILE_SIZE h)%Z ->
      (Server.MAX_FILE_SIZE h < body_size r)%Z ->
      Server.run (Server.asr r) h =
      (send 500 [("ok", JBool false); ("error", JStr "ASR save failed");
                 ("details", JStr (too_large (Server.MAX_FILE_SIZE h)))], [])) /\
  (forall (h : host), h_MAX_FILE_SIZE h = None -> Server.MAX_FILE_SIZE h = ten_MiB) /\
  (forall (h : host) (r : request),
      disk_accepts h ->
      option_map status (fst (Lab0.run (Lab0.asr r) h)) = Some 200%Z /\
      In (WriteFile {| p_dir := Lab0.DATA_DIR;
                       p_name := (h_randomUUID h
                                  ++ extFromContentType
                                       (Some (or_str (content_type r)
                                                     "application/octet-stream")))%string |}
                    (Buffer (concat (chunks r))))
         (snd (Lab0.run (Lab0.asr r) h))).
Proof.
  split; [|split].
  - intros h r H0 H. now apply oversized_asr.
  - intros h H. unfold Server.MAX_FILE_SIZE. now rewrite H.
  - intros h r Hd. rewrite (lab0_asr_stores h r Hd). cbv zeta. split; [reflexivity|].
    cbn [snd]. right. left. reflexivity.
Qed.

(** The amended C4 at six bytes sent in two chunks against a cap of five. *)
Lemma oversized_body_is_refused_before_any_write_witness :
  Server.run (Server.asr (post "/api/asr/en" [abc; abc])) (capped 5 calm)
  = (send 500 [("ok", JBool false); ("error", JStr "ASR save failed");
               ("details", JStr "Error: Request body too large. Max size: 5 bytes")], [])
  /\ option_map status (fst (Lab0.run (Lab0.asr (post "/api/asr/en" [abc; abc])) calm))
     = Some 200%Z.
Proof.
  destruct oversized_body_is_refused_before_any_write as [Hs [_ Hl]]. split.
  - apply (Hs (capped 5 calm) (post "/api/asr/en" [abc; abc])); vm_compute; congruence.
  - apply (Hl calm (post "/api/asr/en" [abc; abc])). intros op. reflexivity.
Defined.

(** C6 fails past fifty files: with fifty audio sidecars newer than the one
    pair file, kind=pair returns the pair, kind=audio fifty records, and
    kind=all fifty records none of which is the pair. *)
Lemma all_is_not_the_union_past_fifty :
  let pairs := response_items (fst (Server.run (Server.samples (list_request (Some "pair"))) crowded)) in
  let audio := response_items (fst (Server.run (Server.samples (list_request (Some "audio"))) crowded)) in
  let all := response_items (fst (Server.run (Server.samples (list_request (Some "all"))) crowded)) in
  pairs = [JObj [("kind", JStr "pair"); ("sampleId", JStr "p-1")]] /\
  List.length audio = 50%nat /\
  List.length all = 50%nat /\
  existsb (kind_is "pair") all = false.
Proof. repeat split; vm_compute; reflexivity. Qed.

Lemma sidecars_In (h : host) (dir suffix : string) (x : string * dirent) :
  In x (sidecars h dir suffix) <->
  fst x = dir /\ In (snd x) (ls h dir) /\ endsWith (d_name (snd x)) suffix = true.
Proof.
  unfold sidecars. rewrite in_map_iff. split.
  - intros [f [<- Hf]]. apply filter_In in Hf. simpl. tauto.
  - intros [Hd [Hf He]]. exists (snd x). split.
    + destruct x; simpl in *; congruence.
    + apply filter_In. tauto.
Qed.

Lemma selection_audio (h : host) : selection h "audio" = audio_sidecars h.
Proof. unfold selection. cbn [String.eqb Ascii.eqb Bool.eqb orb]. apply app_nil_r. Qed.

Lemma selection_pair (h : host) : selection h "pair" = pair_sidecars h.
Proof. reflexivity. Qed.

Lemma selection_all (h : host) : selection h "all" = audio_sidecars h ++ pair_sidecars h.
Proof. reflexivity. Qed.

Lemma items_In (l : list (string * dirent)) (v : jsval) :
  In v (Server.items_of l) ->
  exists x, In x l /\ d_parse (snd x) = Some v.
Proof.
  unfold Server.items_of. rewrite parse_all_In. intros [x [Hx [Hp _]]].
  exists x. split; [|exact Hp]. eapply in_firstn_in in Hx.
  eapply Permutation_in; [apply sort_perm|exact Hx].
Qed.

Lemma newest_50_short (l : list (string * dirent)) :
  (List.length l <= 50)%nat ->
  Permutation (Server.newest_50 l) l.
Proof.
  intros H. unfold Server.newest_50. rewrite firstn_short.
  - apply sort_perm.
  - now rewrite (Permutation_length (sort_perm _ l)).
Qed.

Lemma filter_union_perm {A} (p q r : A -> bool) (l : list A) :
  (forall x, p x = q x || r x) -> (forall x, q x && r x = false) ->
  Permutation (filter p l) (filter q l ++ filter r l).
Proof.
  intros Hu Hd. induction l as [|x l IH]; [reflexivity|].
  cbn [filter]. rewrite Hu. specialize (Hd x).
  destruct (q x), (r x); try discriminate; cbn [orb app].
  - now constructor.
  - now apply Permutation_cons_app.
  - exact IH.
Qed.

Lemma lab0_selection_all (h : host) :
  Permutation (lab0_selection h "all")
              (lab0_selection h "audio" ++ lab0_selection h "pair").
Proof.
  unfold lab0_selection. apply filter_union_perm.
  - intros f. apply lab0_selects_all.
  - intros f. unfold Lab0.selects. cbn [String.eqb Ascii.eqb Bool.eqb].
    destruct (endsWith (d_name f) ".pair.json"), (endsWith (d_name f) ".json"); reflexivity.
Qed.

Lemma lab0_items_In (l : list dirent) (v : jsval) :
  In v (Lab0.items_of l) -> exists f, In f l /\ d_parse f = Some v.
Proof.
  unfold Lab0.items_of. rewrite parse_all_In. intros [x [Hx [Hp _]]].
  exists x. split; [|exact Hp]. eapply in_firstn_in in Hx.
  eapply Permutation_in; [apply sort_perm|exact Hx].
Qed.

Lemma lab0_newest_50_short (l : list dirent) :
  (List.length l <= 50)%nat -> Permutation (Lab0.newest_50 l) l.
Proof.
  intros H. unfold Lab0.newest_50. rewrite firstn_short.
  - apply sort_perm.
  - now rewrite (Permutation_length (sort_perm _ l)).
Qed.

(** C6, amended. For every state of the store whose directories can be
    ensured and read and on whose selected files statSync returns:
    kind=audio returns only records parsed from .json files of
    data/audio/en and data/audio/ht, kind=pair only records parsed from
    .pair.json files of data/pairs, and kind=all returns the newest fifty of
    the two sets put together, which is the union of the two listings
    whenever they hold at most fifty files. server.js does the same over its
    one directory, an audio sidecar being a .json file that is not a
    .pair.json file. *)
Theorem listing_filters_by_kind_within_fifty :
  (forall (h : host) (r : request),
    listable h ->
    (kind_of r = "audio" ->
     stats_return (map snd (audio_sidecars h)) ->
     fst (Server.run (Server.samples r) h)
     = listing "audio" (Server.items_of (audio_sidecars h)) /\
     forall v, In v (Server.items_of (audio_sidecars h)) ->
       exists f, (In f (ls h Server.AUDIO_EN_DIR) \/ In f (ls h Server.AUDIO_HT_DIR)) /\
                 endsWith (d_name f) ".json" = true /\ d_parse f = Some v) /\
    (kind_of r = "pair" ->
     stats_return (map snd (pair_sidecars h)) ->
     fst (Server.run (Server.samples r) h)
     = listing "pair" (Server.items_of (pair_sidecars h)) /\
     forall v, In v (Server.items_of (pair_sidecars h)) ->
       exists f, In f (ls h Server.PAIRS_DIR) /\
                 endsWith (d_name f) ".pair.json" = true /\ d_parse f = Some v) /\
    (kind_of r = "all" ->
     stats_return (map snd (audio_sidecars h ++ pair_sidecars h)) ->
     fst (Server.run (Server.samples r) h)
     = listing "all" (Server.items_of (audio_sidecars h ++ pair_sidecars h)) /\
     ((List.length (audio_sidecars h ++ pair_sidecars h) <= 50)%nat ->
      Permutation (Server.items_of (audio_sidecars h ++ pair_sidecars h))
                  (Server.items_of (audio_sidecars h)
                   ++ Server.items_of (pair_sidecars h))))) /\
  (forall (h : host) (r : request),
    readable h ->
    (kind_of r = "audio" ->
     stats_return (lab0_files h audio_name) ->
     fst (Lab0.run (Lab0.samples r) h)
     = Some (listing "audio" (Lab0.items_of (lab0_files h audio_name))) /\
     forall v, In v (Lab0.items_of (lab0_files h audio_name)) ->
       exists f, In f (ls h Lab0.DATA_DIR) /\ endsWith (d_name f) ".json" = true /\
                 endsWith (d_name f) ".pair.json" = false /\ d_parse f = Some v) /\
    (kind_of r = "pair" ->
     stats_return (lab0_files h pair_name) ->
     fst (Lab0.run (Lab0.samples r) h)
     = Some (listing "pair" (Lab0.items_of (lab0_files h pair_name))) /\
     forall v, In v (Lab0.items_of (lab0_files h pair_name)) ->
       exists f, In f (ls h Lab0.DATA_DIR) /\
                 endsWith (d_name f) ".pair.json" = true /\ d_parse f = Some v) /\
    (kind_of r = "all" ->
     stats_return (lab0_files h json_name) ->
     fst (Lab0.run (Lab0.samples r) h)
     = Some (listing "all" (Lab0.items_of (lab0_files h json_name))) /\
     ((List.length (lab0_files h json_name) <= 50)%nat ->
      Permutation (Lab0.items_of (lab0_files h json_name))
                  (Lab0.items_of (lab0_files h audio_name)
                   ++ Lab0.items_of (lab0_files h pair_name))))).
Proof.
  split.
  - intros h r Hl. split; [|split]; intros Hk Hs.
    + split.
      * rewrite (samples_listable h r Hl); rewrite Hk, ?selection_audio; auto.
      * intros v Hv. destruct (items_In _ _ Hv) as [[d f] [Hx Hp]].
        unfold audio_sidecars in Hx. apply in_app_or in Hx.
        exists f. destruct Hx as [Hx|Hx]; apply sidecars_In in Hx; simpl in *; tauto.
    + split.
      * rewrite (samples_listable h r Hl); rewrite Hk, ?selection_pair; auto.
      * intros v Hv. destruct (items_In _ _ Hv) as [[d f] [Hx Hp]].
        apply sidecars_In in Hx. exists f. simpl in *; tauto.
    + split.
      * rewrite (samples_listable h r Hl); rewrite Hk, ?selection_all; auto.
      * intros Hlen. rewrite length_app in Hlen. unfold Server.items_of.
        rewrite <- parse_all_app. apply parse_all_perm.
        rewrite !newest_50_short by (rewrite ?length_app; lia). reflexivity.
  - intros h r Hr. split; [|split]; intros Hk Hs.
    + split.
      * rewrite (lab0_samples_readable h r Hr); rewrite Hk, ?lab0_selection_audio; auto.
      * intros v Hv. destruct (lab0_items_In _ _ Hv) as [f [Hf Hp]].
        apply filter_In in Hf as [Hf Hn]. exists f. unfold audio_name in Hn.
        apply andb_prop in Hn as [H1 H2]. apply negb_true_iff in H2. auto.
    + split.
      * rewrite (lab0_samples_readable h r Hr); rewrite Hk, ?lab0_selection_pair; auto.
      * intros v Hv. destruct (lab0_items_In _ _ Hv) as [f [Hf Hp]].
        apply filter_In in Hf as [Hf Hn]. exists f. auto.
    + split.
      * rewrite (lab0_samples_readable h r Hr); rewrite Hk, ?lab0_selection_json; auto.
      * intros Hlen. pose proof (lab0_selection_all h) as Hperm.
        rewrite lab0_selection_json, lab0_selection_audio, lab0_selection_pair in Hperm.
        pose proof (Permutation_length Hperm) as Hlen'. rewrite length_app in Hlen'.
        unfold Lab0.items_of. rewrite <- parse_all_app. apply parse_all_perm.
        rewrite !lab0_newest_50_short by lia. exact Hperm.
Qed.

Lemma crowded_listable : listable crowded.
Proof. split; intros dir; [reflexivity|eexists; reflexivity]. Qed.

Lemma one_clip_listable : listable one_clip.
Proof. split; intros dir; [reflexivity|eexists; reflexivity]. Qed.

Lemma clips_stat (l : list nat) : stats_return (map clip l).
Proof.
  unfold stats_return. apply Forall_forall. intros f Hf.
  apply in_map_iff in Hf as [n [<- _]]. eexists. reflexivity.
Qed.

(** The amended C6 on a store of one sidecar and on the crowded one. *)
Lemma listing_filters_by_kind_within_fifty_witness :
  fst (Server.run (Server.samples (list_request (Some "Audio"))) one_clip)
  = listing "audio" (Server.items_of (audio_sidecars one_clip)) /\
  fst (Server.run (Server.samples (list_request (Some "pair"))) crowded)
  = listing "pair" (Server.items_of (pair_sidecars crowded)) /\
  Permutation (Server.items_of (audio_sidecars one_clip ++ pair_sidecars one_clip))
              (Server.items_of (audio_sidecars one_clip)
               ++ Server.items_of (pair_sidecars one_clip)) /\
  fst (Lab0.run (Lab0.samples (list_request (Some "audio"))) one_clip)
  = Some (listing "audio" (Lab0.items_of (lab0_files one_clip audio_name))).
Proof.
  destruct listing_filters_by_kind_within_fifty as [Hs Hl]. split; [|split; [|split]].
  - apply (Hs one_clip (list_request (Some "Audio")) one_clip_listable); [reflexivity|].
    apply (clips_stat [2%nat]).
  - apply (Hs crowded (list_request (Some "pair")) crowded_listable); [reflexivity|].
    repeat constructor. eexists. reflexivity.
  - apply (Hs one_clip (list_request None) one_clip_listable); [reflexivity| |].
    + apply (clips_stat [2%nat]).
    + vm_compute. lia.
  - apply (Hl one_clip (list_request (Some "audio")) (proj2 one_clip_listable));
      [reflexivity|]. constructor.
Defined.

Lemma newest_first_page_cut {A} (m : A -> Z) (l : list A) :
  newest_first_page m l (firstn 50 (sort_newest_first m l)).
Proof.
  exists (skipn 50 (sort_newest_first m l)). repeat split.
  - rewrite firstn_skipn. apply sort_perm.
  - apply sorted_firstn, sort_sorted.
  - rewrite length_firstn. now rewrite (Permutation_length (sort_perm m l)).
  - intros x y. apply sorted_cut, sort_sorted.
Qed.

(** C7. In both servers, when the directories can be read and statSync
    returns on the selected sidecars, the listing answers 200 with the items
    obtained from them by sorting them newest first, keeping the first fifty
    (none of them older than one that is left out), and replacing each kept
    file by the value it parses to; a file that does not parse contributes
    nothing and aborts nothing. With no file selected the answer is still
    200, with an empty items array. *)
Theorem listing_is_the_newest_fifty_that_parse :
  (forall (h : host) (r : request),
      listable h ->
      let gathered := selection h (kind_of r) in
      let kept := Server.newest_50 gathered in
      stats_return (map snd gathered) ->
      fst (Server.run (Server.samples r) h)
      = listing (kind_of r) (parsed_in_order (fun f => d_parse (snd f)) kept) /\
      newest_first_page (fun f => d_mtimeMs (snd f)) gathered kept /\
      (gathered = [] -> fst (Server.run (Server.samples r) h) = listing (kind_of r) [])) /\
  (forall (h : host) (r : request),
      readable h ->
      let gathered := lab0_selection h (kind_of r) in
      let kept := Lab0.newest_50 gathered in
      stats_return gathered ->
      fst (Lab0.run (Lab0.samples r) h)
      = Some (listing (kind_of r) (parsed_in_order d_parse kept)) /\
      newest_first_page d_mtimeMs gathered kept /\
      (gathered = [] ->
       fst (Lab0.run (Lab0.samples r) h) = Some (listing (kind_of r) []))).
Proof.
  split.
  - intros h r Hl. cbv zeta. intros Hs. rewrite (samples_listable h r Hl Hs).
    unfold Server.items_of. rewrite parse_all_flat_map. repeat split.
    + apply newest_first_page_cut.
    + intros ->. reflexivity.
  - intros h r Hr. cbv zeta. intros Hs. rewrite (lab0_samples_readable h r Hr Hs).
    unfold Lab0.items_of. rewrite parse_all_flat_map. repeat split.
    + apply newest_first_page_cut.
    + intros ->. reflexivity.
Qed.

Lemma shelf_listable : listable shelf.
Proof. split; intros dir; [reflexivity|eexists; reflexivity]. Qed.

Lemma shelf_stats : stats_return [clip 2; torn; clip 5].
Proof. repeat constructor; eexists; reflexivity. Qed.

(** C7 on three sidecars, the newest of them torn, and on an empty store. *)
Lemma listing_is_the_newest_fifty_that_parse_witness :
  fst (Server.run (Server.samples (list_request None)) shelf)
  = listing "all" [ JObj [("kind", JStr "audio"); ("id", JStr "clip-5")];
                    JObj [("kind", JStr "audio"); ("id", JStr "clip-2")] ] /\
  fst (Server.run (Server.samples (list_request None)) calm) = listing "all" [] /\
  fst (Lab0.run (Lab0.samples (list_request None)) shelf)
  = Some (listing "all" [ JObj [("kind", JStr "audio"); ("id", JStr "clip-5")];
                          JObj [("kind", JStr "audio"); ("id", JStr "clip-2")] ]).
Proof.
  destruct listing_is_the_newest_fifty_that_parse as [Hs Hl]. split; [|split].
  - exact (proj1 (Hs shelf (list_request None) shelf_listable shelf_stats)).
  - apply (Hs calm (list_request None)).
    + split; intros dir; [reflexivity|eexists; reflexivity].
    + constructor.
    + reflexivity.
  - exact (proj1 (Hl shelf (list_request None) (proj2 shelf_listable) shelf_stats)).
Defined.

(** C8. The request {term: "Diabetes", category: "medical", enAudioId: "x",
    htAudioId: "y", consent: true}, without enText, htText and annotator, is
    answered 200 by both servers (body within the cap, disk accepting), the
    pair file is written, and the record has en.text = "Diabetes",
    ht.text = "" and annotator = "anonymous". *)
Theorem diabetes_scenario_links :
  (forall (h : host) (r : request),
      h_JSON_parse h (concat (chunks r)) = inr diabetes_request ->
      (body_size r <= Server.MAX_FILE_SIZE h)%Z ->
      disk_accepts h ->
      let record := Server.pair_record h diabetes_request in
      Server.run (Server.link r) h =
      (send 200 [("ok", JBool true); ("sampleId", JStr (h_randomUUID h));
                 ("record", JObj record)],
       [ MkDir Server.PAIRS_DIR;
         WriteFile {| p_dir := Server.PAIRS_DIR;
                      p_name := (h_randomUUID h ++ ".pair.json")%string |}
                   (JsonText (stringified (JObj record))) ]) /\
      get (lookup "en" record) "text" = JStr "Diabetes" /\
      get (lookup "ht" record) "text" = JStr "" /\
      lookup "annotator" record = JStr "anonymous") /\
  (forall (h : host) (r : request),
      h_JSON_parse h (concat (chunks r)) = inr diabetes_request ->
      disk_accepts h ->
      let record := Lab0.pair_record h diabetes_request in
      Lab0.run (Lab0.link r) h =
      (Some (send 200 [("ok", JBool true); ("sampleId", JStr (h_randomUUID h));
                       ("record", JObj record)]),
       [ MkDir Lab0.DATA_DIR;
         WriteFile {| p_dir := Lab0.DATA_DIR;
                      p_name := (h_randomUUID h ++ ".pair.json")%string |}
                   (JsonText (stringified (JObj record))) ]) /\
      get (lookup "en" record) "text" = JStr "Diabetes" /\
      get (lookup "ht" record) "text" = JStr "" /\
      lookup "annotator" record = JStr "anonymous").
Proof.
  split.
  - intros h r Hp Hsz Hd. cbv zeta. split; [|repeat split].
    now rewrite (link_accepted h r diabetes_request Hsz Hp Hd).
  - intros h r Hp Hd. cbv zeta. split; [|repeat split].
    now rewrite (lab0_link_accepted h r diabetes_request Hp Hd).
Qed.

(** C8 on a host whose parser yields the scenario payload. *)
Lemma diabetes_scenario_links_witness :
  status (fst (Server.run (Server.link (post "/api/samples/link" [abc]))
                          (parsing diabetes_request calm))) = 200%Z /\
  option_map status (fst (Lab0.run (Lab0.link (post "/api/samples/link" [abc]))
                                   (parsing diabetes_request calm))) = Some 200%Z.
Proof.
  destruct diabetes_scenario_links as [Hs Hl]. split.
  - rewrite (proj1 (Hs (parsing diabetes_request calm) (post "/api/samples/link" [abc])
                       eq_refl ltac:(vm_compute; congruence) (fun op => eq_refl))).
    reflexivity.
  - rewrite (proj1 (Hl (parsing diabetes_request calm) (post "/api/samples/link" [abc])
                       eq_refl (fun op => eq_refl))).
    reflexivity.
Defined.

(** C9 fails on the partitioned server: with one audio sidecar in the
    store, kind=bogus is answered with no item while kind=all returns it. *)
Lemma unknown_kind_lists_nothing :
  fst (Server.run (Server.samples (list_request (Some "bogus"))) one_clip)
  = listing "bogus" [] /\
  fst (Server.run (Server.samples (list_request (Some "all"))) one_clip)
  = listing "all" [JObj [("kind", JStr "audio"); ("id", JStr "clip-2")]].
Proof. split; vm_compute; reflexivity. Qed.

(** C9, amended. server.js treats every kind other than audio and pair as
    all: when its directory can be read and statSync returns on its .json
    files, the answer is the listing of all of them, echoing the kind. The
    partitioned server gathers nothing for a kind other than audio,
    pair and all: it answers 200 with count 0 and an empty items array,
    echoing the kind, and touches only data/. *)
Theorem unknown_kind_is_all_in_the_first_server_only :
  (forall (h : host) (r : request),
      readable h ->
      stats_return (lab0_selection h "all") ->
      kind_of r <> "audio" -> kind_of r <> "pair" ->
      fst (Lab0.run (Lab0.samples r) h)
      = Some (listing (kind_of r) (Lab0.items_of (lab0_selection h "all")))) /\
  (forall (h : host) (r : request),
      h_refuses h (MkDir Server.DATA_ROOT) = None ->
      kind_of r <> "audio" -> kind_of r <> "pair" -> kind_of r <> "all" ->
      Server.run (Server.samples r) h
      = (listing (kind_of r) [], [MkDir Server.DATA_ROOT])).
Proof.
  split.
  - intros h r Hr Hs Ha Hp.
    assert (Heq : lab0_selection h (kind_of r) = lab0_selection h "all").
    { unfold lab0_selection. apply filter_ext. intros f. now apply lab0_selects_other. }
    rewrite (lab0_samples_readable h r Hr); now rewrite Heq.
  - intros h r Hd Ha Hp Hall.
    unfold Server.run, Server.samples, try_catch, bind at 1.
    unfold Server.ensureDir at 1, try_catch. rewrite (perform_accepted h _ _ Hd).
    fold (kind_of r). unfold bind at 1.
    unfold Server.collect, Server.collect_audio, Server.collect_pairs.
    apply String.eqb_neq in Ha, Hp, Hall. rewrite Ha, Hp, Hall. reflexivity.
Qed.

(** The amended C9 at kind=bogus. *)
Lemma unknown_kind_is_all_in_the_first_server_only_witness :
  fst (Lab0.run (Lab0.samples (list_request (Some "bogus"))) shelf)
  = Some (listing "bogus" (Lab0.items_of (lab0_selection shelf "all"))) /\
  Server.run (Server.samples (list_request (Some "bogus"))) shelf
  = (listing "bogus" [], [MkDir Server.DATA_ROOT]).
Proof.
  destruct unknown_kind_is_all_in_the_first_server_only as [Hl Hs]. split.
  - apply (Hl shelf (list_request (Some "bogus")) (proj2 shelf_listable));
      [exact shelf_stats|discriminate|discriminate].
  - apply (Hs shelf (list_request (Some "bogus"))); try reflexivity; discriminate.
Defined.

(** C10. In both servers every ingest answered 200 has written a sidecar
    <id>.json whose document carries ip, the address of the socket (the
    property is left out by JSON.stringify when the address is undefined),
    and userAgent, the User-Agent header or ''; the response body, which
    spreads the same object, carries both too. Neither name is among the
    fields the specification documents for AudioRecord or for the
    response. *)
Theorem ingest_keeps_ip_and_user_agent :
  (forall (h : host) (r : request),
      status (fst (Server.run (Server.asr r) h)) = 200%Z ->
      exists dir doc,
        In (WriteFile {| p_dir := dir; p_name := (h_randomUUID h ++ ".json")%string |}
                      (JsonText doc))
           (snd (Server.run (Server.asr r) h)) /\
        get doc "ip" = opt_str (remoteAddress r) /\
        get doc "userAgent" = JStr (or_str (user_agent r) "") /\
        get (body (fst (Server.run (Server.asr r) h))) "ip" = opt_str (remoteAddress r) /\
        get (body (fst (Server.run (Server.asr r) h))) "userAgent"
        = JStr (or_str (user_agent r) "")) /\
  (forall (h : host) (r : request),
      option_map status (fst (Lab0.run (Lab0.asr r) h)) = Some 200%Z ->
      exists res doc,
        fst (Lab0.run (Lab0.asr r) h) = Some res /\
        In (WriteFile {| p_dir := Lab0.DATA_DIR;
                         p_name := (h_randomUUID h ++ ".json")%string |}
                      (JsonText doc))
           (snd (Lab0.run (Lab0.asr r) h)) /\
        get doc "ip" = opt_str (remoteAddress r) /\
        get doc "userAgent" = JStr (or_str (user_agent r) "") /\
        get (body res) "ip" = opt_str (remoteAddress r) /\
        get (body res) "userAgent" = JStr (or_str (user_agent r) "")) /\
  mentions documented_AudioRecord "ip" = false /\
  mentions documented_AudioRecord "userAgent" = false /\
  mentions documented_response "ip" = false /\
  mentions documented_response "userAgent" = false.
Proof.
  split; [|split; [|repeat split]].
  - intros h r.
    cbv [Server.run Server.asr try_catch bind ask Server.readBody lift ret throw
         Server.ensureDir writeFileSync perform].
    destruct (Server.readBody_loop _ _ _ _) as [err|sent]; [discriminate|].
    step_disk; try discriminate. intros _.
    eexists. eexists. cbn [fst snd app In].
    split; [right; right; right; left; reflexivity|].
    unfold Server.metadata. destruct (remoteAddress r); repeat split; reflexivity.
  - intros h r.
    cbv [Lab0.run Lab0.asr try_catch bind ask Lab0.readBody lift ret throw
         Lab0.ensureDir writeFileSync perform].
    step_disk; try discriminate; intros _;
      (eexists; eexists; cbn [fst snd app In]; split; [reflexivity|]; split;
       [first [right; right; left; reflexivity | right; left; reflexivity]|];
       unfold Lab0.metadata; destruct (remoteAddress r); repeat split; reflexivity).
Qed.

(** C10 on an upload to /api/asr/ht from 127.0.0.1 with curl. *)
Lemma ingest_keeps_ip_and_user_agent_witness :
  exists dir doc,
    In (WriteFile {| p_dir := dir;
                     p_name := "1b4e28ba-2fa1-41d2-883f-0016d3cca427.json" |}
                  (JsonText doc))
       (snd (Server.run (Server.asr (post "/api/asr/ht" [abc])) calm)) /\
    get doc "ip" = JStr "127.0.0.1" /\
    get doc "userAgent" = JStr "curl/8.5.0" /\
    get (body (fst (Server.run (Server.asr (post "/api/asr/ht" [abc])) calm))) "ip"
    = JStr "127.0.0.1" /\
    get (body (fst (Server.run (Server.asr (post "/api/asr/ht" [abc])) calm))) "userAgent"
    = JStr "curl/8.5.0".
Proof.
  apply (proj1 ingest_keeps_ip_and_user_agent calm (post "/api/asr/ht" [abc])).
  reflexivity.
Defined.

(** * Further properties *)

(** ** What [readBody] returns *)
Lemma readBody_loop_returns (maxSize total : Z) (got rest : list (list Byte.byte)) sent :
  Server.readBody_loop maxSize total got rest = inr sent -> sent = concat (got ++ rest).
Proof.
  revert total got; induction rest as [|c rest IH]; intros total got H; simpl in H.
  - inversion H. now rewrite app_nil_r.
  - destruct (_ <? _)%Z; [discriminate|]. apply IH in H. now rewrite <- app_assoc in H.
Qed.

Lemma readBody_loop_throws (maxSize total : Z) (got rest : list (list Byte.byte)) err :
  Server.readBody_loop maxSize total got rest = inl err -> err = too_large maxSize.
Proof.
  revert total got; induction rest as [|c rest IH]; intros total got H; simpl in H.
  - discriminate.
  - destruct (_ <? _)%Z; [now inversion H|]. now apply IH in H.
Qed.

(** X1. The capped [readBody] gives the whole body or nothing: with no
    chunk at all it returns the empty buffer whatever the maximum is;
    otherwise it throws the error Request body too large. Max size: N
    bytes, N being MAX_FILE_SIZE as the template prints the number, exactly
    when the bytes sent exceed MAX_FILE_SIZE, and returns all the chunks
    joined in their order when they do not. It touches no file. The maximum is never 0: a setting of 0
    reads as the default of 10 MiB. *)
Theorem readBody_all_or_nothing (h : host) (r : request) (t : list fs_op) :
  Server.readBody r h t =
  (match chunks r with
   | [] => Returned []
   | _ :: _ =>
       if (Server.MAX_FILE_SIZE h <? body_size r)%Z
       then Thrown (too_large (Server.MAX_FILE_SIZE h))
       else Returned (concat (chunks r))
   end, t) /\
  Server.MAX_FILE_SIZE h <> 0%Z.
Proof.
  split.
  - unfold Server.readBody, bind, ask, lift, body_size.
    destruct (chunks r) as [|c cs] eqn:E; [reflexivity|].
    destruct (Z.ltb_spec (Server.MAX_FILE_SIZE h) (Z.of_nat (List.length (concat (c :: cs))))).
    + rewrite readBody_loop_over; [reflexivity|discriminate|lia].
    + rewrite readBody_loop_within by lia. reflexivity.
  - unfold Server.MAX_FILE_SIZE, ten_MiB. destruct (h_MAX_FILE_SIZE h) as [n|]; [|lia].
    destruct (Z.eqb_spec n 0); lia.
Qed.

(** ** The outcomes of an ingest *)
(** X2. An ingest of the partitioned server ends in one of two ways. Either
    it answers 200 having written exactly two files, first the blob holding
    the bytes sent and then the sidecar, both in the partition of the
    language and both named after the one id, the sidecar's audioFile being
    the name of the blob and its id the id of the answer. Or it answers 500
    having written nothing or the blob alone: never a sidecar without its
    blob. *)
Theorem ingest_writes_blob_then_sidecar (h : host) (r : request) :
  let res := fst (Server.run (Server.asr r) h) in
  let written := writes (snd (Server.run (Server.asr r) h)) in
  (status res = 200%Z /\
   exists doc, written = [blob_of h r; sidecar_of h r doc] /\
     get doc "audioFile"
     = JStr (h_randomUUID h
             ++ extFromContentType
                  (Some (or_str (content_type r) "application/octet-stream")))%string /\
     get doc "id" = JStr (h_randomUUID h) /\
     get (body res) "id" = JStr (h_randomUUID h)) \/
  (status res = 500%Z /\ (written = [] \/ written = [blob_of h r])).
Proof.
  cbv zeta.
  cbv [Server.run Server.asr try_catch bind ask Server.readBody lift ret throw
       Server.ensureDir writeFileSync perform].
  destruct (Server.readBody_loop _ _ _ _) as [err|sent] eqn:Eb; [right; split; auto|].
  apply readBody_loop_returns in Eb. simpl app in Eb. subst sent.
  unfold blob_of, sidecar_of, stored_in, asr_lang.
  step_disk; try (right; split; [reflexivity|]; cbn [fst snd app writes filter is_write]; auto; fail).
  left. split; [reflexivity|]. eexists. cbn [fst snd app writes filter is_write].
  split; [reflexivity|]. unfold Server.metadata.
  destruct (remoteAddress r); repeat split; reflexivity.
Qed.

(** X3. In an accepted ingest of the partitioned server the partition, the
    language tag and the stub transcript agree: a segment that lower-cases
    to ht gives data/audio/ht, ht-HT and the Creole transcript; any other
    gives data/audio/en, en-US and the English one. *)
Theorem ingest_partition_lang_transcript_agree (h : host) (r : request) :
  status (fst (Server.run (Server.asr r) h)) = 200%Z ->
  let res := fst (Server.run (Server.asr r) h) in
  let written := writes (snd (Server.run (Server.asr r) h)) in
  (asr_lang r = "ht" /\
   map (option_map p_dir) (map written_path written)
   = [Some Server.AUDIO_HT_DIR; Some Server.AUDIO_HT_DIR] /\
   get (body res) "lang" = JStr "ht-HT" /\
   get (body res) "transcript" = JStr "Bonjou mond (ASR stub)") \/
  (asr_lang r <> "ht" /\
   map (option_map p_dir) (map written_path written)
   = [Some Server.AUDIO_EN_DIR; Some Server.AUDIO_EN_DIR] /\
   get (body res) "lang" = JStr "en-US" /\
   get (body res) "transcript" = JStr "Hello World (ASR stub)").
Proof.
  cbv zeta.
  cbv [Server.run Server.asr try_catch bind ask Server.readBody lift ret throw
       Server.ensureDir writeFileSync perform].
  destruct (Server.readBody_loop _ _ _ _) as [err|sent]; [discriminate|].
  fold (asr_lang r).
  step_disk; try discriminate. intros _.
  cbn [fst snd app writes filter is_write map written_path option_map p_dir].
  unfold Server.metadata.
  destruct (String.eqb_spec (asr_lang r) "ht") as [Hl|Hl]; [left|right];
    (split; [exact Hl|]); destruct (remoteAddress r); repeat split; reflexivity.
Qed.

(** The segment HT, accepted, is tagged ht-HT. *)
Lemma ingest_partition_lang_transcript_agree_witness :
  get (body (fst (Server.run (Server.asr (post "/api/asr/HT" [abc])) calm))) "lang"
  = JStr "ht-HT".
Proof.
  destruct (ingest_partition_lang_transcript_agree calm (post "/api/asr/HT" [abc]) eq_refl)
    as [[_ [_ [H _]]] | [E _]].
  - exact H.
  - exfalso. apply E. reflexivity.
Defined.

(** X4. The codec of a sidecar follows the content type as the extension
    does: opus exactly when the type holds audio/webm in whatever letter
    case, pcm_s16le exactly when it holds audio/wav and not audio/webm,
    unknown in every other case; so mp3 and ogg uploads are recorded with
    the codec unknown, and so is a request without a content type. *)
Theorem codec_follows_the_content_type (h : host) (r : request) (lang : string)
        (sent : list Byte.byte) :
  let ct := or_str (content_type r) "application/octet-stream" in
  let codec := lookup "codec" (Server.metadata h r lang ct (extFromContentType (Some ct)) sent) in
  (codec = JStr "opus" <-> occurs_ci "audio/webm" ct) /\
  (codec = JStr "pcm_s16le" <-> ~ occurs_ci "audio/webm" ct /\ occurs_ci "audio/wav" ct) /\
  (codec = JStr "unknown" <-> ~ occurs_ci "audio/webm" ct /\ ~ occurs_ci "audio/wav" ct) /\
  (content_type r = None -> codec = JStr "unknown").
Proof.
  cbv zeta. unfold Server.metadata. cbn [lookup String.eqb Ascii.eqb Bool.eqb].
  split; [|split; [|split]].
  4: { intros ->. reflexivity. }
  all: unfold extFromContentType;
    destruct (includes (toLowerCase (or_str (content_type r) "application/octet-stream"))
                       "audio/webm") eqn:W;
    destruct (includes (toLowerCase (or_str (content_type r) "application/octet-stream"))
                       "audio/wav") eqn:V;
    destruct (includes (toLowerCase (or_str (content_type r) "application/octet-stream"))
                       "audio/mpeg" ||
              includes (toLowerCase (or_str (content_type r) "application/octet-stream"))
                       "audio/mp3");
    destruct (includes (toLowerCase (or_str (content_type r) "application/octet-stream"))
                       "audio/ogg");
    repeat match goal with
    | H : includes _ _ = true |- _ => apply includes_lower_occurs in H
    | H : includes _ _ = false |- _ => apply includes_lower_not_occurs in H
    end; cbn [String.eqb Ascii.eqb Bool.eqb];
    split; intros; try discriminate; try tauto; try reflexivity.
Qed.

(** A request without a content type. *)
Lemma codec_follows_the_content_type_witness :
  lookup "codec"
    (Server.metadata calm (list_request None) "en" "application/octet-stream"
       ".bin" [])
  = JStr "unknown".
Proof.
  apply (proj2 (proj2 (proj2
    (codec_follows_the_content_type calm (list_request None) "en" [])))).
  reflexivity.
Defined.

(** ** The outcomes of a link *)
Lemma truthy_js_or_r (a b : jsval) : truthy b = true -> truthy (js_or a b) = true.
Proof. intros H. unfold js_or. now destruct (truthy a) eqn:E. Qed.

(** X5. A link on the partitioned server ends in one of two ways. Either
    it answers 200 having written exactly one file, the pair file of
    data/pairs named after the sample id of the answer; then the four
    required fields of the payload were truthy, the record's consent is the
    boolean true, its English text is truthy (the term stands in for a
    missing enText) and its two audioRef are the ids of the payload. Or it
    answers 400 or 500 and has written nothing. *)
Theorem link_writes_one_consented_pair_or_nothing (h : host) (r : request) :
  let res := fst (Server.run (Server.link r) h) in
  let written := writes (snd (Server.run (Server.link r) h)) in
  (status res = 200%Z /\
   exists payload,
     h_JSON_parse h (concat (chunks r)) = inr payload /\
     let p := js_or payload (JObj []) in
     let record := Server.pair_record h p in
     valid_link p = true /\
     written = [pair_file_of h record] /\
     lookup "consent" record = JBool true /\
     truthy (get (lookup "en" record) "text") = true /\
     get (lookup "en" record) "audioRef" = get p "enAudioId" /\
     get (lookup "ht" record) "audioRef" = get p "htAudioId" /\
     get (body res) "sampleId" = JStr (h_randomUUID h)) \/
  ((status res = 400%Z \/ status res = 500%Z) /\ written = []).
Proof.
  cbv zeta.
  cbv [Server.run Server.link try_catch bind ask Server.readBody lift ret throw
       Server.ensureDir writeFileSync perform].
  destruct (h_refuses h (MkDir Server.PAIRS_DIR)); [right; auto|].
  destruct (Server.readBody_loop _ _ _ _) as [err|sent] eqn:Eb; [right; auto|].
  apply readBody_loop_returns in Eb. simpl app in Eb. subst sent.
  destruct (h_JSON_parse h (concat (chunks r))) as [err|payload] eqn:Ep; [right; auto|].
  rewrite link_guard.
  destruct (valid_link (js_or payload (JObj []))) eqn:Hv;
    destruct (consents (js_or payload (JObj []))) eqn:Hc; cbn [andb negb];
    try (right; auto; fail).
  fold (Server.PAIRS_DIR).
  destruct (h_refuses h _) eqn:Ew; [right; auto|].
  left. split; [reflexivity|]. exists payload. split; [reflexivity|].
  cbv zeta. split; [exact Hv|]. split; [reflexivity|].
  unfold Server.pair_record. cbn [lookup String.eqb Ascii.eqb Bool.eqb get].
  unfold consents in Hc. rewrite Hc.
  repeat split.
  apply truthy_js_or_r. unfold valid_link in Hv.
  now destruct (truthy (get (js_or payload (JObj [])) "term")).
Qed.

(** ** The listing only reads *)
Lemma reads_only_ret {A} (a : A) (Q : A -> Prop) : Q a -> reads_only (ret a) Q.
Proof. intros H h t. split; [reflexivity|exact H]. Qed.

Lemma reads_only_bind {A B} (m : M A) (k : A -> M B) (P : A -> Prop) (Q : B -> Prop) :
  reads_only m P -> (forall a, P a -> reads_only (k a) Q) -> reads_only (bind m k) Q.
Proof.
  intros Hm Hk h t. unfold bind. destruct (Hm h t) as [Hw Hp].
  destruct (m h t) as [[a|err] t']; simpl in *.
  - destruct (Hk a Hp h t') as [Hw' Hq]. split; [congruence|exact Hq].
  - auto.
Qed.

Lemma reads_only_weaken {A} (m : M A) (P Q : A -> Prop) :
  reads_only m P -> (forall a, P a -> Q a) -> reads_only m Q.
Proof.
  intros Hm Hi h t. destruct (Hm h t) as [Hw Hp]. split; [exact Hw|].
  destruct (fst (m h t)); auto.
Qed.

Lemma reads_only_ensureDir (dir : string) : reads_only (Server.ensureDir dir) (fun _ => True).
Proof.
  intros h t. unfold Server.ensureDir, try_catch, perform, throw.
  destruct (h_refuses h (MkDir dir)); simpl; [auto|].
  split; [|exact I]. unfold writes. rewrite filter_app. simpl. apply app_nil_r.
Qed.

Lemma reads_only_readdir (dir : string) : reads_only (readdirSync dir) (fun _ => True).
Proof.
  intros h t. unfold readdirSync, lift. destruct (h_readdir h dir); simpl; auto.
Qed.

Lemma reads_only_collect_dir (dir suffix : string) :
  reads_only (Server.collect_dir dir suffix) (fun _ => True).
Proof.
  unfold Server.collect_dir.
  eapply reads_only_bind; [apply reads_only_ensureDir|]. intros _ _.
  eapply reads_only_bind; [apply reads_only_readdir|]. intros files _.
  now apply reads_only_ret.
Qed.

Lemma reads_only_collect (kind : string) :
  reads_only (Server.collect kind) (fun _ => True).
Proof.
  unfold Server.collect, Server.collect_audio, Server.collect_pairs.
  eapply reads_only_bind with (P := fun _ => True).
  - destruct (_ || _); [|now apply reads_only_ret].
    eapply reads_only_bind; [apply reads_only_collect_dir|]. intros en _.
    eapply reads_only_bind; [apply reads_only_collect_dir|]. intros ht _.
    now apply reads_only_ret.
  - intros audio _. eapply reads_only_bind with (P := fun _ => True).
    + destruct (_ || _); [apply reads_only_collect_dir|now apply reads_only_ret].
    + intros pairs _. now apply reads_only_ret.
Qed.

Lemma reads_only_stat_all {A} (file : A -> dirent) (files : list A) :
  reads_only (stat_all file files) (fun _ => True).
Proof.
  induction files as [|f files IH]; cbn [stat_all]; [now apply reads_only_ret|].
  eapply reads_only_bind with (P := fun _ => True).
  - intros h t. unfold statSync, lift. destruct (d_stat (file f)); simpl; auto.
  - intros _ _. eapply reads_only_bind; [exact IH|]. intros stated _.
    now apply reads_only_ret.
Qed.

Lemma items_of_bounded (gathered : list (string * dirent)) :
  (List.length (Server.items_of gathered) <= 50)%nat.
Proof.
  unfold Server.items_of, parse_all, Server.newest_50.
  etransitivity; [apply filter_length_le|]. rewrite length_map. apply firstn_le_length.
Qed.

Lemma listing_items (kind : string) (items : list jsval) :
  List.length (response_items (listing kind items)) = List.length items.
Proof.
  unfold response_items, listing, send, body, stringified, get.
  cbn [lookup String.eqb Ascii.eqb Bool.eqb]. now rewrite length_map.
Qed.

(** X6. GET /api/samples of the partitioned server writes no file, whatever
    the disk holds and whatever fails; its answer is either the List failed
    500 or a listing of the kind asked for, and it never carries more than
    50 items. *)
Theorem listing_reads_only_and_is_bounded (h : host) (r : request) :
  let res := fst (Server.run (Server.samples r) h) in
  writes (snd (Server.run (Server.samples r) h)) = [] /\
  (List.length (response_items res) <= 50)%nat /\
  ((exists gathered, res = listing (kind_of r) (Server.items_of gathered)) \/
   (exists err, res = send 500 [("ok", JBool false); ("error", JStr "List failed");
                                ("details", JStr err)])).
Proof.
  cbv zeta.
  assert (H : reads_only
                (bind (Server.ensureDir Server.DATA_ROOT)
                      (fun _ => bind (Server.collect (kind_of r))
                         (fun collected => bind (stat_all snd collected)
                            (fun stated =>
                               ret (listing (kind_of r) (Server.items_of stated))))))
                (fun res => exists gathered,
                     res = listing (kind_of r) (Server.items_of gathered))).
  { eapply reads_only_bind; [apply reads_only_ensureDir|]. intros _ _.
    eapply reads_only_bind; [apply reads_only_collect|]. intros collected _.
    eapply reads_only_bind; [apply reads_only_stat_all|]. intros stated _.
    apply reads_only_ret. now exists stated. }
  destruct (H h []) as [Hw Hq].
  unfold Server.run, Server.samples, try_catch. fold (kind_of r).
  change (send 200 [("ok", JBool true);
                    ("count", JNum (num_of_nat (List.length (Server.items_of ?c))));
                    ("kind", JStr (kind_of r)); ("items", JArr (Server.items_of ?c))])
    with (listing (kind_of r) (Server.items_of c)) in *.
  match goal with
  | |- context [match ?m h [] with _ => _ end] =>
      change m with (bind (Server.ensureDir Server.DATA_ROOT)
                      (fun _ => bind (Server.collect (kind_of r))
                         (fun collected => bind (stat_all snd collected)
                            (fun stated =>
                               ret (listing (kind_of r) (Server.items_of stated))))))
  end.
  destruct (bind _ _ h []) as [[res|err] t]; simpl in *.
  - split; [exact Hw|]. destruct Hq as [gathered ->]. split.
    + rewrite listing_items. apply items_of_bounded.
    + left. now exists gathered.
  - split; [exact Hw|]. split; [simpl; lia|]. right. now exists err.
Qed.

(** X18. A selected file on which statSync throws aborts the whole listing,
    in both servers: the answer is the List failed 500 with the error of
    the first such file as details, wherever the file stands among the
    selected ones and however many good sidecars there are. (A file that
    can be stat'ed but not read or parsed is only skipped.) *)
Theorem a_file_that_cannot_be_stated_aborts_the_listing :
  (forall (h : host) (r : request) (before after : list (string * dirent))
          (f : string * dirent) (err : string),
      listable h ->
      selection h (kind_of r) = before ++ f :: after ->
      stats_return (map snd before) -> d_stat (snd f) = inl err ->
      fst (Server.run (Server.samples r) h)
      = send 500 [("ok", JBool false); ("error", JStr "List failed");
                  ("details", JStr err)]) /\
  (forall (h : host) (r : request) (before after : list dirent)
          (f : dirent) (err : string),
      readable h ->
      lab0_selection h (kind_of r) = before ++ f :: after ->
      stats_return before -> d_stat f = inl err ->
      fst (Lab0.run (Lab0.samples r) h)
      = Some (send 500 [("ok", JBool false); ("error", JStr "List failed");
                        ("details", JStr err)])).
Proof.
  split.
  - intros h r before after f err Hl Hsel Hb Hf.
    now apply (samples_stat_throws h r before after f err).
  - intros h r before after f err Hr Hsel Hb Hf.
    now apply (lab0_samples_stat_throws h r before after f err).
Qed.

(** On the broken shelf, for both servers. *)
Lemma a_file_that_cannot_be_stated_aborts_the_listing_witness :
  status (fst (Server.run (Server.samples (list_request (Some "audio"))) broken_shelf))
  = 500%Z /\
  option_map status (fst (Lab0.run (Lab0.samples (list_request None)) broken_shelf))
  = Some 500%Z.
Proof.
  destruct a_file_that_cannot_be_stated_aborts_the_listing as [Hs Hl]. split.
  - rewrite (Hs broken_shelf (list_request (Some "audio")) [("data/audio/en", clip 2)]
                [("data/audio/en", clip 5)] ("data/audio/en", dangling)
                "Error: ENOENT: no such file or directory, stat 'gone.json'");
      try reflexivity.
    + split; intros dir; [reflexivity|eexists; reflexivity].
    + repeat constructor. eexists. reflexivity.
  - rewrite (Hl broken_shelf (list_request None) [clip 2] [clip 5] dangling
                "Error: ENOENT: no such file or directory, stat 'gone.json'");
      try reflexivity.
    + intros dir. eexists. reflexivity.
    + repeat constructor. eexists. reflexivity.
Defined.

(** ** The routes *)
Ltac settle_routes :=
  repeat split; intros; try discriminate; try tauto;
  try (match goal with H : _ /\ _ |- _ => destruct H end; congruence); try congruence.

Lemma public_is_not_api (s : string) :
  prefix "/public/" s = true -> prefix "/api/asr/" s = false /\ s <> "/api/samples".
Proof.
  intros H. apply prefix_split in H as [rest ->]. split; [reflexivity|discriminate].
Qed.

(** X7. The routes of the partitioned server. OPTIONS is answered as a
    preflight on every path. The ingest is reached by exactly the POSTs
    whose path starts with /api/asr/, the link by exactly the POSTs to
    /api/samples/link, the listing by exactly the GETs to /api/samples. A
    method other than OPTIONS, GET and POST reaches nothing, and neither
    does a GET on an ingest path: both get the 404. *)
Theorem route_table (r : request) :
  (Server.route r = Server.Preflight <-> method r = "OPTIONS") /\
  (Server.route r = Server.AsrUpload <->
   method r = "POST" /\ startsWith (pathname r) "/api/asr/" = true) /\
  (Server.route r = Server.LinkPair <->
   method r = "POST" /\ pathname r = "/api/samples/link") /\
  (Server.route r = Server.ListSamples <->
   method r = "GET" /\ pathname r = "/api/samples") /\
  (method r <> "OPTIONS" -> method r <> "GET" -> method r <> "POST" ->
   Server.route r = Server.NotFound) /\
  (method r = "GET" -> startsWith (pathname r) "/api/asr/" = true ->
   Server.route r = Server.NotFound).
Proof.
  unfold Server.route, startsWith.
  destruct (String.eqb_spec (method r) "OPTIONS") as [Ho|Ho].
  { rewrite Ho. settle_routes. }
  destruct (String.eqb_spec (method r) "GET") as [Hg|Hg].
  - rewrite Hg. cbn [String.eqb Ascii.eqb Bool.eqb andb].
    destruct (String.eqb_spec (pathname r) "/healthz") as [Hp|Hp].
    { rewrite Hp. cbn. settle_routes. }
    destruct (String.eqb_spec (pathname r) "/") as [Hp1|Hp1].
    { rewrite Hp1. cbn. settle_routes. }
    destruct (String.eqb_spec (pathname r) "/index.html") as [Hp2|Hp2].
    { rewrite Hp2. cbn. settle_routes. }
    cbn [orb andb].
    destruct (prefix "/public/" (pathname r)) eqn:Hpub.
    + destruct (public_is_not_api _ Hpub) as [Ha Hs]. rewrite Ha. settle_routes.
    + destruct (prefix "/api/asr/" (pathname r)) eqn:Ha;
        destruct (String.eqb_spec (pathname r) "/api/samples/link") as [Hl|Hl];
        destruct (String.eqb_spec (pathname r) "/api/samples") as [Hs|Hs];
        cbn [andb]; try (rewrite Hs in Ha; discriminate);
        try (rewrite Hl in Ha; discriminate); settle_routes.
  - destruct (String.eqb_spec (method r) "POST") as [Hpo|Hpo].
    + rewrite Hpo. cbn [String.eqb Ascii.eqb Bool.eqb andb].
      rewrite !andb_false_r, !andb_true_r.
      destruct (prefix "/api/asr/" (pathname r)) eqn:Ha.
      * settle_routes.
        match goal with H : _ /\ _ |- _ => destruct H as [_ H]; rewrite H in Ha end.
        discriminate.
      * destruct (String.eqb_spec (pathname r) "/api/samples/link") as [Hl|Hl];
          settle_routes.
    + rewrite !andb_false_r. cbn [andb]. settle_routes.
Qed.

(** A GET on an ingest path. *)
Lemma route_table_witness :
  Server.route
    {| method := "GET"; pathname := "/api/asr/en"; query_kind := None;
       content_type := None; user_agent := None; remoteAddress := None;
       chunks := [] |}
  = Server.NotFound.
Proof.
  apply (proj2 (proj2 (proj2 (proj2 (proj2 (route_table _)))))); reflexivity.
Defined.

(** ** A directory that cannot be made *)
(** X8. When a directory cannot be made, the partitioned server stops
    before any write: the ingest (body within the maximum) answers ASR save
    failed and the link answers Linking failed, both 500 with the error of
    mkdir as details and nothing written. The first server swallows the
    error of mkdir and goes on: if the writes then succeed it answers 200
    with both files written. *)
Theorem refused_directory_stops_the_partitioned_server_only :
  (forall (h : host) (r : request) (err : string),
      h_refuses h (MkDir (stored_in (asr_lang r))) = Some err ->
      (body_size r <= Server.MAX_FILE_SIZE h)%Z ->
      Server.run (Server.asr r) h =
      (send 500 [("ok", JBool false); ("error", JStr "ASR save failed");
                 ("details", JStr err)], [])) /\
  (forall (h : host) (r : request) (err : string),
      h_refuses h (MkDir Server.PAIRS_DIR) = Some err ->
      Server.run (Server.link r) h =
      (send 500 [("ok", JBool false); ("error", JStr "Linking failed");
                 ("details", JStr err)], [])) /\
  (forall (h : host) (r : request),
      (forall p c, h_refuses h (WriteFile p c) = None) ->
      option_map status (fst (Lab0.run (Lab0.asr r) h)) = Some 200%Z /\
      List.length (writes (snd (Lab0.run (Lab0.asr r) h))) = 2%nat).
Proof.
  split; [|split].
  - intros h r err Hd Hsz.
    unfold Server.run, Server.asr, try_catch, bind at 1, ask.
    unfold bind at 1. rewrite readBody_within by assumption.
    unfold Server.ensureDir at 1, try_catch, bind at 1, perform.
    fold (asr_lang r). fold (stored_in (asr_lang r)). rewrite Hd. reflexivity.
  - intros h r err Hd.
    unfold Server.run, Server.link, try_catch, bind at 1, ask.
    unfold Server.ensureDir at 1, try_catch, bind at 1, perform. rewrite Hd. reflexivity.
  - intros h r Hw.
    cbv [Lab0.run Lab0.asr try_catch bind ask Lab0.readBody lift ret throw
         Lab0.ensureDir writeFileSync perform].
    rewrite !Hw. destruct (h_refuses h (MkDir Lab0.DATA_DIR)); split; reflexivity.
Qed.

(** On a disk that refuses every mkdir and accepts every write. *)
Lemma refused_directory_stops_the_partitioned_server_only_witness :
  Server.run (Server.asr (post "/api/asr/en" [abc])) read_only_disk
  = (send 500 [("ok", JBool false); ("error", JStr "ASR save failed");
               ("details",
                 JStr "Error: EROFS: read-only file system, mkdir 'data/audio/en'")], [])
  /\ option_map status (fst (Lab0.run (Lab0.asr (post "/api/asr/en" [abc])) read_only_disk))
     = Some 200%Z.
Proof.
  destruct refused_directory_stops_the_partitioned_server_only as [Hs [_ Hl]]. split.
  - apply (Hs read_only_disk (post "/api/asr/en" [abc])); [reflexivity|].
    vm_compute. congruence.
  - apply (Hl read_only_disk (post "/api/asr/en" [abc])). reflexivity.
Defined.

(** ** Files of the same age *)
Lemma filter_firstn {A} (p : A -> bool) (n : nat) (l : list A) :
  exists k, filter p (firstn n l) = firstn k (filter p l).
Proof.
  revert n; induction l as [|x l IH]; intros n.
  - exists 0%nat. now rewrite firstn_nil.
  - destruct n as [|n]; [now exists 0%nat|].
    destruct (IH n) as [k Hk]. cbn [firstn filter].
    destruct (p x); [exists (S k)|exists k]; cbn [firstn]; now rewrite Hk.
Qed.

(** X9. Among the files kept by the listing, those with one same
    modification time stand in the order they were gathered in (data/audio/en,
    then data/audio/ht, then data/pairs, each in directory order), and the
    cut at 50 takes them from the front of that order. *)
Theorem same_age_files_keep_their_gathering_order
        (gathered : list (string * dirent)) (age : Z) :
  let same f := (d_mtimeMs (snd f) =? age)%Z in
  exists k, filter same (Server.newest_50 gathered) = firstn k (filter same gathered).
Proof.
  cbv zeta. unfold Server.newest_50.
  destruct (filter_firstn (fun f => (d_mtimeMs (snd f) =? age)%Z) 50
              (sort_newest_first (fun f => d_mtimeMs (snd f)) gathered)) as [k Hk].
  exists k. rewrite Hk. now rewrite (sort_stable (fun f => d_mtimeMs (snd f)) age gathered).
Qed.

(** ** What is written is what the listing looks for *)
Lemma string_app_assoc (a b c : string) : ((a ++ b) ++ c = a ++ b ++ c)%string.
Proof. induction a as [|x a IH]; simpl; [reflexivity|now rewrite IH]. Qed.

Lemma string_app_inv_tail (a b c : string) : (a ++ c = b ++ c)%string -> a = b.
Proof.
  revert b; induction a as [|x a IH]; intros [|y b] H; simpl in H.
  - reflexivity.
  - apply (f_equal String.length) in H. simpl in H. rewrite string_length_app in H. lia.
  - apply (f_equal String.length) in H. simpl in H. rewrite string_length_app in H. lia.
  - inversion H. f_equal. now apply IH.
Qed.

Lemma suffixes_compare (a b c d : string) :
  (a ++ b = c ++ d)%string ->
  (exists e, d = (e ++ b)%string) \/ (exists e, b = (e ++ d)%string).
Proof.
  revert c; induction a as [|x a IH]; intros c H; simpl in H.
  - right. now exists c.
  - destruct c as [|y c]; simpl in H.
    + left. exists (String x a). now rewrite <- H.
    + inversion H. eapply IH; eauto.
Qed.

Lemma endsWith_app_false (id ext p : string) :
  (forall e, p <> (e ++ ext)%string) -> (forall e, ext <> (e ++ p)%string) ->
  endsWith (id ++ ext) p = false.
Proof.
  intros H1 H2. destruct (endsWith (id ++ ext) p) eqn:E; [|reflexivity].
  apply endsWith_split in E as [a E]. apply suffixes_compare in E as [[e He]|[e He]].
  - now apply H1 in He.
  - now apply H2 in He.
Qed.

Ltac no_suffix :=
  let e := fresh "e" in
  let H := fresh "H" in
  intros e H; destruct e as [|? [|? e]]; try discriminate;
  apply (f_equal String.length) in H; simpl in H;
  rewrite ?string_length_app in H; simpl in H; lia.

Lemma blob_is_no_sidecar (id : string) (ct : option string) :
  endsWith (id ++ extFromContentType ct) ".json" = false.
Proof.
  pose proof (extFromContentType_range ct) as H.
  simpl in H. destruct H as [<-|[<-|[<-|[<-|[<-|[]]]]]];
    apply endsWith_app_false; no_suffix.
Qed.

(** X10. The names the writers give are the names the listing looks for,
    for every id and content type: a sidecar id.json ends in .json, a pair
    file id.pair.json ends in .pair.json, and a blob, whatever its
    extension, ends in neither, so no blob is ever parsed as a record. In the
    single directory of the first server a pair file is selected as a pair
    and never as audio, and a sidecar is selected as audio unless its id
    itself ends in .pair. *)
Theorem written_names_meet_the_listing_filters (id : string) (ct : option string) :
  endsWith (id ++ ".json") ".json" = true /\
  endsWith (id ++ ".pair.json") ".pair.json" = true /\
  endsWith (id ++ extFromContentType ct) ".json" = false /\
  Lab0.selects "pair" (id ++ ".pair.json") = true /\
  Lab0.selects "audio" (id ++ ".pair.json") = false /\
  (forall kind, Lab0.selects kind (id ++ extFromContentType ct) = false) /\
  Lab0.selects "pair" (id ++ ".json") = endsWith id ".pair" /\
  Lab0.selects "audio" (id ++ ".json") = negb (endsWith id ".pair").
Proof.
  assert (J : endsWith (id ++ ".json") ".json" = true)
    by (apply endsWith_split; now exists id).
  assert (P : endsWith (id ++ ".pair.json") ".pair.json" = true)
    by (apply endsWith_split; now exists id).
  assert (B : endsWith (id ++ extFromContentType ct) ".json" = false)
    by apply blob_is_no_sidecar.
  assert (B' : endsWith (id ++ extFromContentType ct) ".pair.json" = false).
  { destruct (endsWith (id ++ extFromContentType ct) ".pair.json") eqn:E; [|reflexivity].
    apply (endsWith_longer _ ".pair" ".json") in E. congruence. }
  assert (Q : endsWith (id ++ ".json") ".pair.json" = endsWith id ".pair").
  { destruct (endsWith id ".pair") eqn:E.
    - apply endsWith_split in E as [a ->]. apply endsWith_split. exists a.
      now rewrite string_app_assoc.
    - destruct (endsWith (id ++ ".json") ".pair.json") eqn:F; [|reflexivity].
      apply endsWith_split in F as [a F].
      change ".pair.json" with (".pair" ++ ".json")%string in F.
      rewrite <- string_app_assoc in F.
      apply string_app_inv_tail in F.
      subst id. assert (endsWith (a ++ ".pair") ".pair" = true)
        by (apply endsWith_split; now exists a). congruence. }
  repeat split; auto.
  - unfold Lab0.selects. cbn [String.eqb Ascii.eqb Bool.eqb]. rewrite P.
    apply andb_false_r.
  - intros kind. unfold Lab0.selects. rewrite B, B'. now destruct (kind =? "audio"), (kind =? "pair").
  - unfold Lab0.selects. cbn [String.eqb Ascii.eqb Bool.eqb]. now rewrite J, Q.
Qed.

(** ** The link function *)
Lemma link_function_cases (c : NetlifyLink.clock) (e : NetlifyLink.event) :
  let res := NetlifyLink.handler c e in
  let sampleId := ("temp-sample-" ++ NetlifyLink.c_Date_now c ++ "-"
                   ++ NetlifyLink.c_random c)%string in
  (NetlifyLink.httpMethod e = "OPTIONS" /\ statusCode res = 204%Z) \/
  (NetlifyLink.httpMethod e <> "OPTIONS" /\ NetlifyLink.httpMethod e <> "POST" /\
   statusCode res = 405%Z) \/
  (NetlifyLink.httpMethod e = "POST" /\
   exists message, NetlifyLink.parse_body c e = inl message /\
                   res = NetlifyLink.failed message) \/
  (NetlifyLink.httpMethod e = "POST" /\
   exists p, NetlifyLink.parse_body c e = inr p /\ nullish p = true /\
             statusCode res = 500%Z) \/
  (NetlifyLink.httpMethod e = "POST" /\
   exists p, NetlifyLink.parse_body c e = inr p /\ nullish p = false /\
             valid_link p && truthy (get p "consent") = false /\
             statusCode res = 400%Z) \/
  (NetlifyLink.httpMethod e = "POST" /\
   exists p, NetlifyLink.parse_body c e = inr p /\ nullish p = false /\
             valid_link p = true /\ truthy (get p "consent") = true /\
             res = reply 200 [("ok", JBool true); ("sampleId", JStr sampleId);
                              ("record", JObj (NetlifyLink.mockRecord c sampleId p))]).
Proof.
  cbv zeta. unfold NetlifyLink.handler.
  destruct (String.eqb_spec (NetlifyLink.httpMethod e) "OPTIONS") as [Ho|Ho]; [left; auto|].
  destruct (String.eqb_spec (NetlifyLink.httpMethod e) "POST") as [Hp|Hp]; cbn [negb];
    [|right; left; auto].
  destruct (NetlifyLink.parse_body c e) as [message|p] eqn:Ep.
  { right; right; left. split; [exact Hp|]. now exists message. }
  pose proof (missingFields_valid p) as Hm.
  destruct (nullish p) eqn:Hn.
  { right; right; right; left. split; [exact Hp|]. exists p.
    destruct p; try discriminate; repeat split; try assumption; try reflexivity. }
  destruct (valid_link p) eqn:Hv.
  - assert (Hnil : NetlifyLink.missingFields p = []) by (apply Hm; reflexivity).
    rewrite Hnil. cbn [List.length Nat.eqb negb orb].
    destruct (truthy (get p "consent")) eqn:Hc; cbn [negb].
    + do 5 right. split; [exact Hp|]. exists p.
      destruct p; try discriminate; repeat split; try assumption; try reflexivity.
    + assert (X : valid_link p && truthy (get p "consent") = false)
        by (rewrite Hc; apply andb_false_r).
      do 4 right; left. split; [exact Hp|]. exists p.
      destruct p; try discriminate; repeat split; try assumption; try reflexivity.
  - assert (Hne : NetlifyLink.missingFields p <> []).
    { intros E. apply Hm in E. congruence. }
    destruct (NetlifyLink.missingFields p) as [|k ks] eqn:Ek; [congruence|].
    cbn [List.length Nat.eqb negb orb].
    assert (X : valid_link p && truthy (get p "consent") = false) by now rewrite Hv.
    do 4 right; left. split; [exact Hp|]. exists p.
    destruct p; try discriminate; repeat split; try assumption; try reflexivity.
Qed.

Ltac unpack :=
  repeat match goal with
         | H : _ /\ _ |- _ => destruct H
         | H : exists _, _ |- _ => destruct H
         | H : _ \/ _ |- _ => destruct H
         end.

Ltac same_payload :=
  repeat match goal with
         | H1 : ?x = inr ?p, H2 : ?x = inr ?q |- _ =>
             assert (p = q) by congruence; subst q; clear H2
         end.

(** X11. The link function answers 200 for exactly the POSTs whose body
    parses to a value other than null with the four required fields and
    consent all truthy. Its answer then carries the record built from that
    payload under the id temp-sample-<time>-<random>, with consent the
    boolean true, an annotator that is never empty (anonymous by default)
    and an English text that is never empty (the term by default). It
    answers 204 for exactly the OPTIONS requests, 405 for exactly the
    methods other than OPTIONS and POST, and 500 for exactly the POSTs
    whose body does not parse or parses to null. *)
Theorem function_links_exactly_the_valid_and_consented
        (c : NetlifyLink.clock) (e : NetlifyLink.event) :
  let res := NetlifyLink.handler c e in
  (statusCode res = 200%Z <->
   NetlifyLink.httpMethod e = "POST" /\
   exists p, NetlifyLink.parse_body c e = inr p /\ nullish p = false /\
             valid_link p = true /\ truthy (get p "consent") = true) /\
  (statusCode res = 200%Z ->
   exists p,
     NetlifyLink.parse_body c e = inr p /\
     let sampleId := ("temp-sample-" ++ NetlifyLink.c_Date_now c ++ "-"
                      ++ NetlifyLink.c_random c)%string in
     let record := NetlifyLink.mockRecord c sampleId p in
     res = reply 200 [("ok", JBool true); ("sampleId", JStr sampleId);
                      ("record", JObj record)] /\
     lookup "consent" record = JBool true /\
     truthy (lookup "annotator" record) = true /\
     truthy (get (lookup "en" record) "text") = true) /\
  (statusCode res = 204%Z <-> NetlifyLink.httpMethod e = "OPTIONS") /\
  (statusCode res = 405%Z <->
   NetlifyLink.httpMethod e <> "OPTIONS" /\ NetlifyLink.httpMethod e <> "POST") /\
  (statusCode res = 500%Z <->
   NetlifyLink.httpMethod e = "POST" /\
   ((exists message, NetlifyLink.parse_body c e = inl message) \/
    (exists p, NetlifyLink.parse_body c e = inr p /\ nullish p = true))).
Proof.
  cbv zeta.
  destruct (link_function_cases c e)
    as [[Hm Hs]|[[Hm [Hm' Hs]]|[[Hm [msg [Hp Hr]]]|[[Hm [p [Hp [Hn Hs]]]]
       |[[Hm [p [Hp [Hn [Hv Hs]]]]]|[Hm [p [Hp [Hn [Hv [Hc Hr]]]]]]]]]]];
    cbv zeta in *; try rewrite Hr; try rewrite Hs; cbn [statusCode reply NetlifyLink.failed];
    (split; [|split; [|split; [|split]]]);
    try (intros; discriminate);
    try (split; intros; unpack; same_payload; try discriminate; try congruence;
         repeat split; eauto 10; fail).
  - split; intros; unpack; same_payload; try discriminate.
    rewrite H2, H3 in Hv. discriminate.
  - intros _. exists p. split; [exact Hp|]. split; [reflexivity|].
    unfold NetlifyLink.mockRecord. cbn [lookup String.eqb Ascii.eqb Bool.eqb get].
    rewrite Hc. repeat split.
    + unfold js_or. destruct (truthy (get p "annotator")) eqn:Ha; [exact Ha|reflexivity].
    + apply truthy_js_or_r. unfold valid_link in Hv.
      now destruct (truthy (get p "term")).
Qed.

(** The scenario payload, consenting. *)
Lemma function_links_exactly_the_valid_and_consented_witness :
  statusCode
    (NetlifyLink.handler
       {| NetlifyLink.c_JSON_parse := fun _ => inr diabetes_request;
          NetlifyLink.c_Date_now := "1757465662382"; NetlifyLink.c_random := "k3j9x0q2m1";
          NetlifyLink.c_now := "2025-09-10T00:54:22.382Z" |}
       {| NetlifyLink.httpMethod := "POST"; NetlifyLink.ev_body := Some "{...}" |})
  = 200%Z.
Proof.
  apply (proj1 (function_links_exactly_the_valid_and_consented _ _)).
  split; [reflexivity|]. exists diabetes_request. repeat split; reflexivity.
Defined.

(** X12. A POST to the link function with no body, or an empty one, is
    read as the empty object: it is answered 400 with all four required
    fields listed as missing, in their order. *)
Theorem empty_body_lacks_all_four_fields (c : NetlifyLink.clock) (e : NetlifyLink.event) :
  NetlifyLink.httpMethod e = "POST" ->
  NetlifyLink.ev_body e = None \/ NetlifyLink.ev_body e = Some "" ->
  NetlifyLink.handler c e =
  reply 400 [("ok", JBool false);
             ("error",
               JStr "Missing required fields: term, category, enAudioId, htAudioId");
             ("missingFields",
               JArr [JStr "term"; JStr "category"; JStr "enAudioId"; JStr "htAudioId"])].
Proof.
  intros Hm Hb. unfold NetlifyLink.handler, NetlifyLink.parse_body. rewrite Hm.
  destruct Hb as [-> | ->]; reflexivity.
Qed.

(** A POST without a body, where JSON.parse would have thrown. *)
Lemma empty_body_lacks_all_four_fields_witness :
  statusCode
    (NetlifyLink.handler
       {| NetlifyLink.c_JSON_parse := fun _ => inl "SyntaxError: Unexpected token";
          NetlifyLink.c_Date_now := "1757465662382"; NetlifyLink.c_random := "k3j9x0q2m1";
          NetlifyLink.c_now := "2025-09-10T00:54:22.382Z" |}
       {| NetlifyLink.httpMethod := "POST"; NetlifyLink.ev_body := None |}) = 400%Z.
Proof.
  rewrite empty_body_lacks_all_four_fields; [reflexivity|reflexivity|left; reflexivity].
Defined.

(** ** A body that is not JSON *)
(** X13. A link whose body is not JSON is a 500 in all three
    implementations, with the message of the parser as details, and no file
    is written: Internal server error in the function, Linking failed in
    both servers (in the partitioned one for a body within the maximum,
    after data/pairs was ensured). *)
Theorem malformed_json_is_a_500_everywhere :
  (forall (c : NetlifyLink.clock) (e : NetlifyLink.event) (message : string),
      NetlifyLink.httpMethod e = "POST" ->
      NetlifyLink.parse_body c e = inl message ->
      NetlifyLink.handler c e =
      reply 500 [("ok", JBool false); ("error", JStr "Internal server error");
                 ("message",
                   JStr "Sample linking failed temporarily. Backend deployment needed.");
                 ("details", JStr message)]) /\
  (forall (h : host) (r : request) (message : string),
      h_JSON_parse h (concat (chunks r)) = inl message ->
      (body_size r <= Server.MAX_FILE_SIZE h)%Z ->
      h_refuses h (MkDir Server.PAIRS_DIR) = None ->
      Server.run (Server.link r) h =
      (send 500 [("ok", JBool false); ("error", JStr "Linking failed");
                 ("details", JStr message)], [MkDir Server.PAIRS_DIR])) /\
  (forall (h : host) (r : request) (message : string),
      h_JSON_parse h (concat (chunks r)) = inl message ->
      fst (Lab0.run (Lab0.link r) h) =
      Some (send 500 [("ok", JBool false); ("error", JStr "Linking failed");
                      ("details", JStr message)]) /\
      writes (snd (Lab0.run (Lab0.link r) h)) = []).
Proof.
  split; [|split].
  - intros c e message Hm Hp. unfold NetlifyLink.handler. rewrite Hm, Hp. reflexivity.
  - intros h r message Hp Hsz Hd.
    unfold Server.run, Server.link, try_catch, bind at 1, ask.
    unfold Server.ensureDir, try_catch, bind at 1.
    rewrite perform_accepted by assumption.
    unfold bind at 1. rewrite readBody_within by assumption.
    unfold bind at 1, lift. rewrite Hp. reflexivity.
  - intros h r message Hp.
    cbv [Lab0.run Lab0.link try_catch bind ask Lab0.readBody lift ret throw
         Lab0.ensureDir writeFileSync perform].
    rewrite Hp. destruct (h_refuses h (MkDir Lab0.DATA_DIR)); split; reflexivity.
Qed.

(** The body abc on the partitioned server. *)
Lemma malformed_json_is_a_500_everywhere_witness :
  Server.run (Server.link (post "/api/samples/link" [abc])) calm
  = (send 500 [("ok", JBool false); ("error", JStr "Linking failed");
               ("details", JStr "SyntaxError: Unexpected end of JSON input")],
     [MkDir Server.PAIRS_DIR]).
Proof.
  apply (proj1 (proj2 malformed_json_is_a_500_everywhere)); try reflexivity.
  vm_compute. congruence.
Defined.

(** ** The upload function and its drafts *)
Lemma split_app_end (sep : ascii) (a : string) :
  split sep (a ++ String sep "") = split sep a ++ [""].
Proof.
  induction a as [|c a IH]; simpl.
  - now rewrite Ascii.eqb_refl.
  - destruct (Ascii.eqb c sep).
    + now rewrite IH.
    + rewrite IH. pose proof (split_nonempty sep a).
      destruct (split sep a); [congruence|reflexivity].
Qed.

(** X14. The upload function of asr-upload.js: 204 for exactly the OPTIONS
    requests, 405 for exactly the methods other than OPTIONS and POST, 400
    for exactly the POSTs whose last path segment is neither en nor ht, 200
    for exactly the POSTs whose last segment is en or ht. The 200 answer is
    tagged ht-HT or en-US by that segment, always says codec opus and names
    its audio file <id>.webm, whatever the content type sent. A path that
    ends in a slash has an empty last segment, so it is refused. *)
Theorem upload_function_status_table (c : NetlifyAsr.clock) (e : NetlifyAsr.event) :
  let res := NetlifyAsr.handler c e in
  let lang := NetlifyAsr.lang_of (NetlifyAsr.ev_path e) in
  (statusCode res = 204%Z <-> NetlifyAsr.httpMethod e = "OPTIONS") /\
  (statusCode res = 405%Z <->
   NetlifyAsr.httpMethod e <> "OPTIONS" /\ NetlifyAsr.httpMethod e <> "POST") /\
  (statusCode res = 400%Z <->
   NetlifyAsr.httpMethod e = "POST" /\ lang <> "en" /\ lang <> "ht") /\
  (statusCode res = 200%Z <->
   NetlifyAsr.httpMethod e = "POST" /\ (lang = "en" \/ lang = "ht")) /\
  (statusCode res = 200%Z ->
   exists doc, json res = Some doc /\
     get doc "lang" = JStr (if lang =? "ht" then "ht-HT" else "en-US") /\
     get doc "codec" = JStr "opus" /\
     get doc "id"
     = JStr ("temp-" ++ NetlifyAsr.c_Date_now c ++ "-" ++ NetlifyAsr.c_random c)%string /\
     get doc "audioFile"
     = JStr (("temp-" ++ NetlifyAsr.c_Date_now c ++ "-" ++ NetlifyAsr.c_random c)
             ++ ".webm")%string) /\
  (forall pre, NetlifyAsr.lang_of (pre ++ "/") = "").
Proof.
  cbv zeta. unfold NetlifyAsr.handler.
  destruct (String.eqb_spec (NetlifyAsr.httpMethod e) "OPTIONS") as [Ho|Ho].
  { cbn. repeat split; intros; unpack; try discriminate; try congruence.
    unfold NetlifyAsr.lang_of. rewrite split_app_end, last_last. reflexivity. }
  destruct (String.eqb_spec (NetlifyAsr.httpMethod e) "POST") as [Hp|Hp]; cbn [negb].
  2: { cbn. repeat split; intros; unpack; try discriminate; try congruence.
       unfold NetlifyAsr.lang_of. rewrite split_app_end, last_last. reflexivity. }
  destruct (String.eqb_spec (NetlifyAsr.lang_of (NetlifyAsr.ev_path e)) "en") as [He|He];
    destruct (String.eqb_spec (NetlifyAsr.lang_of (NetlifyAsr.ev_path e)) "ht") as [Hh|Hh];
    cbn [orb negb]; cbn [statusCode reply json];
    repeat split; intros; unpack; try discriminate; try congruence; auto;
    try (unfold NetlifyAsr.lang_of; rewrite split_app_end, last_last; reflexivity);
    try (eexists; split; [reflexivity|]; repeat split; reflexivity).
Qed.

(** A POST to /api/asr/ht. *)
Lemma upload_function_status_table_witness :
  exists doc,
    json (NetlifyAsr.handler
            {| NetlifyAsr.c_Date_now := "1757465662382";
               NetlifyAsr.c_random := "k3j9x0q2m1";
               NetlifyAsr.c_now := "2025-09-10T00:54:22.382Z" |}
            {| NetlifyAsr.httpMethod := "POST"; NetlifyAsr.ev_path := "/api/asr/ht";
               NetlifyAsr.ev_body := None;
               NetlifyAsr.ev_content_type := Some "audio/wav" |}) = Some doc /\
    get doc "lang" = JStr "ht-HT" /\ get doc "codec" = JStr "opus".
Proof.
  destruct (upload_function_status_table
              {| NetlifyAsr.c_Date_now := "1757465662382";
                 NetlifyAsr.c_random := "k3j9x0q2m1";
                 NetlifyAsr.c_now := "2025-09-10T00:54:22.382Z" |}
              {| NetlifyAsr.httpMethod := "POST"; NetlifyAsr.ev_path := "/api/asr/ht";
                 NetlifyAsr.ev_body := None;
                 NetlifyAsr.ev_content_type := Some "audio/wav" |})
    as (_ & _ & _ & _ & H & _).
  destruct (H eq_refl) as (doc & Hdoc & Hlang & Hcodec & _).
  exists doc. repeat split; assumption.
Defined.

Lemma and_assoc_r4 (A B C D : Prop) : (A /\ B /\ C /\ D) <-> ((A /\ B /\ C) /\ D).
Proof. tauto. Qed.

Lemma query_lang_rejected (q : option string) :
  (or_str q "en" =? "en") || (or_str q "en" =? "ht") = false <->
  exists s, q = Some s /\ s <> "" /\ s <> "en" /\ s <> "ht".
Proof.
  destruct q as [s|]; simpl.
  - destruct (String.eqb_spec s "") as [->|Hs]; simpl.
    + split; [discriminate|]. intros [s [H [H' _]]]. inversion H. congruence.
    + destruct (String.eqb_spec s "en") as [->|Hen]; simpl.
      * split; [discriminate|]. intros [s [H [_ [H' _]]]]. inversion H. congruence.
      * destruct (String.eqb_spec s "ht") as [->|Hht]; simpl.
        -- split; [discriminate|]. intros [s [H [_ [_ H']]]]. inversion H. congruence.
        -- split; [|reflexivity]. intros _. exists s. auto.
  - split; [discriminate|]. intros [s [H _]]. discriminate.
Qed.

(** X15. The later drafts of the upload function (src/unnamed/part_001)
    refuse less: a POST is answered 400 exactly when its path is not empty,
    the last part of the path that is not empty is neither en nor ht, and
    the query gives a lang that is not empty and is neither en nor ht. When
    the path names the language, that language is taken and the answer is
    200; without a path the language is en and the answer is 200, whatever
    the query says. Slashes at the end of a path change nothing. *)
Theorem draft_rejects_only_a_bad_query_lang (c : NetlifyAsr.clock) (e : NetlifyAsrDraft.event) :
  let res := NetlifyAsrDraft.handler c e in
  (statusCode res = 400%Z <->
   NetlifyAsrDraft.httpMethod e = "POST" /\
   (exists path, NetlifyAsrDraft.ev_path e = Some path /\ path <> "") /\
   path_names_lang e = false /\
   exists q, NetlifyAsrDraft.ev_query_lang e = Some q /\ q <> "" /\ q <> "en" /\ q <> "ht") /\
  (NetlifyAsrDraft.httpMethod e = "POST" -> path_names_lang e = true ->
   statusCode res = 200%Z /\
   exists path part,
     NetlifyAsrDraft.ev_path e = Some path /\
     last (map Some (NetlifyAsrDraft.pathParts path)) None = Some part /\
     NetlifyAsrDraft.detect e = part) /\
  (NetlifyAsrDraft.httpMethod e = "POST" ->
   NetlifyAsrDraft.ev_path e = None \/ NetlifyAsrDraft.ev_path e = Some "" ->
   statusCode res = 200%Z /\ NetlifyAsrDraft.detect e = "en") /\
  (forall path, NetlifyAsrDraft.pathParts (path ++ "/") = NetlifyAsrDraft.pathParts path).
Proof.
  cbv zeta. rewrite !and_assoc_r4. split.
  2: { intros path. unfold NetlifyAsrDraft.pathParts.
       rewrite split_app_end, filter_app. simpl. apply app_nil_r. }
  unfold NetlifyAsrDraft.handler, path_names_lang, NetlifyAsrDraft.detect.
  destruct (String.eqb_spec (NetlifyAsrDraft.httpMethod e) "OPTIONS") as [Ho|Ho].
  { cbn. repeat split; intros; unpack; try discriminate; try congruence; auto. }
  destruct (String.eqb_spec (NetlifyAsrDraft.httpMethod e) "POST") as [Hp|Hp]; cbn [negb].
  2: { cbn. repeat split; intros; unpack; try discriminate; try congruence; auto. }
  destruct (NetlifyAsrDraft.ev_path e) as [path|] eqn:Epath.
  2: { cbn. repeat split; intros; unpack; try discriminate; try congruence; auto. }
  destruct (String.eqb_spec path "") as [Hempty|Hempty].
  { subst path. cbn. repeat split; intros; unpack; try discriminate; try congruence; auto. }
  pose proof (query_lang_rejected (NetlifyAsrDraft.ev_query_lang e)) as Hq.
  destruct (last (map Some (NetlifyAsrDraft.pathParts path)) None) as [part|] eqn:El.
  - destruct ((part =? "en") || (part =? "ht")) eqn:Epart.
    + rewrite Epart. cbn [negb statusCode reply]. clear Hq.
      repeat split; intros; unpack; try discriminate; auto;
      try (match goal with H : Some _ = Some "" |- _ => inversion H; contradiction end).
      exists path, part. auto.
    + destruct ((or_str (NetlifyAsrDraft.ev_query_lang e) "en" =? "en")
                || (or_str (NetlifyAsrDraft.ev_query_lang e) "en" =? "ht")) eqn:Eq;
        cbn [negb statusCode reply];
        repeat split; intros; unpack; try discriminate; auto;
      try (match goal with H : Some _ = Some "" |- _ => inversion H; contradiction end).
      * assert (true = false) by (apply Hq; eauto). discriminate.
      * exists path. auto.
      * apply Hq. reflexivity.
  - destruct ((or_str (NetlifyAsrDraft.ev_query_lang e) "en" =? "en")
              || (or_str (NetlifyAsrDraft.ev_query_lang e) "en" =? "ht")) eqn:Eq;
      cbn [negb statusCode reply];
      repeat split; intros; unpack; try discriminate; auto;
      try (match goal with H : Some _ = Some "" |- _ => inversion H; contradiction end).
    * assert (true = false) by (apply Hq; eauto). discriminate.
    * exists path. auto.
    * apply Hq. reflexivity.
Qed.

(** A path that ends in a slash, with a query that names no language. *)
Lemma draft_rejects_only_a_bad_query_lang_witness :
  statusCode
    (NetlifyAsrDraft.handler
       {| NetlifyAsr.c_Date_now := "1757465662382";
          NetlifyAsr.c_random := "k3j9x0q2m1";
          NetlifyAsr.c_now := "2025-09-10T00:54:22.382Z" |}
       {| NetlifyAsrDraft.httpMethod := "POST";
          NetlifyAsrDraft.ev_path := Some "/.netlify/functions/asr-upload/ht/";
          NetlifyAsrDraft.ev_query_lang := Some "fr";
          NetlifyAsrDraft.ev_body := None;
          NetlifyAsrDraft.ev_content_type := None |}) = 200%Z.
Proof.
  apply (proj1 (proj2 (draft_rejects_only_a_bad_query_lang _ _))); reflexivity.
Defined.

(** ** The CSV export *)
Lemma string_app_nil_r (s : string) : (s ++ "")%string = s.
Proof. induction s as [|c s IH]; simpl; [reflexivity|now rewrite IH]. Qed.

Lemma includes_char (s : string) (c : ascii) :
  includes s (String c "") = has_char c s.
Proof.
  induction s as [|d s IH]; [reflexivity|].
  cbn [includes has_char]. rewrite IH. f_equal. simpl.
  destruct (ascii_dec c d) as [->|Hne].
  - rewrite Ascii.eqb_refl. now destruct s.
  - destruct (Ascii.eqb_spec d c); congruence.
Qed.

Lemma double_quotes_longer (field : string) :
  (String.length field <= String.length (Csv.double_quotes field))%nat.
Proof.
  induction field as [|c f IH]; simpl; [lia|].
  destruct (Ascii.eqb c Csv.dq); simpl; lia.
Qed.

Lemma read_bare (st : csv_state) (cell field rest : string) (cells : list string) :
  st <> Quoted ->
  has_char "," field = false -> has_char Csv.dq field = false ->
  has_char Csv.lf field = false ->
  field <> "" ->
  read_csv st cell cells (field ++ rest) = read_csv Bare (cell ++ field) cells rest.
Proof.
  revert st cell; induction field as [|c field IH]; intros st cell Hst Hc Hq Hl Hne;
    [congruence|].
  simpl in Hc, Hq, Hl.
  apply orb_false_elim in Hc as [Hc Hc'], Hq as [Hq Hq'], Hl as [Hl Hl'].
  assert (Hstep : read_csv st cell cells (String c field ++ rest)
                  = read_csv Bare (cell ++ String c "") cells (field ++ rest)).
  { simpl. destruct st; try congruence; now rewrite ?Hq, ?Hc, ?Hl. }
  rewrite Hstep. destruct field as [|d field].
  - reflexivity.
  - rewrite IH; auto; try discriminate. now rewrite string_app_assoc.
Qed.

Lemma read_quoted (cell field rest : string) (cells : list string) :
  read_csv Quoted cell cells (Csv.double_quotes field ++ String Csv.dq rest)
  = read_csv AfterQuote (cell ++ field) cells rest.
Proof.
  revert cell; induction field as [|c field IH]; intros cell.
  - simpl. now rewrite string_app_nil_r.
  - cbn [Csv.double_quotes]. destruct (Ascii.eqb_spec c Csv.dq) as [->|Hne].
    + simpl. rewrite IH. now rewrite string_app_assoc.
    + simpl. apply Ascii.eqb_neq in Hne. rewrite Hne. rewrite IH.
      now rewrite string_app_assoc.
Qed.

(** At the end of a cell the reader does the same in every state but the
    quoted one. *)
Lemma cell_ends (st : csv_state) (cell rest : string) (cells : list string) :
  st <> Quoted -> ends_cell rest = true ->
  read_csv st cell cells rest
  = match rest with
    | EmptyString => [cells ++ [cell]]
    | String c more =>
        if Ascii.eqb c "," then read_csv AtStart "" (cells ++ [cell]) more
        else (cells ++ [cell]) :: read_csv AtStart "" [] more
    end.
Proof.
  intros Hst He. destruct rest as [|c more]; [reflexivity|].
  simpl in He. apply orb_true_iff in He.
  destruct (Ascii.eqb_spec c ",") as [->|Hc].
  - destruct st; try congruence; reflexivity.
  - destruct He as [He|He]; [discriminate|].
    apply Ascii.eqb_eq in He; subst c.
    destruct st; try congruence; reflexivity.
Qed.

(** An escaped value, followed by the end of a cell, is read as the value. *)
Lemma read_escaped (field rest : string) (cells : list string) :
  ends_cell rest = true ->
  read_csv AtStart "" cells (Csv.escapeCSV field ++ rest)
  = read_csv Bare field cells rest.
Proof.
  intros He.
  assert (Hq : read_csv AtStart "" cells
                 ((String Csv.dq (Csv.double_quotes field) ++ String Csv.dq "") ++ rest)
               = read_csv Bare field cells rest).
  { rewrite string_app_assoc. cbn [append read_csv]. rewrite Ascii.eqb_refl.
    rewrite read_quoted. cbn [append].
    rewrite (cell_ends AfterQuote), (cell_ends Bare); auto; discriminate. }
  unfold Csv.escapeCSV. rewrite !includes_char.
  destruct (has_char "," field) eqn:Hc; cbn [orb]; [exact Hq|].
  destruct (has_char Csv.dq field) eqn:Hd; cbn [orb]; [exact Hq|].
  destruct (has_char Csv.lf field) eqn:Hl; [exact Hq|].
  destruct field as [|c f].
  - cbn [append]. rewrite (cell_ends AtStart), (cell_ends Bare); auto; discriminate.
  - rewrite read_bare; auto; discriminate.
Qed.

(** A line of escaped values, followed by the end of the text or by a line
    feed, is read as one row. *)
Lemma read_row (values : list string) (v : string) (cells : list string) (rest : string) :
  rest = "" \/ (exists more, rest = String Csv.lf more) ->
  read_csv AtStart "" cells (join "," (map Csv.escapeCSV (v :: values)) ++ rest)
  = match rest with
    | EmptyString => [cells ++ v :: values]
    | String _ more => (cells ++ v :: values) :: read_csv AtStart "" [] more
    end.
Proof.
  intros Hrest. revert v cells; induction values as [|w values IH]; intros v cells.
  - cbn [map join]. rewrite read_escaped.
    + rewrite cell_ends; [|discriminate|];
        destruct Hrest as [->|[more ->]]; reflexivity.
    + destruct Hrest as [->|[more ->]]; reflexivity.
  - change (join "," (map Csv.escapeCSV (v :: w :: values)))
      with (Csv.escapeCSV v ++ String "," (join "," (map Csv.escapeCSV (w :: values))))%string.
    rewrite string_app_assoc. rewrite read_escaped; [|reflexivity].
    cbn [append]. rewrite cell_ends; [|discriminate|reflexivity].
    rewrite Ascii.eqb_refl. rewrite IH. rewrite <- !app_assoc. reflexivity.
Qed.

Lemma read_rows (rows : list (list string)) (r : list string) :
  Forall (fun cells => cells <> []) (r :: rows) ->
  read_csv AtStart "" []
    (join (String Csv.lf "") (map (fun cells => join "," (map Csv.escapeCSV cells)) (r :: rows)))
  = r :: rows.
Proof.
  revert r; induction rows as [|r' rows IH]; intros r Hne.
  - inversion Hne as [|? ? Hr _]; subst. destruct r as [|v values]; [congruence|].
    change (read_csv AtStart "" [] (join "," (map Csv.escapeCSV (v :: values)))
            = [v :: values]).
    rewrite <- (string_app_nil_r (join _ _)).
    rewrite read_row; auto.
  - inversion Hne as [|? ? Hr Hrest]; subst. destruct r as [|v values]; [congruence|].
    set (line := fun cells => join "," (map Csv.escapeCSV cells)).
    change (join (String Csv.lf "") (map line ((v :: values) :: r' :: rows)))
      with (line (v :: values) ++
            String Csv.lf (join (String Csv.lf "") (map line (r' :: rows))))%string.
    unfold line at 1. rewrite read_row; [|right; eauto].
    cbn [app]. f_equal. apply IH; assumption.
Qed.

Lemma escapeCSV_headers : map Csv.escapeCSV Csv.headers = Csv.headers.
Proof. reflexivity. Qed.

(** X16. What [convertToCSV] writes reads back: for every list of items
    that is not empty, a reader of CSV finds the header row and then, item
    by item and in their order, one row of the thirteen values, each
    character for character what the item held, also where a value contains
    commas, double quotes or line feeds. For no item the text is the
    sentence No data available, which reads as one row of one cell and not
    as the header. *)
Theorem csv_export_reads_back (String_of : PrimFloat.float -> string)
    (data : list Csv.item) :
  read_csv AtStart "" [] (Csv.convertToCSV String_of data)
  = match data with
    | [] => [["No data available"]]
    | _ => Csv.headers :: map (values_of String_of) data
    end.
Proof.
  unfold Csv.convertToCSV. destruct data as [|i data]; [reflexivity|].
  cbv zeta. rewrite <- escapeCSV_headers at 1.
  set (line := fun cells => join "," (map Csv.escapeCSV cells)).
  assert (Hrows : [join "," (map Csv.escapeCSV Csv.headers)]
                  ++ map (fun i => join "," (Csv.row String_of i)) (i :: data)
                  = map line (Csv.headers :: map (values_of String_of) (i :: data))).
  { cbn [app map]. f_equal. rewrite map_map. reflexivity. }
  rewrite Hrows. unfold line. rewrite read_rows; [reflexivity|].
  constructor; [discriminate|]. apply Forall_forall. intros cells Hin.
  apply in_map_iff in Hin as [j [<- _]]. discriminate.
Qed.

(** X17. [escapeCSV] leaves a value as it is exactly when the value holds
    no comma, no double quote and no line feed, and it never gives two
    different values the same cell. *)
Theorem escapeCSV_quotes_only_when_needed (field : string) :
  (Csv.escapeCSV field = field <->
   has_char "," field = false /\ has_char Csv.dq field = false /\
   has_char Csv.lf field = false) /\
  (forall other, Csv.escapeCSV other = Csv.escapeCSV field -> other = field).
Proof.
  split.
  - unfold Csv.escapeCSV. rewrite !includes_char.
    pose proof (double_quotes_longer field) as Hlen.
    destruct (has_char "," field), (has_char Csv.dq field), (has_char Csv.lf field);
      cbn [orb]; split; intros H; try tauto;
      try (exfalso; intuition discriminate);
      exfalso; apply (f_equal String.length) in H; simpl in H;
      rewrite string_length_app in H; simpl in H; lia.
  - intros other H.
    apply (f_equal (fun t => read_csv AtStart "" [] (t ++ ""))) in H. cbv beta in H.
    rewrite !read_escaped in H by reflexivity. now inversion H.
Qed.
